(** * A Rocq model of the WhatsApp MCP command-line clients

    The repository holds two Python scripts built on the [mcp] package:
    - [client/client_stdio_inspect.py]: connects to a stdio server and
      prints its tools, resources and prompts;
    - [client/client_stdio_toolcalls_interactive.py]: a menu that issues
      [tools/call] and [resources/read] requests and prints the results.

    The scripts are embedded shallowly: Python values are an inductive
    type, printing and reading are threaded through an explicit world,
    and exceptions are explicit results.  The protocol components that
    the design document names but the scripts delegate to the [mcp]
    package (codec, correlator, session state machine) are modelled from
    the design document in modules of their own. *)

From stdpp Require Import gmap strings list.
From Stdlib Require Import ZArith Ascii String DecimalString DecimalN.

Open Scope string_scope.
Open Scope Z_scope.

(** ** Python values *)

(** The values the scripts handle: results of the [mcp] session calls are
    objects with attributes; schemas and parsed JSON are dicts, lists,
    strings, numbers, booleans and [None].  A dict keeps insertion order
    and has string keys.  A float is kept as the literal it was read
    from, so two spellings of one number are distinct values here. *)
Unset Elimination Schemes.
Inductive pyval : Type :=
| PyNone
| PyBool (b : bool)
| PyInt (z : Z)
| PyFloat (lit : string)
| PyStr (s : string)
| PyList (l : list pyval)
| PyDict (d : list (string * pyval))
| PyObj (cls : string) (attrs : list (string * pyval)).
Set Elimination Schemes.

(** Induction over values, with the hypothesis for every element of a
    list and every value of a dict or an object. *)
Section PyvalInduction.
Variable P : pyval -> Prop.
Hypothesis HNone : P PyNone.
Hypothesis HBool : forall b, P (PyBool b).
Hypothesis HInt : forall z, P (PyInt z).
Hypothesis HFloat : forall lit, P (PyFloat lit).
Hypothesis HStr : forall s, P (PyStr s).
Hypothesis HList : forall l, Forall P l -> P (PyList l).
Hypothesis HDict : forall d, Forall (fun kv => P (snd kv)) d -> P (PyDict d).
Hypothesis HObj :
  forall cls attrs, Forall (fun kv => P (snd kv)) attrs -> P (PyObj cls attrs).

Fixpoint pyval_induction (v : pyval) : P v :=
  match v with
  | PyNone => HNone
  | PyBool b => HBool b
  | PyInt z => HInt z
  | PyFloat lit => HFloat lit
  | PyStr s => HStr s
  | PyList l =>
      HList l
        ((fix all (l : list pyval) : Forall P l :=
            match l with
            | [] => @List.Forall_nil _ P
            | x :: l' => @List.Forall_cons _ P x l' (pyval_induction x) (all l')
            end) l)
  | PyDict d =>
      HDict d
        ((fix all (d : list (string * pyval)) : Forall (fun kv => P (snd kv)) d :=
            match d with
            | [] => @List.Forall_nil _ _
            | kv :: d' => @List.Forall_cons _ _ kv d' (pyval_induction (snd kv)) (all d')
            end) d)
  | PyObj cls attrs =>
      HObj cls attrs
        ((fix all (d : list (string * pyval)) : Forall (fun kv => P (snd kv)) d :=
            match d with
            | [] => @List.Forall_nil _ _
            | kv :: d' => @List.Forall_cons _ _ kv d' (pyval_induction (snd kv)) (all d')
            end) attrs)
  end.
End PyvalInduction.

(** Exception classes, all below [Exception].  [KeyboardInterrupt] and
    task cancellation derive from [BaseException] only and are outside
    the model. *)
Inductive exn_class : Type :=
| JSONDecodeError
| AttributeError
| TypeError
| KeyError
| ValueError
| EOFError
| RecursionError
| OtherError (name : string).

Record exn : Type := Exn { exn_cls : exn_class; exn_msg : string }.

Inductive outcome (A : Type) : Type :=
| Ok (a : A)
| Raise (e : exn).
Arguments Ok {A} a.
Arguments Raise {A} e.

Definition rbind {A B} (r : outcome A) (f : A -> outcome B) : outcome B :=
  match r with
  | Ok a => f a
  | Raise e => Raise e
  end.

Fixpoint rmap {A B} (f : A -> outcome B) (l : list A) : outcome (list B) :=
  match l with
  | [] => Ok []
  | x :: l' =>
      rbind (f x) (fun y => rbind (rmap f l') (fun ys => Ok (y :: ys)))
  end.

Definition exn_class_eqb (a b : exn_class) : bool :=
  match a, b with
  | JSONDecodeError, JSONDecodeError => true
  | AttributeError, AttributeError => true
  | TypeError, TypeError => true
  | KeyError, KeyError => true
  | ValueError, ValueError => true
  | EOFError, EOFError => true
  | RecursionError, RecursionError => true
  | OtherError n, OtherError m => String.eqb n m
  | _, _ => false
  end.

(** Lookup in an insertion-ordered association list. *)
Fixpoint assoc {A} (k : string) (l : list (string * A)) : option A :=
  match l with
  | [] => None
  | (k', v) :: l' => if String.eqb k k' then Some v else assoc k l'
  end.

(** [d[k] = v]: an existing key keeps its position, a new key goes last. *)
Fixpoint dict_set {A} (l : list (string * A)) (k : string) (v : A)
  : list (string * A) :=
  match l with
  | [] => [(k, v)]
  | (k', v') :: l' =>
      if String.eqb k k' then (k', v) :: l' else (k', v') :: dict_set l' k v
  end.

(** [getattr]: only objects carry the attribute names the scripts ask
    for ([content], [text], [tools], [name], ...); the built-in types
    have none of them. *)
Definition get_attr (name : string) (v : pyval) : option pyval :=
  match v with
  | PyObj _ attrs => assoc name attrs
  | _ => None
  end.

Definition chars (s : string) : list pyval :=
  map (fun c => PyStr (String c EmptyString)) (list_ascii_of_string s).

(** [for x in v]: a list gives its items, a [str] its characters (here
    its bytes), a dict its keys; the objects of the model define no
    [__iter__]. *)
Definition py_iter (v : pyval) : outcome (list pyval) :=
  match v with
  | PyList l => Ok l
  | PyStr s => Ok (chars s)
  | PyDict d => Ok (map (fun kv => PyStr (fst kv)) d)
  | _ => Raise (Exn TypeError "object is not iterable")
  end.

(** Truth value of [v] in [if v] and [v and ...]. *)
Definition py_truthy (v : pyval) : bool :=
  match v with
  | PyNone => false
  | PyBool b => b
  | PyInt z => negb (z =? 0)
  | PyFloat _ => true
  | PyStr s => negb (String.eqb s "")
  | PyList l => match l with [] => false | _ => true end
  | PyDict d => match d with [] => false | _ => true end
  | PyObj _ _ => true
  end.

(** ** [json.loads] *)

Definition is_ws (c : ascii) : bool :=
  Ascii.eqb c " " || Ascii.eqb c "009" || Ascii.eqb c "010" || Ascii.eqb c "013".

Fixpoint skip_ws (s : string) : string :=
  match s with
  | String c r => if is_ws c then skip_ws r else s
  | EmptyString => s
  end.

Definition is_digit (c : ascii) : bool :=
  let n := N_of_ascii c in ((48 <=? n) && (n <=? 57))%N.

Fixpoint scan_digits (s : string) : string * string :=
  match s with
  | String c r =>
      if is_digit c then let '(ds, r') := scan_digits r in (String c ds, r')
      else (EmptyString, s)
  | EmptyString => (EmptyString, s)
  end.

(** The integer part: a lone [0], or a non-zero digit and more digits. *)
Definition scan_int (s : string) : option (string * string) :=
  match s with
  | String c r =>
      if Ascii.eqb c "0" then Some ("0", r)
      else if is_digit c then
        let '(ds, r') := scan_digits r in Some (String c ds, r')
      else None
  | EmptyString => None
  end.

(** The fraction: a dot and at least one digit, else nothing is taken. *)
Definition scan_frac (s : string) : string * string :=
  match s with
  | String "." r =>
      let '(ds, r') := scan_digits r in
      match ds with
      | EmptyString => (EmptyString, s)
      | _ => (String "." ds, r')
      end
  | _ => (EmptyString, s)
  end.

(** The exponent: [e] or [E], a sign if any, at least one digit. *)
Definition scan_exp (s : string) : string * string :=
  match s with
  | String c r =>
      if Ascii.eqb c "e" || Ascii.eqb c "E" then
        let '(sign, r1) :=
          match r with
          | String "+" r1 => ("+", r1)
          | String "-" r1 => ("-", r1)
          | _ => (EmptyString, r)
          end in
        let '(ds, r2) := scan_digits r1 in
        match ds with
        | EmptyString => (EmptyString, s)
        | _ => (String c (sign ++ ds), r2)
        end
      else (EmptyString, s)
  | EmptyString => (EmptyString, s)
  end.

Definition digits_value (ds : string) : Z :=
  match NilEmpty.uint_of_string ds with
  | Some d => Z.of_N (N.of_uint d)
  | None => 0
  end.

(** A number literal: an integer when it has neither fraction nor
    exponent, a float otherwise. *)
Definition parse_number (s : string) : option (pyval * string) :=
  let '(neg, s1) :=
    match s with
    | String "-" r => (true, r)
    | _ => (false, s)
    end in
  match scan_int s1 with
  | None => None
  | Some (ip, s2) =>
      let '(fp, s3) := scan_frac s2 in
      let '(ep, s4) := scan_exp s3 in
      match fp, ep with
      | EmptyString, EmptyString =>
          Some (PyInt (if neg then - digits_value ip else digits_value ip), s4)
      | _, _ =>
          Some (PyFloat ((if neg then "-" else "") ++ ip ++ fp ++ ep), s4)
      end
  end.

Definition hex_value (c : ascii) : option N :=
  let n := N_of_ascii c in
  if ((48 <=? n) && (n <=? 57))%N then Some (n - 48)%N
  else if ((97 <=? n) && (n <=? 102))%N then Some (n - 87)%N
  else if ((65 <=? n) && (n <=? 70))%N then Some (n - 55)%N
  else None.

Definition hex4 (a b c d : ascii) : option N :=
  match hex_value a, hex_value b, hex_value c, hex_value d with
  | Some x, Some y, Some z, Some w => Some (((x * 16 + y) * 16 + z) * 16 + w)%N
  | _, _, _, _ => None
  end.

(** A code point as UTF-8 bytes (strings here are byte strings). *)
Definition utf8_encode (n : N) : string :=
  let b (x : N) := ascii_of_N x in
  (if n <? 128 then String (b n) EmptyString
   else if n <? 2048 then
     String (b (192 + n / 64)) (String (b (128 + n mod 64)) EmptyString)
   else if n <? 65536 then
     String (b (224 + n / 4096))
       (String (b (128 + (n / 64) mod 64))
          (String (b (128 + n mod 64)) EmptyString))
   else
     String (b (240 + n / 262144))
       (String (b (128 + (n / 4096) mod 64))
          (String (b (128 + (n / 64) mod 64))
             (String (b (128 + n mod 64)) EmptyString))))%N.

Definition is_high_surrogate (n : N) : bool := ((55296 <=? n) && (n <=? 56319))%N.
Definition is_low_surrogate (n : N) : bool := ((56320 <=? n) && (n <=? 57343))%N.

(** The body of a string literal, after its opening quote: the decoded
    text and what follows the closing quote.  Control characters must be
    escaped; an escaped surrogate pair is one code point. *)
Fixpoint scan_string (s : string) : option (string * string) :=
  match s with
  | EmptyString => None
  | String "034" r => Some (EmptyString, r)
  | String "\" r =>
      match r with
      | String "u" (String a (String b (String c (String d r1)))) =>
          match hex4 a b c d with
          | None => None
          | Some hi =>
              let single :=
                match scan_string r1 with
                | Some (t, r') => Some (utf8_encode hi ++ t, r')
                | None => None
                end in
              if is_high_surrogate hi then
                match r1 with
                | String "\" (String "u"
                    (String a' (String b' (String c' (String d' r2))))) =>
                    match hex4 a' b' c' d' with
                    | Some lo =>
                        if is_low_surrogate lo then
                          match scan_string r2 with
                          | Some (t, r') =>
                              Some (utf8_encode
                                      (65536 + (hi - 55296) * 1024 + (lo - 56320))%N
                                      ++ t, r')
                          | None => None
                          end
                        else single
                    | None => single
                    end
                | _ => single
                end
              else single
          end
      | String e r1 =>
          let esc (c : ascii) :=
            match scan_string r1 with
            | Some (t, r') => Some (String c t, r')
            | None => None
            end in
          if Ascii.eqb e "034" then esc "034"%char
          else if Ascii.eqb e "\" then esc "\"%char
          else if Ascii.eqb e "/" then esc "/"%char
          else if Ascii.eqb e "b" then esc "008"%char
          else if Ascii.eqb e "f" then esc "012"%char
          else if Ascii.eqb e "n" then esc "010"%char
          else if Ascii.eqb e "r" then esc "013"%char
          else if Ascii.eqb e "t" then esc "009"%char
          else None
      | EmptyString => None
      end
  | String c r =>
      if (N_of_ascii c <? 32)%N then None
      else
        match scan_string r with
        | Some (t, r') => Some (String c t, r')
        | None => None
        end
  end.

(** [s] with the prefix [p] removed, when it starts with [p]. *)
Fixpoint strip_prefix (p s : string) : option string :=
  match p with
  | EmptyString => Some s
  | String c p' =>
      match s with
      | String d s' => if Ascii.eqb c d then strip_prefix p' s' else None
      | EmptyString => None
      end
  end.

Definition parse_constant (s : string) : option (pyval * string) :=
  match strip_prefix "null" s with
  | Some r => Some (PyNone, r)
  | None =>
  match strip_prefix "true" s with
  | Some r => Some (PyBool true, r)
  | None =>
  match strip_prefix "false" s with
  | Some r => Some (PyBool false, r)
  | None =>
  match parse_number s with
  | Some res => Some res
  | None =>
  match strip_prefix "NaN" s with
  | Some r => Some (PyFloat "NaN", r)
  | None =>
  match strip_prefix "Infinity" s with
  | Some r => Some (PyFloat "Infinity", r)
  | None =>
  match strip_prefix "-Infinity" s with
  | Some r => Some (PyFloat "-Infinity", r)
  | None => None
  end end end end end end end.

(** One JSON value at the head of [s] and the text after it.  The three
    functions follow the decoder's scanner: a value, the members of an
    object after its brace, the elements of an array after its bracket.
    [fuel] bounds the number of nested calls; [parse_json] supplies
    enough for every text.  This is the grammar alone: the limits of the
    interpreter are in [json_loads] below. *)
Fixpoint parse_value (fuel : nat) (s : string) : option (pyval * string) :=
  match fuel with
  | O => None
  | S fuel' =>
      match s with
      | String "034" r =>
          match scan_string r with
          | Some (t, r') => Some (PyStr t, r')
          | None => None
          end
      | String "{" r =>
          match skip_ws r with
          | String "}" r' => Some (PyDict [], r')
          | r1 => parse_members fuel' r1 []
          end
      | String "[" r =>
          match skip_ws r with
          | String "]" r' => Some (PyList [], r')
          | r1 => parse_elements fuel' r1 []
          end
      | _ => parse_constant s
      end
  end
with parse_members (fuel : nat) (s : string) (acc : list (string * pyval))
  : option (pyval * string) :=
  match fuel with
  | O => None
  | S fuel' =>
      match s with
      | String "034" r =>
          match scan_string r with
          | Some (k, r1) =>
              match skip_ws r1 with
              | String ":" r2 =>
                  match parse_value fuel' (skip_ws r2) with
                  | Some (v, r3) =>
                      match skip_ws r3 with
                      | String "}" r4 => Some (PyDict (dict_set acc k v), r4)
                      | String "," r4 =>
                          parse_members fuel' (skip_ws r4) (dict_set acc k v)
                      | _ => None
                      end
                  | None => None
                  end
              | _ => None
              end
          | None => None
          end
      | _ => None
      end
  end
with parse_elements (fuel : nat) (s : string) (acc : list pyval)
  : option (pyval * string) :=
  match fuel with
  | O => None
  | S fuel' =>
      match parse_value fuel' s with
      | Some (v, r1) =>
          match skip_ws r1 with
          | String "]" r2 => Some (PyList (acc ++ [v]), r2)
          | String "," r2 => parse_elements fuel' (skip_ws r2) (acc ++ [v])
          | _ => None
          end
      | None => None
      end
  end.

(** The whole text is one value between optional white space; [None]
    stands for [JSONDecodeError]. *)
Definition parse_json (s : string) : option pyval :=
  match parse_value (2 * String.length s + 2) (skip_ws s) with
  | Some (v, r) =>
      match skip_ws r with
      | EmptyString => Some v
      | _ => None
      end
  | None => None
  end.

(** ** The Python runtime the scripts rely on *)

(** What the model does not compute: the text [str] gives for a value
    that is not a [str], an [int], a [bool] or [None] (it depends on the
    class), and the text [json.dumps(v, indent=2)] gives for a parsed
    value (it depends on how floats print), and the text of an
    exception's [__dict__]; how many nested calls the interpreter still
    allows where the scripts call [json.loads] and [_print_schema] (it
    depends on [sys.getrecursionlimit()] and on the frames already in
    use); what [int] makes of a literal with characters outside ASCII
    (it depends on the Unicode tables: [int('١٢')] is 12), a value or the
    message of the [ValueError]; which exception classes that the model
    only knows by name derive from [ValueError]; and the message of the
    [RecursionError] of a call nested too deep (it names what the
    interpreter was doing). *)
Class Runtime : Type := {
  py_repr : pyval -> string;
  json_dumps : pyval -> string;
  exn_dict_repr : exn -> string;
  json_depth_room : nat;
  schema_depth_room : nat;
  unicode_int : string -> Z + string;
  value_error_class : string -> bool;
  recursion_message : string;
}.

Definition str_of_Z (z : Z) : string := NilZero.string_of_int (Z.to_int z).

(** [str(v)], also what an f-string puts for [{v}]. *)
Definition py_str `{Runtime} (v : pyval) : string :=
  match v with
  | PyStr s => s
  | PyInt z => str_of_Z z
  | PyBool true => "True"
  | PyBool false => "False"
  | PyNone => "None"
  | _ => py_repr v
  end.

(** [sep.join(l)]. *)
Definition join (sep : string) (l : list string) : string := String.concat sep l.

Definition newline : string := String "010" EmptyString.

(** [s * n]. *)
Fixpoint str_repeat (s : string) (n : nat) : string :=
  match n with
  | O => EmptyString
  | S n' => s ++ str_repeat s n'
  end.

Definition catches (classes : list exn_class) (e : exn) : bool :=
  existsb (exn_class_eqb (exn_cls e)) classes.

(** [try: body / except (classes): handler]. *)
Definition try_except {A} (body : outcome A) (classes : list exn_class)
    (handler : exn -> outcome A) : outcome A :=
  match body with
  | Ok a => Ok a
  | Raise e => if catches classes e then handler e else Raise e
  end.

(** ** [json.loads] under the interpreter's limits *)

(** [sys.get_int_max_str_digits()], at its default. *)
Definition int_max_str_digits : N := 4300.

(** The message of the [ValueError] that [int] raises for a literal of
    [n] digits, more than the limit. *)
Definition int_limit_message (n : nat) : string :=
  "Exceeds the limit (4300 digits) for integer string conversion: value has "
  ++ str_of_Z (Z.of_nat n)
  ++ " digits; use sys.set_int_max_str_digits() to increase the limit".

(** What the decoder's scanner makes of the text at its head: a value
    and the rest of the text, or the exception it stops with. *)
Inductive scanned : Type :=
| Scanned (v : pyval) (rest : string)
| NotJson
| TooManyDigits (n : nat)
| TooDeep (container : string).

(** The digits of the integer literal that [s] starts with and [rest]
    follows: the sign is not counted. *)
Definition int_literal_digits (s rest : string) : nat :=
  (String.length s - String.length rest
   - match s with String "-" _ => 1 | _ => 0 end)%nat.

(** A constant or a number; an integer literal goes through [int],
    which refuses more than [int_max_str_digits] digits. *)
Definition scan_constant (s : string) : scanned :=
  match parse_constant s with
  | Some (PyInt z, rest) =>
      let n := int_literal_digits s rest in
      if (int_max_str_digits <? N.of_nat n)%N then TooManyDigits n
      else Scanned (PyInt z) rest
  | Some (v, rest) => Scanned v rest
  | None => NotJson
  end.

(** The scanner of [parse_value], with the interpreter's limits: the
    first failure met from the left decides.  [room] is the number of
    nested arrays and objects the scanner may still enter: each one is a
    recursive call of the scanner, and without room it raises
    [RecursionError]. *)
Fixpoint scan_value (fuel : nat) (room : nat) (s : string) : scanned :=
  match fuel with
  | O => NotJson
  | S fuel' =>
      match s with
      | String "034" r =>
          match scan_string r with
          | Some (t, r') => Scanned (PyStr t) r'
          | None => NotJson
          end
      | String "{" r =>
          match room with
          | O => TooDeep "object"
          | S room' =>
              match skip_ws r with
              | String "}" r' => Scanned (PyDict []) r'
              | r1 => scan_members fuel' room' r1 []
              end
          end
      | String "[" r =>
          match room with
          | O => TooDeep "array"
          | S room' =>
              match skip_ws r with
              | String "]" r' => Scanned (PyList []) r'
              | r1 => scan_elements fuel' room' r1 []
              end
          end
      | _ => scan_constant s
      end
  end
with scan_members (fuel : nat) (room : nat) (s : string)
    (acc : list (string * pyval)) : scanned :=
  match fuel with
  | O => NotJson
  | S fuel' =>
      match s with
      | String "034" r =>
          match scan_string r with
          | Some (k, r1) =>
              match skip_ws r1 with
              | String ":" r2 =>
                  match scan_value fuel' room (skip_ws r2) with
                  | Scanned v r3 =>
                      match skip_ws r3 with
                      | String "}" r4 => Scanned (PyDict (dict_set acc k v)) r4
                      | String "," r4 =>
                          scan_members fuel' room (skip_ws r4) (dict_set acc k v)
                      | _ => NotJson
                      end
                  | failure => failure
                  end
              | _ => NotJson
              end
          | None => NotJson
          end
      | _ => NotJson
      end
  end
with scan_elements (fuel : nat) (room : nat) (s : string) (acc : list pyval)
  : scanned :=
  match fuel with
  | O => NotJson
  | S fuel' =>
      match scan_value fuel' room s with
      | Scanned v r1 =>
          match skip_ws r1 with
          | String "]" r2 => Scanned (PyList (acc ++ [v])) r2
          | String "," r2 => scan_elements fuel' room (skip_ws r2) (acc ++ [v])
          | _ => NotJson
          end
      | failure => failure
      end
  end.

(** [type(v).__name__]. *)
Definition type_name (v : pyval) : string :=
  match v with
  | PyNone => "NoneType"
  | PyBool _ => "bool"
  | PyInt _ => "int"
  | PyFloat _ => "float"
  | PyStr _ => "str"
  | PyList _ => "list"
  | PyDict _ => "dict"
  | PyObj cls _ => cls
  end.

(** [json.loads(v)]: a [str] is scanned as one value between optional
    white space; any other value is rejected with [TypeError] ([bytes]
    and [bytearray] are not modelled).  A text that is not JSON raises
    [JSONDecodeError]; an integer literal of more than 4300 digits raises
    the [ValueError] of [int], which is not a [JSONDecodeError]; arrays
    and objects nested beyond [json_depth_room] raise [RecursionError]. *)
Definition json_loads `{Runtime} (v : pyval) : outcome pyval :=
  match v with
  | PyStr s =>
      match scan_value (2 * String.length s + 2) json_depth_room (skip_ws s) with
      | Scanned j r =>
          match skip_ws r with
          | EmptyString => Ok j
          | _ => Raise (Exn JSONDecodeError "Extra data")
          end
      | NotJson => Raise (Exn JSONDecodeError "Expecting value")
      | TooManyDigits n => Raise (Exn ValueError (int_limit_message n))
      | TooDeep container =>
          Raise (Exn RecursionError
                   ("maximum recursion depth exceeded while decoding a JSON "
                    ++ container ++ " from a unicode string"))
      end
  | _ =>
      Raise (Exn TypeError
               ("the JSON object must be str, bytes or bytearray, not "
                ++ type_name v))
  end.

(** ** [format_mcp_result] (client_stdio_toolcalls_interactive.py) *)

(** The body of the loop over [result.content]: the string appended to
    [output] for one item. *)
Definition format_content_item `{Runtime} (content_item : pyval) : outcome string :=
  match get_attr "text" content_item with
  | Some text =>
      try_except
        (rbind (json_loads text) (fun parsed_content =>
         Ok (json_dumps parsed_content)))
        [JSONDecodeError; AttributeError]
        (fun _ => Ok (py_str text))
  | None => Ok (py_str content_item)
  end.

Definition format_mcp_result `{Runtime} (result : pyval) : outcome string :=
  match get_attr "content" result with
  | Some content =>
      rbind (py_iter content) (fun items =>
      rbind (rmap format_content_item items) (fun output =>
      Ok (join newline output)))
  | None => Ok (py_str result)
  end.

(** ** The world of a running script *)

(** Requests a script sends through its [ClientSession]. *)
Inductive request : Type :=
| ReqInitialize
| ReqListTools
| ReqListResources
| ReqListPrompts
| ReqCallTool (name : string) (arguments : pyval)
| ReqReadResource (uri : string).

(** The server is an oracle: its answer to a request is a result object
    or an exception, and may depend on every request sent before.
    [w_spawn] is the exception, if any, that opening the subprocess and
    the session raises.  [w_stdout] holds the argument of each [print]
    call in order (an [input] prompt is an entry too); [w_sent] holds the
    requests passed to the session, in order. *)
Record world : Type := World {
  w_server : list request -> outcome pyval;
  w_spawn : option exn;
  w_stdin : list string;
  w_stdout : list string;
  w_sent : list request;
}.

Definition M (A : Type) : Type := world -> world * outcome A.

Definition ret {A} (a : A) : M A := fun w => (w, Ok a).

Definition bind {A B} (m : M A) (f : A -> M B) : M B :=
  fun w =>
    match m w with
    | (w', Ok a) => f a w'
    | (w', Raise e) => (w', Raise e)
    end.

Definition raise {A} (e : exn) : M A := fun w => (w, Raise e).

Definition lift {A} (r : outcome A) : M A := fun w => (w, r).

#[export] Instance M_ret : MRet M := @ret.
#[export] Instance M_bind : MBind M := fun A B f m => bind m f.
#[export] Instance M_fmap : FMap M := fun A B f m => bind m (fun a => ret (f a)).

(** [try: body / except Exception as e: handler(e)]: every exception of
    the model is an [Exception]; what the body printed or sent before
    raising stays. *)
Definition try_catch {A} (body : M A) (handler : exn -> M A) : M A :=
  fun w =>
    match body w with
    | (w', Ok a) => (w', Ok a)
    | (w', Raise e) => handler e w'
    end.

Definition print (line : string) : M unit :=
  fun w =>
    (World (w_server w) (w_spawn w) (w_stdin w) (w_stdout w ++ [line])%list (w_sent w),
     Ok tt).

(** [await session.<method>(...)]: the request goes out, the server's
    answer comes back. *)
Definition session_call (req : request) : M pyval :=
  fun w =>
    let sent := (w_sent w ++ [req])%list in
    (World (w_server w) (w_spawn w) (w_stdin w) (w_stdout w) sent,
     w_server w sent).

(** [v.name]. *)
Definition attr (v : pyval) (name : string) : M pyval :=
  match get_attr name v with
  | Some x => ret x
  | None => raise (Exn AttributeError ("object has no attribute '" ++ name ++ "'"))
  end.

(** [hasattr(v, name) and v.name]. *)
Definition has_truthy_attr (v : pyval) (name : string) : option pyval :=
  match get_attr name v with
  | Some x => if py_truthy x then Some x else None
  | None => None
  end.

(** [for x in l: body(x)]. *)
Definition for_each {A} (l : list A) (body : A -> M unit) : M unit :=
  (fix loop (l : list A) : M unit :=
     match l with
     | [] => ret tt
     | x :: l' => body x ;; loop l'
     end) l.

(** [for i, x in enumerate(l, i0): body(i, x)]. *)
Definition for_each_indexed {A} (i0 : Z) (l : list A) (body : Z -> A -> M unit)
  : M unit :=
  (fix loop (l : list A) (i : Z) : M unit :=
     match l with
     | [] => ret tt
     | x :: l' => body i x ;; loop l' (i + 1)
     end) l i0.

(** [if k in d: present(d[k]) else: absent]. *)
Definition dict_case {A B} (k : string) (d : list (string * A))
    (present : A -> B) (absent : B) : B :=
  (fix find (d : list (string * A)) : B :=
     match d with
     | [] => absent
     | (k', v) :: d' => if String.eqb k k' then present v else find d'
     end) d.

(** ** [MCPClientInspector] (client_stdio_inspect.py) *)

Definition spaces (n : nat) : string := str_repeat " " n.

(** [', '.join(v)]: every item must be a [str]. *)
Definition join_required (v : pyval) : outcome string :=
  rbind (py_iter v) (fun items =>
  rbind (rmap (fun x => match x with
                        | PyStr s => Ok s
                        | _ => Raise (Exn TypeError "sequence item: expected str instance")
                        end) items) (fun strs =>
  Ok (join ", " strs))).

(** The objects a schema is made of, as the interpreter holds them: a
    dict refers to its values, so a value can contain itself.  [N] names
    the objects; [node_dict] is the content of one that is a dict,
    [node_str] its [str], [node_join] what [', '.join] makes of it. *)
Record object_graph (N : Type) : Type := {
  node_dict : N -> option (list (string * N));
  node_str : N -> string;
  node_join : N -> outcome string;
}.
Arguments node_dict {N} _ _.
Arguments node_str {N} _ _.
Arguments node_join {N} _ _.

(** [_print_schema] on the object [schema] of the graph [g].  Every call
    of the method is a frame of the interpreter: [room] is the number of
    nested calls still allowed, and a call without room raises
    [RecursionError]. *)
Fixpoint print_schema_from `{Runtime} {N} (g : object_graph N) (room : nat)
    (schema : N) (indent : nat) : M unit :=
  match room with
  | O => raise (Exn RecursionError recursion_message)
  | S room' =>
      let indent_str := spaces indent in
      match node_dict g schema with
      | Some d =>
          let schema_type := dict_case "type" d (node_str g) "unknown" in
          print (indent_str ++ "Type: " ++ schema_type) ;;
          dict_case "properties" d
            (fun props =>
               print (indent_str ++ "Properties:") ;;
               match node_dict g props with
               | Some items =>
                   for_each items (fun '(prop_name, prop_schema) =>
                     print (indent_str ++ "  " ++ prop_name ++ ":") ;;
                     print_schema_from g room' prop_schema (indent + 4))
               | None => raise (Exn AttributeError "object has no attribute 'items'")
               end)
            (ret tt) ;;
          dict_case "required" d
            (fun req =>
               r ← lift (node_join g req);
               print (indent_str ++ "Required: " ++ r))
            (ret tt) ;;
          dict_case "description" d
            (fun descr => print (indent_str ++ "Description: " ++ node_str g descr))
            (ret tt)
      | None => print (indent_str ++ node_str g schema)
      end
  end.

(** The values of the model as objects: finite trees. *)
Definition pyval_graph `{Runtime} : object_graph pyval :=
  {| node_dict := fun v => match v with PyDict d => Some d | _ => None end;
     node_str := py_str;
     node_join := join_required |}.

(** [self._print_schema(schema, indent)] as the listing calls it: the
    call itself has a frame, [schema_depth_room] more can nest in it. *)
Definition _print_schema `{Runtime} (schema : pyval) (indent : nat) : M unit :=
  print_schema_from pyval_graph (S schema_depth_room) schema indent.

Definition rule : string := str_repeat "=" 50.

(** [MCPClientInspector.connect]: the subprocess and the session are
    opened, then [initialize] is sent; [body] is what runs inside
    [async with self.connect() as session].  An exception of the body
    reaches the generator at its [yield], inside the same [try]. *)
Definition spawn : M unit :=
  fun w =>
    match w_spawn w with
    | Some e => (w, Raise e)
    | None => (w, Ok tt)
    end.

Definition connect `{Runtime} {A} (body : M A) : M A :=
  spawn ;;
  try_catch
    (init_result ← session_call ReqInitialize;
     serverInfo ← attr init_result "serverInfo";
     name ← attr serverInfo "name";
     print ("✓ Connected to server: " ++ py_str name) ;;
     serverInfo' ← attr init_result "serverInfo";
     version ← attr serverInfo' "version";
     print ("  Version: " ++ py_str version) ;;
     protocolVersion ← attr init_result "protocolVersion";
     print ("  Protocol Version: " ++ py_str protocolVersion ++ newline) ;;
     body)
    (fun e =>
       print ("✗ Failed to initialize session: " ++ exn_msg e) ;;
       raise e).

(** [x.attr if hasattr(x, attr) else []]. *)
Definition attr_or_empty (v : pyval) (name : string) : pyval :=
  match get_attr name v with
  | Some x => x
  | None => PyList []
  end.

(** [if hasattr(x, name) and x.name: then_(x.name)]. *)
Definition when_truthy_attr (v : pyval) (name : string) (then_ : pyval -> M unit)
  : M unit :=
  match has_truthy_attr v name with
  | Some x => then_ x
  | None => ret tt
  end.

Definition list_tools `{Runtime} : M unit :=
  try_catch
    (tools_result ← session_call ReqListTools;
     let tools := attr_or_empty tools_result "tools" in
     print "🔧 AVAILABLE TOOLS:" ;;
     print rule ;;
     if negb (py_truthy tools) then
       print "  No tools available"
     else
       items ← lift (py_iter tools);
       for_each_indexed 1 items (fun i tool =>
         name ← attr tool "name";
         print (str_of_Z i ++ ". " ++ py_str name) ;;
         when_truthy_attr tool "description" (fun description =>
           print ("   Description: " ++ py_str description)) ;;
         when_truthy_attr tool "inputSchema" (fun inputSchema =>
           print "   Input Schema:" ;;
           _print_schema inputSchema 6) ;;
         print ""))
    (fun e => print ("✗ Error listing tools: " ++ exn_msg e)).

Definition list_resources `{Runtime} : M unit :=
  try_catch
    (resources_result ← session_call ReqListResources;
     let resources := attr_or_empty resources_result "resources" in
     print "📁 AVAILABLE RESOURCES:" ;;
     print rule ;;
     if negb (py_truthy resources) then
       print "  No resources available"
     else
       items ← lift (py_iter resources);
       for_each_indexed 1 items (fun i resource =>
         uri ← attr resource "uri";
         print (str_of_Z i ++ ". " ++ py_str uri) ;;
         when_truthy_attr resource "name" (fun name =>
           print ("   Name: " ++ py_str name)) ;;
         when_truthy_attr resource "description" (fun description =>
           print ("   Description: " ++ py_str description)) ;;
         when_truthy_attr resource "mimeType" (fun mimeType =>
           print ("   MIME Type: " ++ py_str mimeType)) ;;
         print ""))
    (fun e => print ("✗ Error listing resources: " ++ exn_msg e)).

Definition list_prompts `{Runtime} : M unit :=
  try_catch
    (prompts_result ← session_call ReqListPrompts;
     let prompts := attr_or_empty prompts_result "prompts" in
     print "💬 AVAILABLE PROMPTS:" ;;
     print rule ;;
     if negb (py_truthy prompts) then
       print "  No prompts available"
     else
       items ← lift (py_iter prompts);
       for_each_indexed 1 items (fun i prompt =>
         name ← attr prompt "name";
         print (str_of_Z i ++ ". " ++ py_str name) ;;
         when_truthy_attr prompt "description" (fun description =>
           print ("   Description: " ++ py_str description)) ;;
         when_truthy_attr prompt "arguments" (fun arguments =>
           print "   Arguments:" ;;
           args ← lift (py_iter arguments);
           for_each args (fun arg =>
             arg_name ← attr arg "name";
             arg_description ← attr arg "description";
             print ("     - " ++ py_str arg_name ++ ": " ++ py_str arg_description) ;;
             when_truthy_attr arg "required" (fun _ =>
               print "       (required)"))) ;;
         print ""))
    (fun e => print ("✗ Error listing prompts: " ++ exn_msg e)).

Definition inspect_server `{Runtime} : M unit :=
  try_catch
    (connect
       (list_tools ;;
        print newline ;;
        list_resources ;;
        print newline ;;
        list_prompts))
    (fun e => print ("✗ Error connecting to server: " ++ exn_msg e)).

(** ** [interactive_session] (client_stdio_toolcalls_interactive.py) *)

(** [input(prompt)]: the prompt is written, one line is read; at the end
    of the input [EOFError] is raised. *)
Definition input (prompt : string) : M string :=
  fun w =>
    let out := (w_stdout w ++ [prompt])%list in
    match w_stdin w with
    | line :: rest =>
        (World (w_server w) (w_spawn w) rest out (w_sent w), Ok line)
    | [] =>
        (World (w_server w) (w_spawn w) [] out (w_sent w),
         Raise (Exn EOFError "EOF when reading a line"))
    end.

(** The code points [str.isspace] accepts, which [str.strip] removes. *)
Definition space_code_points : list N :=
  [9; 10; 11; 12; 13; 28; 29; 30; 31; 32; 133; 160; 5760;
   8192; 8193; 8194; 8195; 8196; 8197; 8198; 8199; 8200; 8201; 8202;
   8232; 8233; 8239; 8287; 12288]%N.

(** A [str] is held as its UTF-8 bytes: white space as byte sequences. *)
Definition space_encodings : list string := map utf8_encode space_code_points.

Definition string_rev (s : string) : string :=
  string_of_list_ascii (rev (list_ascii_of_string s)).

(** [s] without the first of [ps] it starts with. *)
Fixpoint drop_prefix_of (ps : list string) (s : string) : option string :=
  match ps with
  | [] => None
  | p :: ps' =>
      match strip_prefix p s with
      | Some r => Some r
      | None => drop_prefix_of ps' s
      end
  end.

(** [s] without the sequences of [ps] at its head, at most [n] of them. *)
Fixpoint drop_prefixes (ps : list string) (n : nat) (s : string) : string :=
  match n with
  | O => s
  | S n' =>
      match drop_prefix_of ps s with
      | Some r => drop_prefixes ps n' r
      | None => s
      end
  end.

Definition lstrip (s : string) : string :=
  drop_prefixes space_encodings (String.length s) s.

(** In UTF-8 no encoding ends another one, so the white space at the end
    of the text is found on the reversed bytes. *)
Definition rstrip (s : string) : string :=
  string_rev
    (drop_prefixes (map string_rev space_encodings) (String.length s)
       (string_rev s)).

(** [s.strip()], for [s] the UTF-8 bytes of a [str]. *)
Definition strip (s : string) : string := rstrip (lstrip s).

Definition lower_ascii (c : ascii) : ascii :=
  let n := N_of_ascii c in
  if ((65 <=? n) && (n <=? 90))%N then ascii_of_N (n + 32) else c.

(** [s.lower()] on the ASCII letters.  The scripts only compare the
    result with "y" and "n"; the upper-case letters of those two are the
    only characters that [str.lower] maps to them, so the comparisons
    come out as in Python whatever the other characters are. *)
Fixpoint lower (s : string) : string :=
  match s with
  | String c r => String (lower_ascii c) (lower r)
  | EmptyString => EmptyString
  end.

(** Digits with single underscores between them, as [int] accepts. *)
Fixpoint int_digits (s : string) (after_digit : bool) : option string :=
  match s with
  | EmptyString => if after_digit then Some EmptyString else None
  | String c r =>
      if is_digit c then
        match int_digits r true with
        | Some ds => Some (String c ds)
        | None => None
        end
      else if (Ascii.eqb c "_" && after_digit)%bool then int_digits r false
      else None
  end.

Definition is_ascii (s : string) : bool :=
  forallb (fun c => (N_of_ascii c <? 128)%N) (list_ascii_of_string s).

(** [int(s)] for a stripped [s]: a sign if any, then decimal digits, at
    most [int_max_str_digits] of them; every failure is a [ValueError].
    The message of an invalid literal ends with [repr(s)].  A literal
    with characters outside ASCII is the runtime's to read. *)
Definition py_int `{Runtime} (s : string) : outcome Z :=
  let bad :=
    Raise (Exn ValueError
             ("invalid literal for int() with base 10: " ++ py_repr (PyStr s))) in
  if is_ascii s then
    let '(neg, body) :=
      match s with
      | String "-" r => (true, r)
      | String "+" r => (false, r)
      | _ => (false, s)
      end in
    match int_digits body false with
    | Some ds =>
        if (int_max_str_digits <? N.of_nat (String.length ds))%N then
          Raise (Exn ValueError (int_limit_message (String.length ds)))
        else Ok (if neg then - digits_value ds else digits_value ds)
    | None => bad
    end
  else
    match unicode_int s with
    | inl z => Ok z
    | inr msg => Raise (Exn ValueError msg)
    end.

(** [s or default]. *)
Definition or_default (s default : string) : string :=
  if String.eqb s "" then default else s.

(** [isinstance(e, ValueError)]: [JSONDecodeError] derives from it; for
    a class known by name the runtime says ([UnicodeDecodeError] and
    [pydantic.ValidationError] do). *)
Definition is_value_error `{Runtime} (e : exn) : bool :=
  match exn_cls e with
  | ValueError | JSONDecodeError => true
  | OtherError name => value_error_class name
  | _ => false
  end.

Definition exn_class_name (c : exn_class) : string :=
  match c with
  | JSONDecodeError => "JSONDecodeError"
  | AttributeError => "AttributeError"
  | TypeError => "TypeError"
  | KeyError => "KeyError"
  | ValueError => "ValueError"
  | EOFError => "EOFError"
  | RecursionError => "RecursionError"
  | OtherError name => name
  end.

(** What one pass of the menu loop decides. *)
Inductive loop_control : Type := LoopNext | LoopBreak.

Definition print_menu : M unit :=
  print (newline ++ rule) ;;
  print "📱 WhatsApp MCP Operations Menu:" ;;
  print rule ;;
  print "1. 🔍 Search contacts" ;;
  print "2. 💬 List chats" ;;
  print "3. 📄 Get chat details" ;;
  print "4. 📋 List messages from chat" ;;
  print "5. 🔎 Search messages" ;;
  print "6. 📤 Send message" ;;
  print "7. 🧵 Get message context" ;;
  print "8. 🗂️  Get database schema" ;;
  print "9. ❌ Exit" ;;
  print rule.

(** [print("📊 Results:"); print(format_mcp_result(result))]. *)
Definition print_results `{Runtime} (result : pyval) : M unit :=
  print "📊 Results:" ;;
  text ← lift (format_mcp_result result);
  print text.

Definition dash_rule : string := str_repeat "-" 30.

(** The branches of the menu, one per [choice]. *)
Definition option_search_contacts `{Runtime} : M loop_control :=
  print "🔍 SEARCH CONTACTS" ;;
  print dash_rule ;;
  query ← strip <$> input "Enter search query (name/phone): ";
  if String.eqb query "" then
    print "⚠️  Query cannot be empty!" ;; mret LoopNext
  else
    print ("Searching for contacts matching '" ++ query ++ "'...") ;;
    result ← session_call
      (ReqCallTool "search_contacts" (PyDict [("query", PyStr query)]));
    print_results result ;;
    mret LoopNext.

Definition option_list_chats `{Runtime} : M loop_control :=
  print "💬 LIST CHATS" ;;
  print dash_rule ;;
  limit ← (fun s => or_default (strip s) "10") <$> input "Enter limit (default 10): ";
  page ← (fun s => or_default (strip s) "0") <$> input "Enter page number (default 0): ";
  sort_by ← (fun s => or_default (strip s) "last_active")
            <$> input "Sort by (last_active/name, default last_active): ";
  query_filter ← strip <$> input "Filter by name/JID (optional): ";
  limit_n ← lift (py_int limit);
  page_n ← lift (py_int page);
  let params := [("limit", PyInt limit_n); ("page", PyInt page_n);
                 ("sort_by", PyStr sort_by);
                 ("include_last_message", PyBool true)] in
  let params := if String.eqb query_filter "" then params
                else dict_set params "query" (PyStr query_filter) in
  print "Fetching chats..." ;;
  result ← session_call (ReqCallTool "list_chats" (PyDict params));
  print_results result ;;
  mret LoopNext.

Definition option_get_chat `{Runtime} : M loop_control :=
  print "📄 GET CHAT DETAILS" ;;
  print dash_rule ;;
  chat_jid ← strip <$> input "Enter chat JID (e.g., '123456@s.whatsapp.net'): ";
  if String.eqb chat_jid "" then
    print "⚠️  Chat JID cannot be empty!" ;; mret LoopNext
  else
    include_last ← (fun s => lower (strip s))
                   <$> input "Include last message? (y/n, default y): ";
    let include_last_message := negb (String.eqb include_last "n") in
    print ("Fetching details for chat '" ++ chat_jid ++ "'...") ;;
    result ← session_call
      (ReqCallTool "get_chat"
         (PyDict [("chat_jid", PyStr chat_jid);
                  ("include_last_message", PyBool include_last_message)]));
    print_results result ;;
    mret LoopNext.

Definition option_list_messages `{Runtime} : M loop_control :=
  print "📋 LIST MESSAGES FROM CHAT" ;;
  print dash_rule ;;
  chat_jid ← strip <$> input "Enter chat JID: ";
  if String.eqb chat_jid "" then
    print "⚠️  Chat JID cannot be empty!" ;; mret LoopNext
  else
    limit ← (fun s => or_default (strip s) "20") <$> input "Enter limit (default 20): ";
    page ← (fun s => or_default (strip s) "0") <$> input "Enter page number (default 0): ";
    print ("Fetching messages from '" ++ chat_jid ++ "'...") ;;
    limit_n ← lift (py_int limit);
    page_n ← lift (py_int page);
    result ← session_call
      (ReqCallTool "list_messages"
         (PyDict [("chat_jid", PyStr chat_jid); ("limit", PyInt limit_n);
                  ("page", PyInt page_n)]));
    print_results result ;;
    mret LoopNext.

Definition option_search_messages `{Runtime} : M loop_control :=
  print "🔎 SEARCH MESSAGES" ;;
  print dash_rule ;;
  query ← strip <$> input "Enter search query: ";
  if String.eqb query "" then
    print "⚠️  Search query cannot be empty!" ;; mret LoopNext
  else
    chat_jid ← strip <$> input "Enter chat JID (optional, press Enter for all chats): ";
    limit ← (fun s => or_default (strip s) "10") <$> input "Enter limit (default 10): ";
    page ← (fun s => or_default (strip s) "0") <$> input "Enter page number (default 0): ";
    limit_n ← lift (py_int limit);
    page_n ← lift (py_int page);
    let params := [("query", PyStr query); ("limit", PyInt limit_n);
                   ("page", PyInt page_n)] in
    let params := if String.eqb chat_jid "" then params
                  else dict_set params "chat_jid" (PyStr chat_jid) in
    let search_scope := if String.eqb chat_jid "" then "in all chats"
                        else "in chat '" ++ chat_jid ++ "'" in
    print ("Searching for '" ++ query ++ "' " ++ search_scope ++ "...") ;;
    result ← session_call (ReqCallTool "search_messages" (PyDict params));
    print_results result ;;
    mret LoopNext.

Definition option_send_message `{Runtime} : M loop_control :=
  print "📤 SEND MESSAGE" ;;
  print dash_rule ;;
  recipient ← strip <$> input "Enter recipient JID: ";
  if String.eqb recipient "" then
    print "⚠️  Recipient JID cannot be empty!" ;; mret LoopNext
  else
    message ← strip <$> input "Enter message text: ";
    if String.eqb message "" then
      print "⚠️  Message text cannot be empty!" ;; mret LoopNext
    else
      confirm ← (fun s => lower (strip s))
                <$> input ("Send '" ++ message ++ "' to '" ++ recipient ++ "'? (y/n): ");
      if String.eqb confirm "y" then
        print "Sending message..." ;;
        result ← session_call
          (ReqCallTool "send_message"
             (PyDict [("recipient", PyStr recipient); ("message", PyStr message)]));
        print_results result ;;
        mret LoopNext
      else
        print "❌ Message sending cancelled." ;; mret LoopNext.

Definition option_message_context `{Runtime} : M loop_control :=
  print "🧵 GET MESSAGE CONTEXT" ;;
  print dash_rule ;;
  message_id ← strip <$> input "Enter message ID: ";
  if String.eqb message_id "" then
    print "⚠️  Message ID cannot be empty!" ;; mret LoopNext
  else
    before ← (fun s => or_default (strip s) "5") <$> input "Messages before (default 5): ";
    after ← (fun s => or_default (strip s) "5") <$> input "Messages after (default 5): ";
    print ("Fetching context for message '" ++ message_id ++ "'...") ;;
    before_n ← lift (py_int before);
    after_n ← lift (py_int after);
    result ← session_call
      (ReqCallTool "get_message_context"
         (PyDict [("message_id", PyStr message_id); ("before", PyInt before_n);
                  ("after", PyInt after_n)]));
    print_results result ;;
    mret LoopNext.

Definition option_database_schema `{Runtime} : M loop_control :=
  print "🗂️  GET DATABASE SCHEMA" ;;
  print dash_rule ;;
  print "Fetching database schema..." ;;
  result ← session_call (ReqReadResource "schema://whatsapp/main");
  print_results result ;;
  mret LoopNext.

Definition menu_choice `{Runtime} (choice : string) : M loop_control :=
  if String.eqb choice "1" then option_search_contacts
  else if String.eqb choice "2" then option_list_chats
  else if String.eqb choice "3" then option_get_chat
  else if String.eqb choice "4" then option_list_messages
  else if String.eqb choice "5" then option_search_messages
  else if String.eqb choice "6" then option_send_message
  else if String.eqb choice "7" then option_message_context
  else if String.eqb choice "8" then option_database_schema
  else if String.eqb choice "9" then print "👋 Goodbye!" ;; mret LoopBreak
  else print "❌ Invalid choice. Please enter a number between 1-9." ;;
       mret LoopNext.

(** One pass of the [while True] loop: the menu, the choice, and the
    handlers of the inner [try] for [ValueError] and [Exception].  The
    handler for [KeyboardInterrupt] (it prints a goodbye and leaves the
    loop) is not here: the exceptions of the model are all below
    [Exception], and no operation of the model raises that one. *)
Definition menu_iteration `{Runtime} : M loop_control :=
  print_menu ;;
  try_catch
    (choice ← strip <$> input (newline ++ "Enter your choice (1-9): ");
     print "" ;;
     menu_choice choice)
    (fun e =>
       if is_value_error e then
         print ("❌ Invalid input: " ++ exn_msg e) ;; mret LoopNext
       else
         print ("❌ Error: " ++ exn_msg e) ;;
         print ("Error type: " ++ exn_class_name (exn_cls e)) ;;
         print ("Error details: " ++ exn_msg e) ;;
         print ("Error attributes: " ++ exn_dict_repr e) ;;
         print "Traceback:" ;;
         print "Please try again or contact support if the issue persists." ;;
         mret LoopNext).

(** The loop, for at most [fuel] passes: [true] when it left by
    [break], [false] when the passes ran out. *)
Fixpoint menu_loop `{Runtime} (fuel : nat) : M bool :=
  match fuel with
  | O => mret false
  | S fuel' =>
      c ← menu_iteration;
      match c with
      | LoopBreak => mret true
      | LoopNext => menu_loop fuel'
      end
  end.

Definition interactive_session `{Runtime} (fuel : nat) : M bool :=
  print "🔗 WhatsApp MCP Interactive Session" ;;
  print rule ;;
  try_catch
    (connect (menu_loop fuel))
    (fun e => print ("✗ Failed to establish session: " ++ exn_msg e) ;; mret true).

(** ** The content decoding policy of the design document *)

(** A decoded content item (design document, §3). *)
Inductive ContentBlock : Type :=
| Text (s : string)
| Structured (v : pyval)
| Opaque (raw : string).

(** The shapes of a content item the [mcp] package hands over: a text
    item carries a [str] in [text]; the other shapes have no [text]. *)
Definition content_item_shape (item : pyval) : Prop :=
  match get_attr "text" item with
  | Some (PyStr _) | None => True
  | Some _ => False
  end.

(** The policy in the document's words (§4.6): a text item whose string
    parses as JSON is [Structured], any other text item is [Text], any
    other shape is [Opaque]. *)
Definition decode_content_item `{Runtime} (item : pyval) : ContentBlock :=
  match get_attr "text" item with
  | Some (PyStr s) =>
      match parse_json s with
      | Some v => Structured v
      | None => Text s
      end
  | _ => Opaque (py_str item)
  end.

(** What the presentation layer shows for a block. *)
Definition render `{Runtime} (b : ContentBlock) : string :=
  match b with
  | Text s => s
  | Structured v => json_dumps v
  | Opaque raw => raw
  end.

(** ** A compact JSON printer *)

Definition dquote : string := String "034" EmptyString.

Definition hex_digit (n : N) : ascii :=
  if (n <? 10)%N then ascii_of_N (48 + n) else ascii_of_N (87 + n).

(** A quote, a backslash and the control characters are escaped; every
    other byte stands for itself. *)
Definition escape_char (c : ascii) : string :=
  if Ascii.eqb c "034" then String "\" dquote
  else if Ascii.eqb c "\" then "\\"
  else if (N_of_ascii c <? 32)%N then
    "\u00" ++ String (hex_digit (N_of_ascii c / 16))
                (String (hex_digit (N_of_ascii c mod 16)) EmptyString)
  else String c EmptyString.

Fixpoint escape (s : string) : string :=
  match s with
  | EmptyString => EmptyString
  | String c r => escape_char c ++ escape r
  end.

Definition quote (s : string) : string := String "034" (escape s ++ dquote).

Fixpoint print_json (v : pyval) : string :=
  match v with
  | PyNone => "null"
  | PyBool true => "true"
  | PyBool false => "false"
  | PyInt z => str_of_Z z
  | PyFloat lit => lit
  | PyStr s => quote s
  | PyList l => "[" ++ join "," (map print_json l) ++ "]"
  | PyDict d =>
      "{" ++ join "," (map (fun kv => quote (fst kv) ++ ":" ++ print_json (snd kv)) d)
          ++ "}"
  | PyObj _ _ => "null"
  end.

(** A runtime to run the model on concrete inputs: objects print as a
    fixed tag and the [repr] of a [str] is the text between single
    quotes (right for a text without quotes, backslashes and control
    characters), parsed values print compactly; 900 nested calls are left
    for the decoder and for the schema printer; no digit outside ASCII
    is known; the classes below [ValueError] known by name are the
    built-in ones. *)
Definition plain_runtime : Runtime :=
  {| py_repr := fun v =>
       match v with
       | PyStr s => "'" ++ s ++ "'"
       | _ => "<object>"
       end;
     json_dumps := print_json;
     exn_dict_repr := fun _ => "{}";
     json_depth_room := 900%nat;
     schema_depth_room := 900%nat;
     unicode_int := fun s =>
       inr ("invalid literal for int() with base 10: '" ++ s ++ "'");
     value_error_class := fun name =>
       bool_decide (name ∈ ["UnicodeError"; "UnicodeDecodeError";
                            "UnicodeEncodeError"; "UnicodeTranslateError"]);
     recursion_message :=
       "maximum recursion depth exceeded while calling a Python object" |}.

(** The text [{"results":[]}] of the design document's scenario. *)
Definition results_text : string :=
  "{" ++ dquote ++ "results" ++ dquote ++ ":[]}".

Definition text_content (text : pyval) : pyval :=
  PyObj "TextContent" [("type", PyStr "text"); ("text", text)].

Definition call_tool_result (content : pyval) : pyval :=
  PyObj "CallToolResult" [("content", content)].

(** ** Auxiliary notions for the statements *)

(** An integer literal of 4301 digits, one more than [int] converts. *)
Definition long_integer_text : string := str_repeat "1" 4301.

(** [n] arrays, each the one element of the one around it. *)
Definition nested_arrays_text (n : nat) : string :=
  str_repeat "[" n ++ str_repeat "]" n.

(** The results on which [format_mcp_result] is total: [content], when
    there is one, can be iterated and holds items of the known shapes. *)
Definition result_shape (result : pyval) : Prop :=
  match get_attr "content" result with
  | None => True
  | Some content =>
      exists items, py_iter content = Ok items /\ Forall content_item_shape items
  end.

(** The world after [out] more lines were printed. *)
Definition add_out (w : world) (out : list string) : world :=
  World (w_server w) (w_spawn w) (w_stdin w) (w_stdout w ++ out)%list (w_sent w).

(** The world after [reqs] more requests were sent. *)
Definition add_sent (w : world) (reqs : list request) : world :=
  World (w_server w) (w_spawn w) (w_stdin w) (w_stdout w) (w_sent w ++ reqs)%list.

(** A computation that only prints: whatever it returns or raises, the
    world differs by appended lines alone. *)
Definition prints_only {A} (m : M A) : Prop :=
  forall w, exists out r, m w = (add_out w out, r).

(** The body of [inspect_server] under [connect]. *)
Definition list_all `{Runtime} : M unit :=
  list_tools ;; print newline ;; list_resources ;; print newline ;; list_prompts.

(** An initialize result and a server with nothing to offer. *)
Definition echo_init : pyval :=
  PyObj "InitializeResult"
    [("serverInfo", PyObj "Implementation"
                      [("name", PyStr "echo"); ("version", PyStr "1.0")]);
     ("protocolVersion", PyStr "2024-11-05")].

Definition empty_server (sent : list request) : outcome pyval :=
  match last sent with
  | Some ReqInitialize => Ok echo_init
  | Some ReqListTools => Ok (PyObj "ListToolsResult" [("tools", PyList [])])
  | Some ReqListResources => Ok (PyObj "ListResourcesResult" [("resources", PyList [])])
  | Some ReqListPrompts => Ok (PyObj "ListPromptsResult" [("prompts", PyList [])])
  | _ => Raise (Exn (OtherError "McpError") "Method not found")
  end.

Definition start (server : list request -> outcome pyval) (stdin : list string)
  : world :=
  World server None stdin [] [].

(** *** Recursion depth of [_print_schema] *)

Definition list_max (l : list nat) : nat := foldr Nat.max O l.

(** How deep a schema nests [properties]: the number of nested calls
    its printing needs. *)
Fixpoint schema_depth (schema : pyval) : nat :=
  match schema with
  | PyDict d =>
      S (dict_case "properties" d
           (fun props =>
              match props with
              | PyDict items => list_max (map (fun kv => schema_depth (snd kv)) items)
              | _ => O
              end)
           O)
  | _ => 1%nat
  end.

(** A schema that nests [n] levels of [properties]. *)
Fixpoint nested_schema (n : nat) : pyval :=
  match n with
  | O => PyDict [("type", PyStr "string")]
  | S n' =>
      PyDict [("type", PyStr "object");
              ("properties", PyDict [("p", nested_schema n')])]
  end.

(** What printing [nested_schema n] at [indent] prints. *)
Fixpoint nested_schema_lines (n : nat) (indent : nat) : list string :=
  match n with
  | O => [spaces indent ++ "Type: string"]
  | S n' =>
      (spaces indent ++ "Type: object")
      :: (spaces indent ++ "Properties:")
      :: (spaces indent ++ "  p:")
      :: nested_schema_lines n' (indent + 4)
  end.

(** What is printed of a schema that nests [properties] under the key
    [name] before the recursion is cut: three lines for each of the
    [calls] calls that ran. *)
Fixpoint cut_schema_lines (name : string) (calls : nat) (indent : nat)
  : list string :=
  match calls with
  | O => []
  | S calls' =>
      (spaces indent ++ "Type: object")
      :: (spaces indent ++ "Properties:")
      :: (spaces indent ++ "  " ++ name ++ ":")
      :: cut_schema_lines name calls' (indent + 4)
  end.

(** A schema that contains itself, as
    [s = {'type': 'object'}; s['properties'] = {'self': s}] builds it:
    the three objects, what each dict holds, and what [str] and
    [', '.join] give for each. *)
Inductive cyclic_node : Type := CyclicSchema | CyclicProperties | CyclicType.

Definition cyclic_graph : object_graph cyclic_node :=
  {| node_dict := fun n =>
       match n with
       | CyclicSchema => Some [("type", CyclicType); ("properties", CyclicProperties)]
       | CyclicProperties => Some [("self", CyclicSchema)]
       | CyclicType => None
       end;
     node_str := fun n =>
       match n with
       | CyclicSchema => "{'type': 'object', 'properties': {'self': {...}}}"
       | CyclicProperties => "{'self': {'type': 'object', 'properties': {...}}}"
       | CyclicType => "object"
       end;
     node_join := fun n =>
       match n with
       | CyclicSchema => Ok "type, properties"
       | CyclicProperties => Ok "self"
       | CyclicType => Ok "o, b, j, e, c, t"
       end |}.

(** A tool whose input schema nests [n] levels. *)
Definition deep_tool (n : nat) : pyval :=
  PyObj "Tool" [("name", PyStr "deep"); ("inputSchema", nested_schema n)].

(** A computation that raises, whatever the world. *)
Definition fails {A} (m : M A) : Prop :=
  forall w, exists e, snd (m w) = Raise e.

(** *** What the listings print for a catalog *)

(** The line for an attribute that is printed only when it is there and
    truthy. *)
Definition optional_line `{Runtime} (label : string) (v : pyval) (name : string)
  : list string :=
  match has_truthy_attr v name with
  | Some x => [label ++ py_str x]
  | None => []
  end.

(** The lines of the entries of a catalog, numbered from [i]; [None]
    when an entry cannot be printed to its end. *)
Fixpoint numbered_lines (entry : Z -> pyval -> option (list string)) (i : Z)
    (items : list pyval) : option (list string) :=
  match items with
  | [] => Some []
  | x :: items' =>
      match entry i x, numbered_lines entry (i + 1) items' with
      | Some a, Some b => Some (a ++ b)%list
      | _, _ => None
      end
  end.

(** The lines under the heading of a listing: the notice for a falsy
    catalog, the entries otherwise. *)
Definition catalog_lines (notice : string)
    (entry : Z -> pyval -> option (list string)) (catalog : pyval)
  : option (list string) :=
  if negb (py_truthy catalog) then Some [notice]
  else
    match py_iter catalog with
    | Ok items => numbered_lines entry 1 items
    | Raise _ => None
    end.

(** The entry of a resource: it needs [uri]. *)
Definition resource_lines `{Runtime} (i : Z) (resource : pyval)
  : option (list string) :=
  match get_attr "uri" resource with
  | Some uri =>
      Some ([(str_of_Z i ++ ". " ++ py_str uri)%string]
            ++ optional_line "   Name: " resource "name"
            ++ optional_line "   Description: " resource "description"
            ++ optional_line "   MIME Type: " resource "mimeType"
            ++ [""])%list
  | None => None
  end.

(** The lines of one argument of a prompt: it needs [name] and
    [description]. *)
Definition argument_lines `{Runtime} (arg : pyval) : option (list string) :=
  match get_attr "name" arg, get_attr "description" arg with
  | Some arg_name, Some arg_description =>
      Some (("     - " ++ py_str arg_name ++ ": " ++ py_str arg_description)
            :: match has_truthy_attr arg "required" with
               | Some _ => ["       (required)"]
               | None => []
               end)
  | _, _ => None
  end.

Fixpoint arguments_lines `{Runtime} (args : list pyval) : option (list string) :=
  match args with
  | [] => Some []
  | arg :: args' =>
      match argument_lines arg, arguments_lines args' with
      | Some a, Some b => Some (a ++ b)%list
      | _, _ => None
      end
  end.

(** The entry of a prompt: it needs [name], and arguments that can be
    iterated and printed. *)
Definition prompt_lines `{Runtime} (i : Z) (prompt : pyval)
  : option (list string) :=
  match get_attr "name" prompt with
  | Some name =>
      match
        match has_truthy_attr prompt "arguments" with
        | Some arguments =>
            match py_iter arguments with
            | Ok args =>
                match arguments_lines args with
                | Some l => Some ("   Arguments:" :: l)
                | None => None
                end
            | Raise _ => None
            end
        | None => Some []
        end
      with
      | Some arguments_part =>
          Some ([(str_of_Z i ++ ". " ++ py_str name)%string]
                ++ optional_line "   Description: " prompt "description"
                ++ arguments_part
                ++ [""])%list
      | None => None
      end
  | None => None
  end.

(** The lines of the properties of a schema, [render] giving the lines
    of each property's own schema. *)
Fixpoint properties_lines (render : pyval -> option (list string)) (indent : nat)
    (items : list (string * pyval)) : option (list string) :=
  match items with
  | [] => Some []
  | (prop_name, prop_schema) :: items' =>
      match render prop_schema, properties_lines render indent items' with
      | Some a, Some b =>
          Some ((spaces indent ++ "  " ++ prop_name ++ ":")%string :: a ++ b)%list
      | _, _ => None
      end
  end.

(** The lines [_print_schema] prints for a schema it prints to its end,
    with [room] nested calls left; [None] when it raises. *)
Fixpoint schema_lines `{Runtime} (room : nat) (schema : pyval) (indent : nat)
  : option (list string) :=
  match room with
  | O => None
  | S room' =>
      match schema with
      | PyDict d =>
          match
            dict_case "properties" d
              (fun props =>
                 match props with
                 | PyDict items =>
                     match properties_lines
                             (fun prop_schema =>
                                schema_lines room' prop_schema (indent + 4))
                             indent items with
                     | Some l => Some ((spaces indent ++ "Properties:")%string :: l)
                     | None => None
                     end
                 | _ => None
                 end)
              (Some []),
            dict_case "required" d
              (fun req =>
                 match join_required req with
                 | Ok r => Some [(spaces indent ++ "Required: " ++ r)%string]
                 | Raise _ => None
                 end)
              (Some [])
          with
          | Some properties_part, Some required_part =>
              Some ([(spaces indent ++ "Type: "
                      ++ dict_case "type" d py_str "unknown")%string]
                    ++ properties_part
                    ++ required_part
                    ++ dict_case "description" d
                         (fun descr =>
                            [(spaces indent ++ "Description: " ++ py_str descr)%string])
                         [])%list
          | _, _ => None
          end
      | _ => Some [(spaces indent ++ py_str schema)%string]
      end
  end.

(** The entry of a tool: it needs [name], and an input schema that is
    printed to its end. *)
Definition tool_lines `{Runtime} (i : Z) (tool : pyval) : option (list string) :=
  match get_attr "name" tool with
  | Some name =>
      match
        match has_truthy_attr tool "inputSchema" with
        | Some inputSchema =>
            match schema_lines (S schema_depth_room) inputSchema 6 with
            | Some l => Some ("   Input Schema:" :: l)
            | None => None
            end
        | None => Some []
        end
      with
      | Some schema_part =>
          Some ([(str_of_Z i ++ ". " ++ py_str name)%string]
                ++ optional_line "   Description: " tool "description"
                ++ schema_part
                ++ [""])%list
      | None => None
      end
  | None => None
  end.

(** What [list_tools] prints for the server's answer to its request: the
    error line when the request failed, the heading, the rule and the
    catalog otherwise.  [None] when the catalog cannot be printed to its
    end. *)
Definition tools_report `{Runtime} (answer : outcome pyval)
  : option (list string) :=
  match answer with
  | Raise e => Some ["✗ Error listing tools: " ++ exn_msg e]
  | Ok tools_result =>
      match catalog_lines "  No tools available" tool_lines
              (attr_or_empty tools_result "tools") with
      | Some l => Some ("🔧 AVAILABLE TOOLS:" :: rule :: l)
      | None => None
      end
  end.

(** What [list_resources] prints for the server's answer to its
    request. *)
Definition resources_report `{Runtime} (answer : outcome pyval)
  : option (list string) :=
  match answer with
  | Raise e => Some ["✗ Error listing resources: " ++ exn_msg e]
  | Ok resources_result =>
      match catalog_lines "  No resources available" resource_lines
              (attr_or_empty resources_result "resources") with
      | Some l => Some ("📁 AVAILABLE RESOURCES:" :: rule :: l)
      | None => None
      end
  end.

(** What [list_prompts] prints for the server's answer to its request. *)
Definition prompts_report `{Runtime} (answer : outcome pyval)
  : option (list string) :=
  match answer with
  | Raise e => Some ["✗ Error listing prompts: " ++ exn_msg e]
  | Ok prompts_result =>
      match catalog_lines "  No prompts available" prompt_lines
              (attr_or_empty prompts_result "prompts") with
      | Some l => Some ("💬 AVAILABLE PROMPTS:" :: rule :: l)
      | None => None
      end
  end.

(** The greeting [connect] prints after the handshake. *)
Definition greeting `{Runtime} (name version protocolVersion : pyval)
  : list string :=
  ["✓ Connected to server: " ++ py_str name;
   "  Version: " ++ py_str version;
   "  Protocol Version: " ++ py_str protocolVersion ++ newline].

(** A server whose tool listing fails and whose other catalogs hold one
    entry each. *)
Definition notes_resource : pyval :=
  PyObj "Resource"
    [("uri", PyStr "file:///notes.txt"); ("name", PyStr "notes");
     ("description", PyNone); ("mimeType", PyStr "text/plain")].

Definition greet_prompt : pyval :=
  PyObj "Prompt"
    [("name", PyStr "greet"); ("description", PyStr "Say hello");
     ("arguments",
      PyList [PyObj "PromptArgument"
                [("name", PyStr "who"); ("description", PyStr "addressee");
                 ("required", PyBool true)]])].

Definition partly_failing_server (sent : list request) : outcome pyval :=
  match last sent with
  | Some ReqListTools => Raise (Exn (OtherError "McpError") "tools unavailable")
  | Some ReqListResources =>
      Ok (PyObj "ListResourcesResult" [("resources", PyList [notes_resource])])
  | Some ReqListPrompts =>
      Ok (PyObj "ListPromptsResult" [("prompts", PyList [greet_prompt])])
  | _ => empty_server sent
  end.

(** *** Required fields of a tool's input schema *)

(** The names under the top-level [required] of a schema. *)
Definition required_fields (schema : pyval) : list string :=
  match schema with
  | PyDict d =>
      match assoc "required" d with
      | Some (PyList l) =>
          omap (fun v => match v with PyStr s => Some s | _ => None end) l
      | _ => []
      end
  | _ => []
  end.

Definition has_key (arguments : pyval) (k : string) : bool :=
  match arguments with
  | PyDict d => match assoc k d with Some _ => true | None => false end
  | _ => false
  end.

(** Some top-level required field of [schema] is absent from
    [arguments]. *)
Definition lacks_required (schema arguments : pyval) : bool :=
  existsb (fun k => negb (has_key arguments k)) (required_fields schema).

(** A server that answers every tool call with the scenario's text. *)
Definition answering_server (sent : list request) : outcome pyval :=
  match last sent with
  | Some (ReqCallTool _ _) =>
      Ok (call_tool_result (PyList [text_content (PyStr results_text)]))
  | _ => empty_server sent
  end.

(** A catalog whose [search_contacts] requires [query] and [limit]. *)
Definition strict_catalog : list (string * pyval) :=
  [("search_contacts",
    PyDict [("type", PyStr "object");
            ("properties", PyDict [("query", PyDict [("type", PyStr "string")]);
                                   ("limit", PyDict [("type", PyStr "integer")])]);
            ("required", PyList [PyStr "query"; PyStr "limit"])])].

(** The request menu option 6 sends. *)
Definition send_message_request (recipient message : string) : request :=
  ReqCallTool "send_message"
    (PyDict [("recipient", PyStr recipient); ("message", PyStr message)]).

(** * The protocol core of the design document *)

(** The scripts hold no codec, correlator or session state machine of
    their own: they call the [mcp] package's [ClientSession].  The three
    components below are modelled from the design document (§3, §4.2 to
    §4.4, §7), one module each. *)

(** Modelled from the spec: the request identifier of §3, a counter
    value or a string (the scripts never build one). *)
Inductive RequestId : Type :=
| IdNum (n : Z)
| IdStr (s : string).

#[export] Instance RequestId_eq_dec : EqDecision RequestId.
Proof. solve_decision. Defined.

#[export] Instance RequestId_countable : Countable RequestId.
Proof.
  refine (inj_countable'
            (fun i => match i with IdNum n => inl n | IdStr s => inr s end)
            (fun x => match x with inl n => IdNum n | inr s => IdStr s end) _).
  intros []; reflexivity.
Defined.

(** Modelled from the spec: the error taxonomy of §7, as far as the
    three components raise it. *)
Inductive error : Type :=
| MalformedMessage
| DuplicateId
| UnsolicitedResponse
| TransportClosed (reason : string)
| RequestTimeout
| SessionNotReady
| ServerError (code : Z) (message : string).

Module Correlator.

(** Modelled from the spec: the Correlator of §4.3 and the
    PendingRequest of §3, absent from the scripts.  A completion slot is
    a number handed out at registration; what is put into slots is
    recorded, in order, in [delivered]; responses dropped as unsolicited
    are recorded in [unsolicited].  Time is an integer. *)
Inductive completion : Type :=
| Resolved (result : pyval)
| Rejected (e : error).

Record PendingRequest : Type := {
  pr_id : RequestId;
  pr_method : string;
  pr_createdAt : Z;
  pr_deadline : Z;
  pr_slot : nat;
}.

Record t : Type := {
  pending : gmap RequestId PendingRequest;
  closed : option string;
  next_slot : nat;
  delivered : list (nat * completion);
  unsolicited : list RequestId;
}.

Definition initial : t :=
  {| pending := ∅; closed := None; next_slot := 0;
     delivered := []; unsolicited := [] |}.

(** Modelled from the spec: "whose deadline has passed" (§4.3), read as
    the deadline lying strictly before [now]. *)
Definition expired (now : Z) (p : PendingRequest) : Prop := pr_deadline p < now.

#[export] Instance expired_dec now p : Decision (expired now p).
Proof. unfold expired. apply _. Defined.

(** Modelled from the spec: [register(id, method, deadline)] of §4.3,
    at time [now]: the handle of the new entry's slot, or the error.
    After [failAll] it fails with [TransportClosed]; a pending [id] is a
    [DuplicateId]. *)
Definition register (id : RequestId) (method : string) (now deadline : Z) (c : t)
  : t * (error + nat) :=
  match closed c with
  | Some reason => (c, inl (TransportClosed reason))
  | None =>
      match pending c !! id with
      | Some _ => (c, inl DuplicateId)
      | None =>
          let p := {| pr_id := id; pr_method := method; pr_createdAt := now;
                      pr_deadline := deadline; pr_slot := next_slot c |} in
          ({| pending := <[id := p]> (pending c); closed := closed c;
              next_slot := S (next_slot c); delivered := delivered c;
              unsolicited := unsolicited c |},
           inr (next_slot c))
      end
  end.

(** Modelled from the spec: [resolve] and [reject] of §4.3: the entry
    is looked up and removed and its slot filled; without an entry the
    message is logged as unsolicited and dropped. *)
Definition complete (id : RequestId) (x : completion) (c : t) : t :=
  match pending c !! id with
  | Some p =>
      {| pending := delete id (pending c); closed := closed c;
         next_slot := next_slot c;
         delivered := (delivered c ++ [(pr_slot p, x)])%list;
         unsolicited := unsolicited c |}
  | None =>
      {| pending := pending c; closed := closed c; next_slot := next_slot c;
         delivered := delivered c;
         unsolicited := (unsolicited c ++ [id])%list |}
  end.

Definition resolve (id : RequestId) (result : pyval) (c : t) : t :=
  complete id (Resolved result) c.

Definition reject (id : RequestId) (e : error) (c : t) : t :=
  complete id (Rejected e) c.

(** The same completion for each entry of [ps]. *)
Definition deliveries (x : completion) (ps : gmap RequestId PendingRequest)
  : list (nat * completion) :=
  (fun kp => (pr_slot (snd kp), x)) <$> map_to_list ps.

(** Modelled from the spec: [failAll(reason)] of §4.3: every pending
    request is rejected with [TransportClosed reason], and the
    correlator stays closed. *)
Definition failAll (reason : string) (c : t) : t :=
  {| pending := ∅; closed := Some reason; next_slot := next_slot c;
     delivered :=
       (delivered c ++ deliveries (Rejected (TransportClosed reason)) (pending c))%list;
     unsolicited := unsolicited c |}.

(** Modelled from the spec: [expire(now)] of §4.3: every pending
    request whose deadline has passed is rejected with
    [RequestTimeout]. *)
Definition expire (now : Z) (c : t) : t :=
  {| pending := filter (fun kp => ¬ expired now (snd kp)) (pending c);
     closed := closed c; next_slot := next_slot c;
     delivered :=
       (delivered c
        ++ deliveries (Rejected RequestTimeout)
             (filter (fun kp => expired now (snd kp)) (pending c)))%list;
     unsolicited := unsolicited c |}.

(** The operations, to speak of what happens later. *)
Inductive op : Type :=
| Register (id : RequestId) (method : string) (now deadline : Z)
| Resolve (id : RequestId) (result : pyval)
| Reject (id : RequestId) (e : error)
| FailAll (reason : string)
| Expire (now : Z).

Definition step (c : t) (o : op) : t :=
  match o with
  | Register id method now deadline => fst (register id method now deadline c)
  | Resolve id result => resolve id result c
  | Reject id e => reject id e c
  | FailAll reason => failAll reason c
  | Expire now => expire now c
  end.

Definition run (ops : list op) (c : t) : t := foldl step c ops.

(** Some pending entry owns slot [h]. *)
Definition pending_slot (c : t) (h : nat) : Prop :=
  exists id p, pending c !! id = Some p /\ pr_slot p = h.

(** What holds of every correlator built from [initial]: the slots of
    pending entries were handed out, differ from one another, and have
    received nothing yet; nothing was delivered to a slot not handed
    out. *)
Record wf (c : t) : Prop := {
  wf_slot_bound : forall id p, pending c !! id = Some p -> (pr_slot p < next_slot c)%nat;
  wf_slot_inj : forall id id' p p',
      pending c !! id = Some p -> pending c !! id' = Some p' ->
      pr_slot p = pr_slot p' -> id = id';
  wf_unfilled : forall id p x,
      pending c !! id = Some p -> (pr_slot p, x) ∉ delivered c;
  wf_delivered_bound : forall h x, (h, x) ∈ delivered c -> (h < next_slot c)%nat;
}.

End Correlator.

(** Slot [h] was handed out and its entry is no longer pending. *)
Definition retired (c : Correlator.t) (h : nat) : Prop :=
  (h < Correlator.next_slot c)%nat /\ ~ Correlator.pending_slot c h.

(** A correlator with two requests pending: [tools/call] due at 10 and
    [tools/list] due at 100, both registered at 0. *)
Definition first_pending : Correlator.PendingRequest :=
  {| Correlator.pr_id := IdNum 1; Correlator.pr_method := "tools/call";
     Correlator.pr_createdAt := 0; Correlator.pr_deadline := 10;
     Correlator.pr_slot := 0 |}.

Definition two_pending_ops : list Correlator.op :=
  [Correlator.Register (IdNum 1) "tools/call" 0 10;
   Correlator.Register (IdNum 2) "tools/list" 0 100].

Definition two_pending : Correlator.t :=
  Correlator.run two_pending_ops Correlator.initial.

(** *** Structured values *)

(** A float literal is one the reader gives back unchanged. *)
Definition is_float_literal (lit : string) : bool :=
  match parse_constant lit with
  | Some (PyFloat lit', EmptyString) => String.eqb lit' lit
  | _ => false
  end.

Fixpoint distinct_keys {A} (d : list (string * A)) : bool :=
  match d with
  | [] => true
  | (k, _) :: d' =>
      match assoc k d' with
      | Some _ => false
      | None => distinct_keys d'
      end
  end.

(** The structured values: no object, every float a literal, the keys
    of every dict distinct. *)
Fixpoint structured_value (v : pyval) : bool :=
  match v with
  | PyNone | PyBool _ | PyInt _ | PyStr _ => true
  | PyFloat lit => is_float_literal lit
  | PyList l => forallb structured_value l
  | PyDict d => forallb (fun kv => structured_value (snd kv)) d && distinct_keys d
  | PyObj _ _ => false
  end.

Module Codec.

(** Modelled from the spec: the Codec of §4.2 and the envelopes of §3,
    absent from the scripts.  A line is the JSON text of one envelope
    (§4.1: one JSON document per line); the JSON reader is the model of
    [json.loads] above and the writer is [print_json].  A structured
    value is a value JSON can carry. *)
Record ErrorObject : Type := {
  err_code : Z;
  err_message : string;
}.

Inductive envelope : Type :=
| Request (id : RequestId) (method : string) (params : pyval)
| Response (id : RequestId) (result : option pyval) (error : option ErrorObject)
| Notification (method : string) (params : pyval).

(** Modelled from the spec: the valid envelopes of §3: structured
    payloads, and exactly one of [result] and [error] on a response. *)
Definition valid (e : envelope) : Prop :=
  match e with
  | Request _ _ params => structured_value params = true
  | Response _ (Some result) None => structured_value result = true
  | Response _ None (Some _) => True
  | Response _ _ _ => False
  | Notification _ params => structured_value params = true
  end.

Definition id_json (id : RequestId) : pyval :=
  match id with
  | IdNum n => PyInt n
  | IdStr s => PyStr s
  end.

Definition error_json (e : ErrorObject) : pyval :=
  PyDict [("code", PyInt (err_code e)); ("message", PyStr (err_message e))].

(** Modelled from the spec: the JSON object of an envelope, with the
    fields of §3 in a fixed order. *)
Definition to_json (e : envelope) : pyval :=
  match e with
  | Request id method params =>
      PyDict [("id", id_json id); ("method", PyStr method); ("params", params)]
  | Response id result error =>
      PyDict ([("id", id_json id)]
              ++ match result with Some r => [("result", r)] | None => [] end
              ++ match error with Some e => [("error", error_json e)] | None => [] end)%list
  | Notification method params =>
      PyDict [("method", PyStr method); ("params", params)]
  end.

(** Modelled from the spec: [encode(envelope) -> line] of §4.2. *)
Definition encode (e : envelope) : string := print_json (to_json e).

Definition json_id (v : pyval) : option RequestId :=
  match v with
  | PyInt n => Some (IdNum n)
  | PyStr s => Some (IdStr s)
  | _ => None
  end.

Definition json_error (v : pyval) : option ErrorObject :=
  match v with
  | PyDict d =>
      match assoc "code" d, assoc "message" d with
      | Some (PyInt code), Some (PyStr message) =>
          Some {| err_code := code; err_message := message |}
      | _, _ => None
      end
  | _ => None
  end.

(** Modelled from the spec: the envelope of a JSON object (§4.2).  With
    a [method]: a request when there is an [id], a notification
    otherwise (absent [params] read as null).  Without: a response,
    which needs an [id] and exactly one of [result] and [error].  Both
    [result] and [error] present is always malformed; fields not named
    here are ignored. *)
Definition of_json (v : pyval) : error + envelope :=
  match v with
  | PyDict d =>
      let params := match assoc "params" d with Some p => p | None => PyNone end in
      match assoc "result" d, assoc "error" d with
      | Some _, Some _ => inl MalformedMessage
      | result, err =>
          match assoc "method" d with
          | Some (PyStr method) =>
              match assoc "id" d with
              | Some idv =>
                  match json_id idv with
                  | Some id => inr (Request id method params)
                  | None => inl MalformedMessage
                  end
              | None => inr (Notification method params)
              end
          | Some _ => inl MalformedMessage
          | None =>
              match assoc "id" d with
              | Some idv =>
                  match json_id idv, result, err with
                  | Some id, Some r, None => inr (Response id (Some r) None)
                  | Some id, None, Some ev =>
                      match json_error ev with
                      | Some eo => inr (Response id None (Some eo))
                      | None => inl MalformedMessage
                      end
                  | _, _, _ => inl MalformedMessage
                  end
              | None => inl MalformedMessage
              end
          end
      end
  | _ => inl MalformedMessage
  end.

(** Modelled from the spec: [decode(line)] of §4.2: fails with
    [MalformedMessage] when the text is not JSON or is not the object of
    an envelope. *)
Definition decode (line : string) : error + envelope :=
  match parse_json line with
  | Some v => of_json v
  | None => inl MalformedMessage
  end.

End Codec.

(** The characters that may follow a value inside printed JSON. *)
Definition is_delimiter (c : ascii) : bool :=
  Ascii.eqb c "," || Ascii.eqb c "]" || Ascii.eqb c "}".

(** The text after a value: nothing, or a delimiter first. *)
Definition delimited (rest : string) : bool :=
  match rest with
  | EmptyString => true
  | String c _ => is_delimiter c
  end.

(** The result of a scanner when [rest] follows its input. *)
Definition with_rest {A} (rest : string) (r : option (A * string))
  : option (A * string) :=
  match r with
  | Some (x, r') => Some (x, r' ++ rest)
  | None => None
  end.

(** What a constant starts with: no white space, quote, brace, bracket
    or delimiter. *)
Definition starts_value (c : ascii) : bool :=
  negb (is_ws c || Ascii.eqb c "034" || Ascii.eqb c "{" || Ascii.eqb c "["
        || is_delimiter c).

(** The first digit of [d] is not zero. *)
Definition nonzero_head (d : Decimal.uint) : Prop :=
  match d with
  | Decimal.Nil | Decimal.D0 _ => False
  | _ => True
  end.

(** The reader gives back a printed value: with fuel beyond the length
    of the text, and whatever delimited text follows. *)
Definition reads_back (v : pyval) : Prop :=
  structured_value v = true ->
  forall fuel rest,
    delimited rest = true ->
    (String.length (print_json v) < fuel)%nat ->
    parse_value fuel (print_json v ++ rest) = Some (v, rest).

(** The text of one member of a printed object. *)
Definition print_member (kv : string * pyval) : string :=
  quote (fst kv) ++ ":" ++ print_json (snd kv).

(** A [tools/call] request as the scenario of §8 sends it. *)
Definition search_contacts_request : Codec.envelope :=
  Codec.Request (IdNum 7) "tools/call"
    (PyDict [("name", PyStr "search_contacts");
             ("arguments", PyDict [("query", PyStr "alice")])]).

Module Session.

(** Modelled from the spec: the Session state machine of §4.4 with the
    ServerInfo of §3, absent from the scripts.  The session owns a
    correlator and a transport; of the transport only the envelopes
    written are kept (each goes out as its [Codec.encode] line). *)
Inductive state : Type :=
| Uninitialized
| Handshaking
| Ready
| Closing
| Closed
| Faulted.

(** Modelled from the spec: the forward order of §4.4, [Faulted] last. *)
Definition rank (st : state) : nat :=
  match st with
  | Uninitialized => 0
  | Handshaking => 1
  | Ready => 2
  | Closing => 3
  | Closed => 4
  | Faulted => 5
  end.

Record ServerInfo : Type := {
  name : string;
  version : string;
  protocolVersion : string;
}.

Record t : Type := {
  phase : state;
  server_info : option ServerInfo;
  next_id : Z;
  handshake : option RequestId;
  wire : list Codec.envelope;
  correlator : Correlator.t;
}.

Definition initial : t :=
  {| phase := Uninitialized; server_info := None; next_id := 1;
     handshake := None; wire := []; correlator := Correlator.initial |}.

Definition server_info_value (info : ServerInfo) : pyval :=
  PyDict [("serverInfo", PyDict [("name", PyStr (name info));
                                 ("version", PyStr (version info))]);
          ("protocolVersion", PyStr (protocolVersion info))].

(** Modelled from the spec: the data flow of §2 for one request: the
    correlator registers a fresh id, the envelope is written.  The
    phase is left as it is. *)
Definition send (method : string) (params : pyval) (now deadline : Z) (s : t)
  : t * (error + nat) :=
  let id := IdNum (next_id s) in
  match Correlator.register id method now deadline (correlator s) with
  | (c, inr h) =>
      ({| phase := phase s; server_info := server_info s;
          next_id := next_id s + 1; handshake := handshake s;
          wire := (wire s ++ [Codec.Request id method params])%list;
          correlator := c |},
       inr h)
  | (_, inl e) => (s, inl e)
  end.

(** Modelled from the spec: [request(method, params)] of §4.4,
    accepted in [Ready] only. *)
Definition request (method : string) (params : pyval) (now deadline : Z) (s : t)
  : t * (error + nat) :=
  match phase s with
  | Ready => send method params now deadline s
  | _ => (s, inl SessionNotReady)
  end.

Definition set_phase (st : state) (s : t) : t :=
  {| phase := st; server_info := server_info s; next_id := next_id s;
     handshake := handshake s; wire := wire s; correlator := correlator s |}.

Definition set_correlator (c : Correlator.t) (s : t) : t :=
  {| phase := phase s; server_info := server_info s; next_id := next_id s;
     handshake := handshake s; wire := wire s; correlator := c |}.

(** What happens to a session. *)
Inductive event : Type :=
| Connect (client : pyval) (now deadline : Z)
| InitializeResult (info : ServerInfo)
| InitializeFailed
| Request (method : string) (params : pyval) (now deadline : Z)
| Close
| Drained
| TransportTerminated (reason : string).

(** Modelled from the spec: the transitions of §4.4; an event that has
    no transition from the current state leaves the session as it is. *)
Definition step (s : t) (e : event) : t :=
  match e, phase s with
  | Connect client now deadline, Uninitialized =>
      let s1 := fst (send "initialize" client now deadline s) in
      {| phase := Handshaking; server_info := server_info s1;
         next_id := next_id s1; handshake := Some (IdNum (next_id s));
         wire := wire s1; correlator := correlator s1 |}
  | InitializeResult info, Handshaking =>
      {| phase := Ready; server_info := Some info; next_id := next_id s;
         handshake := handshake s; wire := wire s;
         correlator :=
           match handshake s with
           | Some id => Correlator.resolve id (server_info_value info) (correlator s)
           | None => correlator s
           end |}
  | InitializeFailed, Handshaking =>
      set_phase Faulted
        (set_correlator (Correlator.failAll "handshake failed" (correlator s)) s)
  | Request method params now deadline, _ =>
      fst (request method params now deadline s)
  | Close, Ready => set_phase Closing s
  | Drained, Closing => set_phase Closed s
  | TransportTerminated reason, _ =>
      set_phase Faulted (set_correlator (Correlator.failAll reason (correlator s)) s)
  | _, _ => s
  end.

Definition run (evs : list event) (s : t) : t := foldl step s evs.

(** The envelope is an [initialize] request. *)
Definition is_initialize (e : Codec.envelope) : Prop :=
  match e with
  | Codec.Request _ method _ => method = "initialize"
  | _ => False
  end.

End Session.

(** The handshake of the scenario in §8. *)
Definition echo_info : Session.ServerInfo :=
  {| Session.name := "echo"; Session.version := "1.0";
     Session.protocolVersion := "2024-11-05" |}.

Definition handshaking_session : Session.t :=
  Session.run [Session.Connect (PyDict [("protocolVersion", PyStr "2024-11-05")]) 0 30]
    Session.initial.

(** A server that refuses the handshake. *)
Definition refusing_server (sent : list request) : outcome pyval :=
  Raise (Exn (OtherError "McpError") "Connection closed").

(** The text [{"a":1,"b":2,"a":3}], with a repeated key. *)
Definition repeated_key_text : string :=
  "{" ++ dquote ++ "a" ++ dquote ++ ":1," ++ dquote ++ "b" ++ dquote ++ ":2,"
      ++ dquote ++ "a" ++ dquote ++ ":3}".

(** The text of a response that carries both a result and an error. *)
Definition both_text : string :=
  "{" ++ dquote ++ "id" ++ dquote ++ ":1," ++ dquote ++ "result" ++ dquote
      ++ ":null," ++ dquote ++ "error" ++ dquote ++ ":{}}".

(** The text of a notification with a field the codec does not know. *)
Definition extra_field_text : string :=
  "{" ++ dquote ++ "jsonrpc" ++ dquote ++ ":" ++ dquote ++ "2.0" ++ dquote ++ ","
      ++ dquote ++ "method" ++ dquote ++ ":" ++ dquote ++ "ping" ++ dquote ++ "}".

(** * Further parts of the two scripts *)

(** ** [main] and the script entry of client_stdio_inspect.py *)

Definition SERVER_COMMAND : string := "node".

Definition SERVER_ARGS : list string :=
  ["/Users/binu.b.varghese/source/agent/whatsapp/whatsapp-mcp-ts/src/main.ts"].

Definition main `{Runtime} : M unit :=
  print "MCP Server API Inspector" ;;
  print rule ;;
  print ("Connecting to server: " ++ SERVER_COMMAND ++ " " ++ join " " SERVER_ARGS) ;;
  print "" ;;
  inspect_server.

(** The script client_stdio_inspect.py from its first line: the import
    of the [mcp] package, guarded by [except ImportError], then the
    [__main__] block.  [mcp_found] says whether the package can be
    imported; the value is the exit status of the script, [1] where it
    reaches [sys.exit(1)]. *)
Definition inspect_script `{Runtime} (mcp_found : bool) : M Z :=
  if mcp_found then
    try_catch
      (main ;; mret 0)
      (fun e => print ("✗ Unexpected error: " ++ exn_msg e) ;; mret 1)
  else
    print "Error: MCP library not found. Install with: pip install mcp" ;;
    mret 1.

(** ** The loop bodies of the listing functions *)

(** The body of the loop of [list_tools] over [enumerate(tools, 1)]. *)
Definition print_tool `{Runtime} (i : Z) (tool : pyval) : M unit :=
  name ← attr tool "name";
  print (str_of_Z i ++ ". " ++ py_str name) ;;
  when_truthy_attr tool "description" (fun description =>
    print ("   Description: " ++ py_str description)) ;;
  when_truthy_attr tool "inputSchema" (fun inputSchema =>
    print "   Input Schema:" ;;
    _print_schema inputSchema 6) ;;
  print "".

(** ** Auxiliary notions for the statements *)


(** A computation that sends no request. *)
Definition sends_nothing {A} (m : M A) : Prop :=
  forall w, w_sent (fst (m w)) = w_sent w.

(** A computation that sends no request, or one request satisfying [P]. *)
Definition sends_at_most {A} (P : request -> Prop) (m : M A) : Prop :=
  forall w,
    w_sent (fst (m w)) = w_sent w
    \/ exists req, P req /\ w_sent (fst (m w)) = (w_sent w ++ [req])%list.

(** The values [', '.join] accepts: a list of [str], a [str], a dict. *)
Definition str_items (v : pyval) : bool :=
  match v with
  | PyList l => forallb (fun x => match x with PyStr _ => true | _ => false end) l
  | PyStr _ | PyDict _ => true
  | _ => false
  end.

(** The schemas [_print_schema] prints to the end: [properties], where
    present, is a dict of such schemas, and [required], where present,
    can be joined. *)
Fixpoint schema_well_formed (schema : pyval) : bool :=
  match schema with
  | PyDict d =>
      dict_case "properties" d
        (fun props =>
           match props with
           | PyDict items => forallb (fun kv => schema_well_formed (snd kv)) items
           | _ => false
           end)
        true
      && dict_case "required" d str_items true
  | _ => true
  end.

(** The requests of the menu: a tool call or a resource read. *)
Definition is_operation (req : request) : Prop :=
  match req with
  | ReqCallTool _ _ | ReqReadResource _ => True
  | _ => False
  end.

(** The lines of the menu, as [print_menu] prints them. *)
Definition menu_lines : list string :=
  [newline ++ rule; "📱 WhatsApp MCP Operations Menu:"; rule;
   "1. 🔍 Search contacts"; "2. 💬 List chats"; "3. 📄 Get chat details";
   "4. 📋 List messages from chat"; "5. 🔎 Search messages";
   "6. 📤 Send message"; "7. 🧵 Get message context";
   "8. 🗂️  Get database schema"; "9. ❌ Exit"; rule].

Definition choice_prompt : string := newline ++ "Enter your choice (1-9): ".

(** A server whose tool catalog is [tools]. *)
Definition catalog_server (tools : list pyval) (sent : list request) : outcome pyval :=
  match last sent with
  | Some ReqListTools => Ok (PyObj "ListToolsResult" [("tools", PyList tools)])
  | _ => empty_server sent
  end.

(** A tool entry with a name, and one without. *)
Definition named_tool (name : string) : pyval :=
  PyObj "Tool" [("name", PyStr name)].

Definition nameless_tool : pyval :=
  PyObj "Tool" [("description", PyStr "no name")].

(** A computation that only prints, returns exactly when [ok] holds, and
    otherwise raises an exception satisfying [C]. *)
Definition completes_iff {A} (ok : bool) (C : exn -> Prop) (m : M A) : Prop :=
  forall w, exists out r,
    m w = (add_out w out, r)
    /\ match r with
       | Ok _ => ok = true
       | Raise e => ok = false /\ C e
       end.

(** The exceptions [_print_schema] ends with: those of a malformed
    schema, and the one of a schema nested too deep. *)
Definition schema_error (e : exn) : Prop :=
  exn_cls e = AttributeError \/ exn_cls e = TypeError
  \/ exn_cls e = RecursionError.

(** The schemas that are well formed and nest no deeper than [room]. *)
Definition schema_fits (room : nat) (schema : pyval) : bool :=
  schema_well_formed schema && (schema_depth schema <=? room)%nat.

(** The exceptions that leave [format_mcp_result]. *)
Definition format_error (e : exn) : Prop :=
  exn_cls e = TypeError \/ exn_cls e = ValueError
  \/ exn_cls e = RecursionError.


(** A tool call [name] whose argument [key] is a non-empty string. *)
Definition guarded_call (name key : string) (req : request) : Prop :=
  exists v args,
    v <> ""
    /\ req = ReqCallTool name (PyDict args)
    /\ assoc key args = Some (PyStr v).

(** An option of the menu that refuses a blank first answer: it prints
    its heading, the rule, the question and [warning], reads the one
    line, sends nothing, and the loop goes on. *)
Definition refuses_blank (m : M loop_control) (heading question warning : string)
  : Prop :=
  forall w line rest,
    w_stdin w = line :: rest -> strip line = "" ->
    m w
    = (World (w_server w) (w_spawn w) rest
         (w_stdout w ++ [heading; dash_rule; question; warning])%list (w_sent w),
       Ok LoopNext).

(** An option of the menu that sends nothing, or the one call of the
    tool [name] whose argument [key] is the first line typed, stripped,
    and not empty. *)
Definition sends_typed (m : M loop_control) (name key : string) : Prop :=
  forall w,
    w_sent (fst (m w)) = w_sent w
    \/ exists line rest args,
         w_stdin w = line :: rest
         /\ strip line <> ""
         /\ assoc key args = Some (PyStr (strip line))
         /\ w_sent (fst (m w))
            = (w_sent w ++ [ReqCallTool name (PyDict args)])%list.

(** What the handlers of the menu's inner [try] print for [e]. *)
Definition error_report `{Runtime} (e : exn) : list string :=
  if is_value_error e then
    ["❌ Invalid input: " ++ exn_msg e]
  else
    ["❌ Error: " ++ exn_msg e;
     "Error type: " ++ exn_class_name (exn_cls e);
     "Error details: " ++ exn_msg e;
     "Error attributes: " ++ exn_dict_repr e;
     "Traceback:";
     "Please try again or contact support if the issue persists."].

(** The choices the menu knows. *)
Definition menu_choices : list string :=
  ["1"; "2"; "3"; "4"; "5"; "6"; "7"; "8"; "9"].

(** The call option 2 sends: [limit] and [page] are integers, [sort_by]
    is a non-empty string, [include_last_message] is [True], and [query]
    is absent or a non-empty string. *)
Definition list_chats_call (req : request) : Prop :=
  exists limit page sort_by args,
    req = ReqCallTool "list_chats" (PyDict args)
    /\ assoc "limit" args = Some (PyInt limit)
    /\ assoc "page" args = Some (PyInt page)
    /\ assoc "sort_by" args = Some (PyStr sort_by) /\ sort_by <> ""
    /\ assoc "include_last_message" args = Some (PyBool true)
    /\ (assoc "query" args = None
        \/ exists q, q <> "" /\ assoc "query" args = Some (PyStr q)).

(** The call option 2 sends for the numbers [limit] and [page] and the
    stripped answers [sort_by] and [filter]: [sort_by] has a default,
    [query] is there only for a filter that is not empty. *)
Definition list_chats_request (limit page : Z) (sort_by filter : string)
  : request :=
  ReqCallTool "list_chats"
    (PyDict ([("limit", PyInt limit); ("page", PyInt page);
              ("sort_by", PyStr (or_default sort_by "last_active"));
              ("include_last_message", PyBool true)]
             ++ if String.eqb filter "" then []
                else [("query", PyStr filter)])%list).

(** The call option 2 sends when every question is answered by a blank
    line. *)
Definition default_list_chats_request : request :=
  ReqCallTool "list_chats"
    (PyDict [("limit", PyInt 10); ("page", PyInt 0);
             ("sort_by", PyStr "last_active");
             ("include_last_message", PyBool true)]).

(** The request menu option 3 sends. *)
Definition get_chat_request (chat_jid : string) (include_last_message : bool)
  : request :=
  ReqCallTool "get_chat"
    (PyDict [("chat_jid", PyStr chat_jid);
             ("include_last_message", PyBool include_last_message)]).
(** * The JSON reader on examples *)

Example parse_json_bare :
  parse_json "42" = Some (PyInt 42) /\ parse_json "-0" = Some (PyInt 0)
  /\ parse_json " 1.5e3 " = Some (PyFloat "1.5e3")
  /\ parse_json "NaN" = Some (PyFloat "NaN")
  /\ parse_json "-Infinity" = Some (PyFloat "-Infinity").
Proof. vm_compute. repeat split. Qed.

Example parse_json_list :
  parse_json "[1, -2, true, null, [ ]]"
  = Some (PyList [PyInt 1; PyInt (-2); PyBool true; PyNone; PyList []]).
Proof. vm_compute. reflexivity. Qed.

Example parse_json_escapes :
  parse_json (dquote ++ "x\nA\u00e9" ++ dquote)
  = Some (PyStr (String "x" (String "010" (String "A"
                  (String "195" (String "169" EmptyString)))))).
Proof. vm_compute. reflexivity. Qed.

Example parse_json_repeated_key :
  parse_json repeated_key_text = Some (PyDict [("a", PyInt 3); ("b", PyInt 2)]).
Proof. vm_compute. reflexivity. Qed.

Example parse_json_rejects :
  parse_json "hello" = None /\ parse_json "[1,]" = None
  /\ parse_json "01" = None /\ parse_json "" = None
  /\ parse_json "1 2" = None /\ parse_json "'a'" = None
  /\ parse_json "1." = None /\ parse_json "[[" = None.
Proof. vm_compute. repeat split. Qed.

(** * Properties of [format_mcp_result] *)

Lemma get_attr_text_content (text : pyval) :
  get_attr "text" (text_content text) = Some text.
Proof. reflexivity. Qed.

Lemma get_attr_call_tool_result (content : pyval) :
  get_attr "content" (call_tool_result content) = Some content.
Proof. reflexivity. Qed.

(** A result with the one text item [text]: the function is the loop
    body on that item. *)
Lemma format_mcp_result_single `{Runtime} (text : pyval) :
  format_mcp_result (call_tool_result (PyList [text_content text]))
  = rbind (format_content_item (text_content text)) (fun s => Ok (join newline [s])).
Proof.
  unfold format_mcp_result. rewrite get_attr_call_tool_result.
  simpl py_iter. simpl rbind at 1. simpl rmap.
  destruct (format_content_item (text_content text)); reflexivity.
Qed.

(** What is raised for a text on which [json.loads] raises something the
    [except] clause does not name. *)
Lemma format_content_item_uncaught `{Runtime} (text : pyval) (e : exn) :
  json_loads text = Raise e ->
  catches [JSONDecodeError; AttributeError] e = false ->
  format_mcp_result (call_tool_result (PyList [text_content text])) = Raise e.
Proof.
  intros Hloads Hcatch. rewrite format_mcp_result_single.
  unfold format_content_item. rewrite get_attr_text_content.
  unfold try_except. rewrite Hloads. simpl rbind at 2. cbv iota.
  rewrite Hcatch. reflexivity.
Qed.

(** An integer literal of 4301 digits. *)
Lemma json_loads_long_integer `{Runtime} :
  json_loads (PyStr long_integer_text)
  = Raise (Exn ValueError (int_limit_message 4301)).
Proof.
  unfold json_loads.
  replace (scan_value (2 * String.length long_integer_text + 2) json_depth_room
             (skip_ws long_integer_text))
    with (TooManyDigits 4301); [reflexivity |].
  generalize json_depth_room. intros room.
  vm_compute. reflexivity.
Qed.

Lemma string_app_cons (x : ascii) (a b : string) :
  String x a ++ b = String x (a ++ b).
Proof. reflexivity. Qed.

Lemma string_app_nil_l (b : string) : "" ++ b = b.
Proof. reflexivity. Qed.

Lemma scan_value_nested_array (fuel room : nat) (t : string) :
  scan_value (S fuel) (S room) (String "[" (String "[" t))
  = scan_elements fuel room (String "[" t) [].
Proof. reflexivity. Qed.

Lemma scan_elements_S (fuel room : nat) (s : string) (acc : list pyval) :
  scan_elements (S fuel) room s acc
  = match scan_value fuel room s with
    | Scanned v r1 =>
        match skip_ws r1 with
        | String "]" r2 => Scanned (PyList (acc ++ [v])) r2
        | String "," r2 => scan_elements fuel room (skip_ws r2) (acc ++ [v])
        | _ => NotJson
        end
    | failure => failure
    end.
Proof. reflexivity. Qed.

(** Arrays nested one deeper than the room the decoder has. *)
Lemma scan_value_too_deep (room fuel : nat) (rest : string) :
  (2 * room < fuel)%nat ->
  scan_value fuel room (str_repeat "[" (S room) ++ rest) = TooDeep "array".
Proof.
  revert fuel rest. induction room as [| room IH]; intros fuel rest Hfuel.
  - destruct fuel as [| fuel]; [lia |]. reflexivity.
  - destruct fuel as [| [| fuel]]; [lia | lia |].
    change (str_repeat "[" (S (S room)) ++ rest)
      with (String "[" (String "[" (str_repeat "[" room ++ rest))).
    rewrite scan_value_nested_array, scan_elements_S.
    change (String "[" (str_repeat "[" room ++ rest))
      with (str_repeat "[" (S room) ++ rest).
    rewrite IH by lia. reflexivity.
Qed.

Lemma string_length_app (a b : string) :
  String.length (a ++ b) = (String.length a + String.length b)%nat.
Proof.
  induction a as [| x a IH]; [reflexivity |].
  rewrite string_app_cons. simpl. rewrite IH. reflexivity.
Qed.

Lemma str_repeat_length (c : ascii) (n : nat) :
  String.length (str_repeat (String c EmptyString) n) = n.
Proof.
  induction n as [| n IH]; [reflexivity |].
  change (str_repeat (String c EmptyString) (S n))
    with (String c (str_repeat (String c EmptyString) n)).
  simpl. rewrite IH. reflexivity.
Qed.

Lemma json_loads_too_deep `{Runtime} :
  json_loads (PyStr (nested_arrays_text (S json_depth_room)))
  = Raise (Exn RecursionError
             "maximum recursion depth exceeded while decoding a JSON array from a unicode string").
Proof.
  unfold json_loads, nested_arrays_text.
  change (skip_ws (str_repeat "[" (S json_depth_room)
                   ++ str_repeat "]" (S json_depth_room)))
    with (str_repeat "[" (S json_depth_room) ++ str_repeat "]" (S json_depth_room)).
  rewrite scan_value_too_deep; [reflexivity |].
  rewrite string_length_app, !str_repeat_length. lia.
Qed.

(** C1.  The decoding hard-fails on a text item whose string is valid
    JSON.  On the scenario of the design document the code does what the
    policy says: the text is decoded and shown as the [Structured] block
    [{results: []}] (first conjunct; the decoder needs room for the two
    nested containers).  The text of 4301 digits is an integer literal:
    it parses as JSON, so the policy makes the item [Structured]; but
    [json.loads] raises the [ValueError] of [int], which is not a
    [JSONDecodeError], the [except] clause does not catch it, and
    [format_mcp_result] raises instead of showing the item.  The same
    happens, whatever the recursion limit is, with arrays nested one
    level deeper than the decoder has room for: the [RecursionError] is
    not caught either. *)
Theorem decoding_hard_fails_on_valid_json `{Runtime} :
  ((2 <= json_depth_room)%nat ->
   decode_content_item (text_content (PyStr results_text))
   = Structured (PyDict [("results", PyList [])])
   /\ format_mcp_result
        (call_tool_result (PyList [text_content (PyStr results_text)]))
      = Ok (render (Structured (PyDict [("results", PyList [])]))))
  /\ content_item_shape (text_content (PyStr long_integer_text))
  /\ parse_json long_integer_text = Some (PyInt (digits_value long_integer_text))
  /\ decode_content_item (text_content (PyStr long_integer_text))
     = Structured (PyInt (digits_value long_integer_text))
  /\ format_mcp_result
       (call_tool_result (PyList [text_content (PyStr long_integer_text)]))
     = Raise (Exn ValueError (int_limit_message 4301))
  /\ content_item_shape
       (text_content (PyStr (nested_arrays_text (S json_depth_room))))
  /\ format_mcp_result
       (call_tool_result
          (PyList [text_content (PyStr (nested_arrays_text (S json_depth_room)))]))
     = Raise (Exn RecursionError
                "maximum recursion depth exceeded while decoding a JSON array from a unicode string").
Proof.
  assert (Hparse : parse_json long_integer_text
                   = Some (PyInt (digits_value long_integer_text))).
  { vm_compute. reflexivity. }
  split.
  { intros Hroom. split; [reflexivity |].
    rewrite format_mcp_result_single.
    unfold format_content_item. rewrite get_attr_text_content.
    unfold json_loads.
    destruct json_depth_room as [| [| room]]; [lia | lia | reflexivity]. }
  split; [exact I |]. split; [exact Hparse |].
  split.
  { unfold decode_content_item. rewrite get_attr_text_content, Hparse. reflexivity. }
  split.
  { apply format_content_item_uncaught;
      [apply json_loads_long_integer | reflexivity]. }
  split; [exact I |].
  apply format_content_item_uncaught; [apply json_loads_too_deep | reflexivity].
Qed.

(** C9.  [format_mcp_result] is not total.  On the result whose one text
    item holds an integer literal of 4301 digits it raises [ValueError];
    on arrays nested beyond the decoder's room it raises
    [RecursionError]; on an item whose [text] is [None] it raises
    [TypeError]; on a [content] that cannot be iterated it raises
    [TypeError].  Each of them passes the [except] clause, which names
    [JSONDecodeError] and [AttributeError] only. *)
Theorem format_mcp_result_raises `{Runtime} :
  format_mcp_result
    (call_tool_result (PyList [text_content (PyStr long_integer_text)]))
  = Raise (Exn ValueError (int_limit_message 4301))
  /\ (exists e,
        exn_cls e = RecursionError
        /\ format_mcp_result
             (call_tool_result
                (PyList [text_content
                           (PyStr (nested_arrays_text (S json_depth_room)))]))
           = Raise e)
  /\ (exists e,
        exn_cls e = TypeError
        /\ format_mcp_result (call_tool_result (PyList [text_content PyNone]))
           = Raise e)
  /\ (exists e,
        exn_cls e = TypeError
        /\ format_mcp_result (call_tool_result (PyInt 7)) = Raise e).
Proof.
  split.
  { apply format_content_item_uncaught;
      [apply json_loads_long_integer | reflexivity]. }
  split.
  { eexists. split; [| apply format_content_item_uncaught;
                        [apply json_loads_too_deep | reflexivity]].
    reflexivity. }
  split; eexists; (split; [| reflexivity]); reflexivity.
Qed.

(** * Properties of the inspector *)

Lemma add_out_nil (w : world) : add_out w [] = w.
Proof. destruct w. unfold add_out. simpl. rewrite app_nil_r. reflexivity. Qed.

Lemma add_out_app (w : world) (a b : list string) :
  add_out (add_out w a) b = add_out w (a ++ b)%list.
Proof. unfold add_out. simpl. rewrite app_assoc. reflexivity. Qed.

Lemma add_out_add_sent (w : world) (reqs : list request) (out : list string) :
  add_out (add_sent w reqs) out = add_sent (add_out w out) reqs.
Proof. reflexivity. Qed.

Lemma add_sent_app (w : world) (a b : list request) :
  add_sent (add_sent w a) b = add_sent w (a ++ b)%list.
Proof. unfold add_sent. simpl. rewrite app_assoc. reflexivity. Qed.

Lemma print_eq (line : string) (w : world) : print line w = (add_out w [line], Ok tt).
Proof. reflexivity. Qed.

Lemma session_call_eq (req : request) (w : world) :
  session_call req w = (add_sent w [req], w_server w (w_sent w ++ [req])%list).
Proof. reflexivity. Qed.

Lemma prints_only_ret {A} (a : A) : prints_only (mret a).
Proof. intros w. exists [], (Ok a). rewrite add_out_nil. reflexivity. Qed.

Lemma prints_only_raise {A} (e : exn) : prints_only (@raise A e).
Proof. intros w. exists [], (Raise e). rewrite add_out_nil. reflexivity. Qed.

Lemma prints_only_lift {A} (r : outcome A) : prints_only (lift r).
Proof. intros w. exists [], r. rewrite add_out_nil. reflexivity. Qed.

Lemma prints_only_print (line : string) : prints_only (print line).
Proof. intros w. exists [line], (Ok tt). reflexivity. Qed.

Lemma prints_only_bind {A B} (m : M A) (f : A -> M B) :
  prints_only m -> (forall a, prints_only (f a)) -> prints_only (m ≫= f).
Proof.
  intros Hm Hf w. unfold mbind, M_bind, bind.
  destruct (Hm w) as (out & r & ->). destruct r as [a | e].
  - destruct (Hf a (add_out w out)) as (out' & r' & ->).
    exists (out ++ out')%list, r'. rewrite add_out_app. reflexivity.
  - exists out, (Raise e). reflexivity.
Qed.

Lemma prints_only_try_catch {A} (body : M A) (handler : exn -> M A) :
  prints_only body -> (forall e, prints_only (handler e)) ->
  prints_only (try_catch body handler).
Proof.
  intros Hb Hh w. unfold try_catch.
  destruct (Hb w) as (out & r & ->). destruct r as [a | e].
  - exists out, (Ok a). reflexivity.
  - destruct (Hh e (add_out w out)) as (out' & r' & ->).
    exists (out ++ out')%list, r'. rewrite add_out_app. reflexivity.
Qed.

Lemma prints_only_attr (v : pyval) (name : string) : prints_only (attr v name).
Proof.
  unfold attr. destruct (get_attr name v).
  - apply (prints_only_ret p).
  - apply prints_only_raise.
Qed.

Lemma prints_only_for_each {A} (l : list A) (body : A -> M unit) :
  Forall (fun x => prints_only (body x)) l -> prints_only (for_each l body).
Proof.
  induction 1 as [| x l Hx _ IH].
  - apply (prints_only_ret tt).
  - change (prints_only (body x ≫= fun _ => for_each l body)).
    apply prints_only_bind; auto.
Qed.

Lemma prints_only_for_each_indexed {A} (l : list A) (body : Z -> A -> M unit) (i0 : Z) :
  (forall i x, prints_only (body i x)) -> prints_only (for_each_indexed i0 l body).
Proof.
  intros Hb. revert i0. induction l as [| x l IH]; intros i0.
  - apply (prints_only_ret tt).
  - change (prints_only (body i0 x ≫= fun _ => for_each_indexed (i0 + 1) l body)).
    apply prints_only_bind; auto.
Qed.

Lemma dict_case_assoc {A B} (k : string) (d : list (string * A))
    (present : A -> B) (absent : B) :
  dict_case k d present absent
  = match assoc k d with
    | Some v => present v
    | None => absent
    end.
Proof.
  induction d as [| [k' v] d IH]; simpl.
  - reflexivity.
  - destruct (String.eqb k k'); [reflexivity | exact IH].
Qed.

Lemma assoc_elem {A} (k : string) (d : list (string * A)) (v : A) :
  assoc k d = Some v -> (k, v) ∈ d.
Proof.
  induction d as [| [k' v'] d IH]; simpl.
  - discriminate.
  - destruct (String.eqb_spec k k') as [-> | _].
    + intros [= ->]. left.
    + intros Hd. right. exact (IH Hd).
Qed.

Lemma prints_only_when_truthy_attr (v : pyval) (name : string) (then_ : pyval -> M unit) :
  (forall x, prints_only (then_ x)) -> prints_only (when_truthy_attr v name then_).
Proof.
  intros Ht. unfold when_truthy_attr.
  destruct (has_truthy_attr v name); [apply Ht | apply (prints_only_ret tt)].
Qed.

(** One call of the method with room for it. *)
Lemma print_schema_from_S `{Runtime} {N} (g : object_graph N) (room : nat)
    (schema : N) (indent : nat) :
  print_schema_from g (S room) schema indent
  = match node_dict g schema with
    | Some d =>
        print (spaces indent ++ "Type: " ++ dict_case "type" d (node_str g) "unknown") ;;
        dict_case "properties" d
          (fun props =>
             print (spaces indent ++ "Properties:") ;;
             match node_dict g props with
             | Some items =>
                 for_each items (fun '(prop_name, prop_schema) =>
                   print (spaces indent ++ "  " ++ prop_name ++ ":") ;;
                   print_schema_from g room prop_schema (indent + 4))
             | None => raise (Exn AttributeError "object has no attribute 'items'")
             end)
          (ret tt) ;;
        dict_case "required" d
          (fun req =>
             r ← lift (node_join g req);
             print (spaces indent ++ "Required: " ++ r))
          (ret tt) ;;
        dict_case "description" d
          (fun descr => print (spaces indent ++ "Description: " ++ node_str g descr))
          (ret tt)
    | None => print (spaces indent ++ node_str g schema)
    end.
Proof. reflexivity. Qed.

(** Printing a schema sends nothing and reads nothing, on every object
    graph and with any room. *)
Lemma print_schema_from_prints_only `{Runtime} {N} (g : object_graph N) (room : nat)
    (schema : N) (indent : nat) :
  prints_only (print_schema_from g room schema indent).
Proof.
  revert schema indent. induction room as [| room IH]; intros schema indent.
  - apply prints_only_raise.
  - rewrite print_schema_from_S.
    destruct (node_dict g schema) as [d |]; [| apply prints_only_print].
    rewrite !dict_case_assoc.
    apply prints_only_bind; [apply prints_only_print | intros _].
    apply prints_only_bind; [| intros _; apply prints_only_bind; [| intros _]].
    + destruct (assoc "properties" d) as [props |]; [| apply (prints_only_ret tt)].
      apply prints_only_bind; [apply prints_only_print | intros _].
      destruct (node_dict g props) as [items |]; [| apply prints_only_raise].
      apply prints_only_for_each. apply Forall_forall.
      intros [prop_name prop_schema] _.
      apply prints_only_bind; [apply prints_only_print | intros _; apply IH].
    + destruct (assoc "required" d); [| apply (prints_only_ret tt)].
      apply prints_only_bind; [apply prints_only_lift | intros r].
      apply prints_only_print.
    + destruct (assoc "description" d); [| apply (prints_only_ret tt)].
      apply prints_only_print.
Qed.

Lemma print_schema_prints_only `{Runtime} (schema : pyval) (indent : nat) :
  prints_only (_print_schema schema indent).
Proof. apply print_schema_from_prints_only. Qed.

(** A listing function: one request, then printing only, inside a
    [try] whose handler prints one line.  Whatever the server answers,
    the request is sent, lines are printed, and nothing is raised. *)
Lemma listing_catches (req : request) (rest : pyval -> M unit) (label : string) :
  (forall v, prints_only (rest v)) ->
  forall w, exists out,
    try_catch (session_call req ≫= rest)
      (fun e => print (label ++ exn_msg e)) w
    = (add_out (add_sent w [req]) out, Ok tt).
Proof.
  intros Hrest w. unfold try_catch, mbind, M_bind, bind.
  rewrite session_call_eq.
  destruct (w_server w (w_sent w ++ [req])%list) as [v | e].
  - destruct (Hrest v (add_sent w [req])) as (out & r & ->).
    destruct r as [[] | e].
    + exists out. reflexivity.
    + rewrite print_eq, add_out_app. eexists. reflexivity.
  - rewrite print_eq. eexists. reflexivity.
Qed.

Lemma list_tools_catches `{Runtime} (w : world) :
  exists out, list_tools w = (add_out (add_sent w [ReqListTools]) out, Ok tt).
Proof.
  apply listing_catches. intros tools_result.
  apply prints_only_bind; [apply prints_only_print | intros _].
  apply prints_only_bind; [apply prints_only_print | intros _].
  destruct (negb _); [apply prints_only_print |].
  apply prints_only_bind; [apply prints_only_lift | intros items].
  apply prints_only_for_each_indexed. intros i tool.
  apply prints_only_bind; [apply prints_only_attr | intros name].
  apply prints_only_bind; [apply prints_only_print | intros _].
  apply prints_only_bind; [| intros _; apply prints_only_bind; [| intros _]].
  - apply prints_only_when_truthy_attr. intros d. apply prints_only_print.
  - apply prints_only_when_truthy_attr. intros s.
    apply prints_only_bind; [apply prints_only_print | intros _].
    apply print_schema_prints_only.
  - apply prints_only_print.
Qed.

Lemma list_resources_catches `{Runtime} (w : world) :
  exists out, list_resources w = (add_out (add_sent w [ReqListResources]) out, Ok tt).
Proof.
  apply listing_catches. intros resources_result.
  apply prints_only_bind; [apply prints_only_print | intros _].
  apply prints_only_bind; [apply prints_only_print | intros _].
  destruct (negb _); [apply prints_only_print |].
  apply prints_only_bind; [apply prints_only_lift | intros items].
  apply prints_only_for_each_indexed. intros i resource.
  apply prints_only_bind; [apply prints_only_attr | intros uri].
  apply prints_only_bind; [apply prints_only_print | intros _].
  repeat (apply prints_only_bind;
          [apply prints_only_when_truthy_attr; intros x; apply prints_only_print
          | intros _]).
  apply prints_only_print.
Qed.

Lemma list_prompts_catches `{Runtime} (w : world) :
  exists out, list_prompts w = (add_out (add_sent w [ReqListPrompts]) out, Ok tt).
Proof.
  apply listing_catches. intros prompts_result.
  apply prints_only_bind; [apply prints_only_print | intros _].
  apply prints_only_bind; [apply prints_only_print | intros _].
  destruct (negb _); [apply prints_only_print |].
  apply prints_only_bind; [apply prints_only_lift | intros items].
  apply prints_only_for_each_indexed. intros i prompt.
  apply prints_only_bind; [apply prints_only_attr | intros name].
  apply prints_only_bind; [apply prints_only_print | intros _].
  apply prints_only_bind; [| intros _; apply prints_only_bind; [| intros _]].
  - apply prints_only_when_truthy_attr. intros d. apply prints_only_print.
  - apply prints_only_when_truthy_attr. intros arguments.
    apply prints_only_bind; [apply prints_only_print | intros _].
    apply prints_only_bind; [apply prints_only_lift | intros args].
    apply prints_only_for_each. apply Forall_forall. intros arg _.
    apply prints_only_bind; [apply prints_only_attr | intros arg_name].
    apply prints_only_bind; [apply prints_only_attr | intros arg_description].
    apply prints_only_bind; [apply prints_only_print | intros _].
    apply prints_only_when_truthy_attr. intros x. apply prints_only_print.
  - apply prints_only_print.
Qed.

Lemma list_all_catches `{Runtime} (w : world) :
  exists out,
    list_all w
    = (add_out (add_sent w [ReqListTools; ReqListResources; ReqListPrompts]) out,
       Ok tt).
Proof.
  unfold list_all, mbind, M_bind, bind.
  destruct (list_tools_catches w) as (o1 & ->).
  rewrite print_eq.
  destruct (list_resources_catches
              (add_out (add_out (add_sent w [ReqListTools]) o1) [newline]))
    as (o2 & ->).
  rewrite print_eq.
  destruct (list_prompts_catches
              (add_out (add_out (add_sent (add_out (add_out
                  (add_sent w [ReqListTools]) o1) [newline])
                  [ReqListResources]) o2) [newline]))
    as (o3 & ->).
  exists (o1 ++ [newline] ++ o2 ++ [newline] ++ o3)%list.
  f_equal. unfold add_out, add_sent. simpl. f_equal.
  - rewrite <- !app_assoc. reflexivity.
  - rewrite <- !app_assoc. reflexivity.
Qed.

Lemma attr_eq (v : pyval) (name : string) (x : pyval) (w : world) :
  get_attr name v = Some x -> attr v name w = (w, Ok x).
Proof. intros Hx. unfold attr. rewrite Hx. reflexivity. Qed.

(** [connect] when the subprocess opens and [initialize] answers with
    the attributes the greeting reads. *)
Lemma connect_ok `{Runtime} {A} (body : M A) (w : world)
    (init serverInfo name version protocolVersion : pyval) :
  w_spawn w = None ->
  w_server w (w_sent w ++ [ReqInitialize])%list = Ok init ->
  get_attr "serverInfo" init = Some serverInfo ->
  get_attr "name" serverInfo = Some name ->
  get_attr "version" serverInfo = Some version ->
  get_attr "protocolVersion" init = Some protocolVersion ->
  connect body w
  = match body (add_out (add_sent w [ReqInitialize])
                  ["✓ Connected to server: " ++ py_str name;
                   "  Version: " ++ py_str version;
                   "  Protocol Version: " ++ py_str protocolVersion ++ newline]) with
    | (w', Ok a) => (w', Ok a)
    | (w', Raise e) =>
        (add_out w' ["✗ Failed to initialize session: " ++ exn_msg e], Raise e)
    end.
Proof.
  intros Hspawn Hinit Hsi Hn Hv Hp.
  unfold connect, try_catch, mbind, M_bind, bind, spawn.
  rewrite Hspawn, session_call_eq, Hinit.
  rewrite (attr_eq _ _ _ _ Hsi). cbv beta iota.
  rewrite (attr_eq _ _ _ _ Hn). cbv beta iota. rewrite print_eq.
  rewrite (attr_eq _ _ _ _ Hsi). cbv beta iota.
  rewrite (attr_eq _ _ _ _ Hv). cbv beta iota. rewrite print_eq.
  rewrite (attr_eq _ _ _ _ Hp). cbv beta iota. rewrite print_eq.
  rewrite !add_out_app. simpl app.
  destruct (body _) as [w' [a | e]]; reflexivity.
Qed.

Lemma listing_empty (req : request) (rest : pyval -> M unit) (label : string)
    (w : world) (res : pyval) (out : list string) :
  w_server w (w_sent w ++ [req])%list = Ok res ->
  (forall w', rest res w' = (add_out w' out, Ok tt)) ->
  try_catch (session_call req ≫= rest) (fun e => print (label ++ exn_msg e)) w
  = (add_out (add_sent w [req]) out, Ok tt).
Proof.
  intros Hres Hrest. unfold try_catch, mbind, M_bind, bind.
  rewrite session_call_eq, Hres, Hrest. reflexivity.
Qed.

(** C8. When the server's catalog is empty the sequence a listing
    function obtains is the empty list, and the function does not fail:
    it prints its heading and the notice, no error line, and returns.
    The same holds for tools, resources and prompts. *)
Theorem empty_catalog_is_not_an_error `{Runtime} (w : world) (res : pyval) :
  (w_server w (w_sent w ++ [ReqListTools])%list = Ok res ->
   get_attr "tools" res = Some (PyList []) ->
   attr_or_empty res "tools" = PyList []
   /\ list_tools w
      = (add_out (add_sent w [ReqListTools])
           ["🔧 AVAILABLE TOOLS:"; rule; "  No tools available"], Ok tt))
  /\ (w_server w (w_sent w ++ [ReqListResources])%list = Ok res ->
      get_attr "resources" res = Some (PyList []) ->
      attr_or_empty res "resources" = PyList []
      /\ list_resources w
         = (add_out (add_sent w [ReqListResources])
              ["📁 AVAILABLE RESOURCES:"; rule; "  No resources available"], Ok tt))
  /\ (w_server w (w_sent w ++ [ReqListPrompts])%list = Ok res ->
      get_attr "prompts" res = Some (PyList []) ->
      attr_or_empty res "prompts" = PyList []
      /\ list_prompts w
         = (add_out (add_sent w [ReqListPrompts])
              ["💬 AVAILABLE PROMPTS:"; rule; "  No prompts available"], Ok tt)).
Proof.
  split; [| split]; intros Hres Hattr;
    (split; [unfold attr_or_empty; rewrite Hattr; reflexivity |]);
    (eapply listing_empty; [exact Hres |]);
    intros w'; unfold attr_or_empty; rewrite Hattr;
    change (negb (py_truthy (PyList []))) with true; cbv iota;
    unfold mbind, M_bind, bind; rewrite !print_eq, !add_out_app; reflexivity.
Qed.

Lemma empty_catalog_is_not_an_error_witness :
  @list_tools plain_runtime (start empty_server [])
  = (World empty_server None []
       ["🔧 AVAILABLE TOOLS:"; rule; "  No tools available"] [ReqListTools],
     Ok tt).
Proof.
  refine (proj2 (proj1 (@empty_catalog_is_not_an_error plain_runtime
                   (start empty_server [])
                   (PyObj "ListToolsResult" [("tools", PyList [])])) _ _));
    reflexivity.
Defined.

(** ** What the listings print *)

Lemma for_each_indexed_unfold {A} (i : Z) (x : A) (l : list A)
    (body : Z -> A -> M unit) :
  for_each_indexed i (x :: l) body
  = (body i x ≫= fun _ => for_each_indexed (i + 1) l body).
Proof. reflexivity. Qed.

Lemma for_each_unfold {A} (x : A) (l : list A) (body : A -> M unit) :
  for_each (x :: l) body = (body x ≫= fun _ => for_each l body).
Proof. reflexivity. Qed.

Lemma bind_printed {A} (m : M unit) (f : unit -> M A) (w : world)
    (out : list string) :
  m w = (add_out w out, Ok tt) -> (m ≫= f) w = f tt (add_out w out).
Proof. intros Hm. unfold mbind, M_bind, bind. rewrite Hm. reflexivity. Qed.

Lemma bind_ret {A B} (a : A) (f : A -> M B) (w : world) :
  (ret a ≫= f) w = f a w.
Proof. reflexivity. Qed.

Lemma bind_attr {B} (v : pyval) (name : string) (x : pyval) (f : pyval -> M B)
    (w : world) :
  get_attr name v = Some x -> (attr v name ≫= f) w = f x w.
Proof. intros Hx. unfold attr. rewrite Hx. reflexivity. Qed.

Lemma when_truthy_some (v : pyval) (name : string) (x : pyval)
    (then_ : pyval -> M unit) :
  has_truthy_attr v name = Some x -> when_truthy_attr v name then_ = then_ x.
Proof. intros Hx. unfold when_truthy_attr. rewrite Hx. reflexivity. Qed.

Lemma when_truthy_none (v : pyval) (name : string) (then_ : pyval -> M unit) :
  has_truthy_attr v name = None -> when_truthy_attr v name then_ = ret tt.
Proof. intros Hx. unfold when_truthy_attr. rewrite Hx. reflexivity. Qed.

Lemma when_truthy_print `{Runtime} (label : string) (v : pyval) (name : string)
    (w : world) :
  when_truthy_attr v name (fun x => print (label ++ py_str x)) w
  = (add_out w (optional_line label v name), Ok tt).
Proof.
  unfold when_truthy_attr, optional_line.
  destruct (has_truthy_attr v name); [reflexivity |].
  rewrite add_out_nil. reflexivity.
Qed.

(** A loop over entries that all print to their end prints their lines
    in order. *)
Lemma numbered_lines_run (entry : Z -> pyval -> option (list string))
    (body : Z -> pyval -> M unit) :
  (forall i x l w, entry i x = Some l -> body i x w = (add_out w l, Ok tt)) ->
  forall items i lines w,
    numbered_lines entry i items = Some lines ->
    for_each_indexed i items body w = (add_out w lines, Ok tt).
Proof.
  intros Hbody. induction items as [| x items IH]; intros i lines w Hlines.
  - injection Hlines as <-. rewrite add_out_nil. reflexivity.
  - simpl in Hlines.
    destruct (entry i x) as [a |] eqn:Ha; [| discriminate].
    destruct (numbered_lines entry (i + 1) items) as [b |] eqn:Hb; [| discriminate].
    injection Hlines as <-.
    rewrite for_each_indexed_unfold, (bind_printed _ _ _ a) by (apply Hbody, Ha).
    rewrite (IH _ _ _ Hb), add_out_app. reflexivity.
Qed.

Lemma catalog_lines_run (notice : string)
    (entry : Z -> pyval -> option (list string)) (body : Z -> pyval -> M unit)
    (catalog : pyval) (lines : list string) (w : world) :
  (forall i x l w, entry i x = Some l -> body i x w = (add_out w l, Ok tt)) ->
  catalog_lines notice entry catalog = Some lines ->
  (if negb (py_truthy catalog) then print notice
   else items ← lift (py_iter catalog); for_each_indexed 1 items body) w
  = (add_out w lines, Ok tt).
Proof.
  intros Hbody Hlines. unfold catalog_lines in Hlines.
  destruct (negb (py_truthy catalog)).
  - injection Hlines as <-. reflexivity.
  - unfold mbind, M_bind, bind, lift.
    destruct (py_iter catalog) as [items | e]; [| discriminate].
    apply (numbered_lines_run entry); assumption.
Qed.

(** A listing whose request is answered and whose catalog prints to its
    end. *)
Lemma listing_printed (req : request) (rest : pyval -> M unit) (label : string)
    (w : world) (res : pyval) (out : list string) :
  w_server w (w_sent w ++ [req])%list = Ok res ->
  rest res (add_sent w [req]) = (add_out (add_sent w [req]) out, Ok tt) ->
  try_catch (session_call req ≫= rest) (fun e => print (label ++ exn_msg e)) w
  = (add_out (add_sent w [req]) out, Ok tt).
Proof.
  intros Hres Hrest. unfold try_catch, mbind, M_bind, bind.
  rewrite session_call_eq, Hres, Hrest. reflexivity.
Qed.

(** A listing whose request fails. *)
Lemma listing_refused (req : request) (rest : pyval -> M unit) (label : string)
    (w : world) (e : exn) :
  w_server w (w_sent w ++ [req])%list = Raise e ->
  try_catch (session_call req ≫= rest) (fun e => print (label ++ exn_msg e)) w
  = (add_out (add_sent w [req]) [label ++ exn_msg e], Ok tt).
Proof.
  intros Hres. unfold try_catch, mbind, M_bind, bind.
  rewrite session_call_eq, Hres. reflexivity.
Qed.

Lemma properties_lines_run (render : pyval -> option (list string))
    (body : pyval -> M unit) (indent : nat) :
  (forall schema l w, render schema = Some l -> body schema w = (add_out w l, Ok tt)) ->
  forall items lines w,
    properties_lines render indent items = Some lines ->
    for_each items (fun '(prop_name, prop_schema) =>
      print (spaces indent ++ "  " ++ prop_name ++ ":") ;;
      body prop_schema) w
    = (add_out w lines, Ok tt).
Proof.
  intros Hbody. induction items as [| [prop_name prop_schema] items IH];
    intros lines w Hlines.
  - injection Hlines as <-. rewrite add_out_nil. reflexivity.
  - simpl in Hlines.
    destruct (render prop_schema) as [a |] eqn:Ha; [| discriminate].
    destruct (properties_lines render indent items) as [b |] eqn:Hb;
      [| discriminate].
    injection Hlines as <-.
    rewrite for_each_unfold.
    rewrite (bind_printed _ _ _ ((spaces indent ++ "  " ++ prop_name ++ ":") :: a)).
    + rewrite (IH b _ eq_refl), add_out_app. reflexivity.
    + rewrite (bind_printed _ _ _ [spaces indent ++ "  " ++ prop_name ++ ":"])
        by reflexivity.
      rewrite (Hbody _ _ _ Ha), add_out_app. reflexivity.
Qed.

(** A schema with lines is printed to its end, and those are the lines. *)
Lemma schema_lines_run `{Runtime} (room : nat) :
  forall schema indent lines w,
    schema_lines room schema indent = Some lines ->
    print_schema_from pyval_graph room schema indent w = (add_out w lines, Ok tt).
Proof.
  induction room as [| room IH]; intros schema indent lines w Hlines;
    [discriminate Hlines |].
  rewrite print_schema_from_S.
  destruct schema as [| b | z | lit | s | l | d | cls attrs];
    try (injection Hlines as <-; reflexivity).
  change (node_dict pyval_graph (PyDict d)) with (Some d). cbv iota.
  simpl in Hlines. rewrite !dict_case_assoc in Hlines. rewrite !dict_case_assoc.
  change (node_str pyval_graph) with py_str.
  change (node_join pyval_graph) with join_required.
  rewrite (bind_printed _ _ _
             [spaces indent ++ "Type: "
              ++ match assoc "type" d with
                 | Some v => py_str v
                 | None => "unknown"
                 end]) by reflexivity.
  destruct (assoc "properties" d) as [props |].
  - destruct props as [| b | z | lit | s | l | items | cls attrs];
      try discriminate Hlines.
    destruct (properties_lines _ indent items) as [lp |] eqn:Hlp;
      [| discriminate Hlines].
    rewrite (bind_printed _ _ _ ((spaces indent ++ "Properties:") :: lp)).
    2:{ rewrite (bind_printed _ _ _ [spaces indent ++ "Properties:"]) by reflexivity.
        change (node_dict pyval_graph (PyDict items)) with (Some items). cbv iota.
        rewrite (properties_lines_run _ _ _ (fun s l w => IH s (indent + 4)%nat l w)
                   items lp _ Hlp).
        rewrite add_out_app. reflexivity. }
    destruct (assoc "required" d) as [req |].
    + unfold mbind at 1 2, M_bind at 1 2, bind at 1 2, lift.
      destruct (join_required req) as [r |]; [| discriminate Hlines].
      injection Hlines as <-. rewrite print_eq.
      destruct (assoc "description" d).
      * rewrite print_eq, !add_out_app. reflexivity.
      * unfold ret. rewrite ?add_out_app, ?app_nil_r. reflexivity.
    + injection Hlines as <-. rewrite bind_ret.
      destruct (assoc "description" d).
      * rewrite print_eq, !add_out_app. reflexivity.
      * unfold ret. rewrite ?add_out_app, ?app_nil_r. reflexivity.
  - rewrite bind_ret.
    destruct (assoc "required" d) as [req |].
    + unfold mbind at 1 2, M_bind at 1 2, bind at 1 2, lift.
      destruct (join_required req) as [r |]; [| discriminate Hlines].
      injection Hlines as <-. rewrite print_eq.
      destruct (assoc "description" d).
      * rewrite print_eq, !add_out_app. reflexivity.
      * unfold ret. rewrite ?add_out_app, ?app_nil_r. reflexivity.
    + injection Hlines as <-. rewrite bind_ret.
      destruct (assoc "description" d).
      * rewrite print_eq, !add_out_app. reflexivity.
      * unfold ret. rewrite ?add_out_app, ?app_nil_r. reflexivity.
Qed.

Lemma list_tools_report `{Runtime} (w : world) (lines : list string) :
  tools_report (w_server w (w_sent w ++ [ReqListTools])%list) = Some lines ->
  list_tools w = (add_out (add_sent w [ReqListTools]) lines, Ok tt).
Proof.
  intros Hlines. unfold tools_report in Hlines.
  destruct (w_server w (w_sent w ++ [ReqListTools])%list) as [res | e] eqn:Hres.
  - destruct (catalog_lines _ _ _) as [l |] eqn:Hl; [| discriminate].
    injection Hlines as <-.
    apply (listing_printed _ _ _ _ res); [exact Hres |].
    rewrite (bind_printed _ _ _ ["🔧 AVAILABLE TOOLS:"]) by reflexivity.
    rewrite (bind_printed _ _ _ [rule]) by reflexivity.
    rewrite (catalog_lines_run _ tool_lines _ _ l); [| | exact Hl].
    + rewrite !add_out_app. reflexivity.
    + clear. intros i tool l w Hentry. unfold tool_lines in Hentry.
      destruct (get_attr "name" tool) as [name |] eqn:Hname; [| discriminate].
      rewrite (bind_attr _ _ _ _ _ Hname).
      rewrite (bind_printed _ _ _ [str_of_Z i ++ ". " ++ py_str name])
        by reflexivity.
      rewrite (bind_printed _ _ _ (optional_line "   Description: " tool
                                     "description"))
        by apply when_truthy_print.
      destruct (has_truthy_attr tool "inputSchema") as [inputSchema |] eqn:Hschema.
      * destruct (schema_lines _ inputSchema 6) as [ls |] eqn:Hls; [| discriminate].
        injection Hentry as <-.
        rewrite (when_truthy_some _ _ _ _ Hschema).
        rewrite (bind_printed _ _ _ ("   Input Schema:" :: ls)).
        -- rewrite print_eq, !add_out_app. reflexivity.
        -- rewrite (bind_printed _ _ _ ["   Input Schema:"]) by reflexivity.
           unfold _print_schema.
           rewrite (schema_lines_run _ _ _ _ _ Hls), add_out_app. reflexivity.
      * injection Hentry as <-.
        rewrite (when_truthy_none _ _ _ Hschema).
        rewrite bind_ret, print_eq, !add_out_app. reflexivity.
  - injection Hlines as <-. apply listing_refused, Hres.
Qed.

Lemma list_resources_report `{Runtime} (w : world) (lines : list string) :
  resources_report (w_server w (w_sent w ++ [ReqListResources])%list) = Some lines ->
  list_resources w = (add_out (add_sent w [ReqListResources]) lines, Ok tt).
Proof.
  intros Hlines. unfold resources_report in Hlines.
  destruct (w_server w (w_sent w ++ [ReqListResources])%list) as [res | e] eqn:Hres.
  - destruct (catalog_lines _ _ _) as [l |] eqn:Hl; [| discriminate].
    injection Hlines as <-.
    apply (listing_printed _ _ _ _ res); [exact Hres |].
    rewrite (bind_printed _ _ _ ["📁 AVAILABLE RESOURCES:"]) by reflexivity.
    rewrite (bind_printed _ _ _ [rule]) by reflexivity.
    rewrite (catalog_lines_run _ resource_lines _ _ l); [| | exact Hl].
    + rewrite !add_out_app. reflexivity.
    + clear. intros i resource l w Hentry. unfold resource_lines in Hentry.
      destruct (get_attr "uri" resource) as [uri |] eqn:Huri; [| discriminate].
      injection Hentry as <-.
      rewrite (bind_attr _ _ _ _ _ Huri).
      unfold mbind, M_bind, bind. rewrite print_eq, !when_truthy_print, print_eq.
      rewrite !add_out_app. reflexivity.
  - injection Hlines as <-. apply listing_refused, Hres.
Qed.

Lemma arguments_lines_run `{Runtime} (args : list pyval) :
  forall lines w,
    arguments_lines args = Some lines ->
    for_each args (fun arg =>
      arg_name ← attr arg "name";
      arg_description ← attr arg "description";
      print ("     - " ++ py_str arg_name ++ ": " ++ py_str arg_description) ;;
      when_truthy_attr arg "required" (fun _ => print "       (required)")) w
    = (add_out w lines, Ok tt).
Proof.
  induction args as [| arg args IH]; intros lines w Hlines.
  - injection Hlines as <-. rewrite add_out_nil. reflexivity.
  - simpl in Hlines.
    destruct (argument_lines arg) as [a |] eqn:Ha; [| discriminate].
    destruct (arguments_lines args) as [b |] eqn:Hb; [| discriminate].
    injection Hlines as <-.
    rewrite for_each_unfold, (bind_printed _ _ _ a).
    + rewrite (IH b _ eq_refl), add_out_app. reflexivity.
    + unfold argument_lines in Ha.
      destruct (get_attr "name" arg) as [arg_name |] eqn:Hname; [| discriminate].
      destruct (get_attr "description" arg) as [arg_description |] eqn:Hdescr;
        [| discriminate].
      injection Ha as <-.
      rewrite (bind_attr _ _ _ _ _ Hname), (bind_attr _ _ _ _ _ Hdescr).
      unfold mbind, M_bind, bind. rewrite print_eq.
      unfold when_truthy_attr.
      destruct (has_truthy_attr arg "required").
      * rewrite print_eq, add_out_app. reflexivity.
      * reflexivity.
Qed.

Lemma list_prompts_report `{Runtime} (w : world) (lines : list string) :
  prompts_report (w_server w (w_sent w ++ [ReqListPrompts])%list) = Some lines ->
  list_prompts w = (add_out (add_sent w [ReqListPrompts]) lines, Ok tt).
Proof.
  intros Hlines. unfold prompts_report in Hlines.
  destruct (w_server w (w_sent w ++ [ReqListPrompts])%list) as [res | e] eqn:Hres.
  - destruct (catalog_lines _ _ _) as [l |] eqn:Hl; [| discriminate].
    injection Hlines as <-.
    apply (listing_printed _ _ _ _ res); [exact Hres |].
    rewrite (bind_printed _ _ _ ["💬 AVAILABLE PROMPTS:"]) by reflexivity.
    rewrite (bind_printed _ _ _ [rule]) by reflexivity.
    rewrite (catalog_lines_run _ prompt_lines _ _ l); [| | exact Hl].
    + rewrite !add_out_app. reflexivity.
    + clear. intros i prompt l w Hentry. unfold prompt_lines in Hentry.
      destruct (get_attr "name" prompt) as [name |] eqn:Hname; [| discriminate].
      rewrite (bind_attr _ _ _ _ _ Hname).
      rewrite (bind_printed _ _ _ [str_of_Z i ++ ". " ++ py_str name])
        by reflexivity.
      rewrite (bind_printed _ _ _ (optional_line "   Description: " prompt
                                     "description"))
        by apply when_truthy_print.
      destruct (has_truthy_attr prompt "arguments") as [arguments |] eqn:Harguments.
      * destruct (py_iter arguments) as [args | e] eqn:Hargs; [| discriminate].
        destruct (arguments_lines args) as [la |] eqn:Hla; [| discriminate].
        injection Hentry as <-.
        rewrite (when_truthy_some _ _ _ _ Harguments).
        rewrite (bind_printed _ _ _ ("   Arguments:" :: la)).
        -- rewrite print_eq, !add_out_app. reflexivity.
        -- rewrite (bind_printed _ _ _ ["   Arguments:"]) by reflexivity.
           unfold mbind, M_bind, bind, lift. rewrite Hargs.
           rewrite (arguments_lines_run _ _ _ Hla), add_out_app. reflexivity.
      * injection Hentry as <-.
        rewrite (when_truthy_none _ _ _ Harguments).
        rewrite bind_ret, print_eq, !add_out_app. reflexivity.
  - injection Hlines as <-. apply listing_refused, Hres.
Qed.

(** C10.  Each listing function catches what its listing raises: it
    always returns, having sent its one request (first three conjuncts),
    and when the request itself fails the error line is all it prints
    (fourth).  What a listing prints depends on the server's answer to
    its own request only: [list_tools], [list_resources] and
    [list_prompts] print the report of that answer, the error line, or
    the heading, the rule and the entries of the catalog or the notice
    of an empty one (fifth to seventh).  So the three listings always
    run, in the order tools, resources, prompts, a blank entry between
    them, whatever the tool listing printed and however it ended (eighth
    and ninth); and when the tool listing fails after a good handshake,
    [inspect_server] prints the greeting, the error line of the tools,
    then the resources and the prompts in full, and returns (tenth and
    eleventh).  (Every exception of the model derives from
    [Exception].) *)
Theorem listing_failures_isolated `{Runtime} (w : world) :
  (exists out, list_tools w = (add_out (add_sent w [ReqListTools]) out, Ok tt))
  /\ (exists out,
        list_resources w = (add_out (add_sent w [ReqListResources]) out, Ok tt))
  /\ (exists out,
        list_prompts w = (add_out (add_sent w [ReqListPrompts]) out, Ok tt))
  /\ (forall e,
        w_server w (w_sent w ++ [ReqListTools])%list = Raise e ->
        list_tools w
        = (add_out (add_sent w [ReqListTools])
             ["✗ Error listing tools: " ++ exn_msg e], Ok tt))
  /\ (forall lines,
        tools_report (w_server w (w_sent w ++ [ReqListTools])%list) = Some lines ->
        list_tools w = (add_out (add_sent w [ReqListTools]) lines, Ok tt))
  /\ (forall lines,
        resources_report (w_server w (w_sent w ++ [ReqListResources])%list)
        = Some lines ->
        list_resources w = (add_out (add_sent w [ReqListResources]) lines, Ok tt))
  /\ (forall lines,
        prompts_report (w_server w (w_sent w ++ [ReqListPrompts])%list)
        = Some lines ->
        list_prompts w = (add_out (add_sent w [ReqListPrompts]) lines, Ok tt))
  /\ (exists out,
        list_all w
        = (add_out (add_sent w [ReqListTools; ReqListResources; ReqListPrompts])
             out, Ok tt))
  /\ (forall tools_out resources_out prompts_out,
        list_tools w = (add_out (add_sent w [ReqListTools]) tools_out, Ok tt) ->
        resources_report
          (w_server w (w_sent w ++ [ReqListTools; ReqListResources])%list)
        = Some resources_out ->
        prompts_report
          (w_server w
             (w_sent w ++ [ReqListTools; ReqListResources; ReqListPrompts])%list)
        = Some prompts_out ->
        list_all w
        = (add_out (add_sent w [ReqListTools; ReqListResources; ReqListPrompts])
             (tools_out ++ [newline] ++ resources_out ++ [newline] ++ prompts_out),
           Ok tt))
  /\ (forall init serverInfo name version protocolVersion,
        w_spawn w = None ->
        w_server w (w_sent w ++ [ReqInitialize])%list = Ok init ->
        get_attr "serverInfo" init = Some serverInfo ->
        get_attr "name" serverInfo = Some name ->
        get_attr "version" serverInfo = Some version ->
        get_attr "protocolVersion" init = Some protocolVersion ->
        exists out,
          inspect_server w
          = (add_out (add_sent w [ReqInitialize; ReqListTools;
                                  ReqListResources; ReqListPrompts]) out,
             Ok tt))
  /\ (forall init serverInfo name version protocolVersion e
             resources_out prompts_out,
        w_spawn w = None ->
        w_server w (w_sent w ++ [ReqInitialize])%list = Ok init ->
        get_attr "serverInfo" init = Some serverInfo ->
        get_attr "name" serverInfo = Some name ->
        get_attr "version" serverInfo = Some version ->
        get_attr "protocolVersion" init = Some protocolVersion ->
        w_server w (w_sent w ++ [ReqInitialize; ReqListTools])%list = Raise e ->
        resources_report
          (w_server w
             (w_sent w ++ [ReqInitialize; ReqListTools; ReqListResources])%list)
        = Some resources_out ->
        prompts_report
          (w_server w
             (w_sent w ++ [ReqInitialize; ReqListTools; ReqListResources;
                           ReqListPrompts])%list)
        = Some prompts_out ->
        inspect_server w
        = (add_out (add_sent w [ReqInitialize; ReqListTools;
                                ReqListResources; ReqListPrompts])
             (greeting name version protocolVersion
              ++ ["✗ Error listing tools: " ++ exn_msg e; newline]
              ++ resources_out ++ [newline] ++ prompts_out),
           Ok tt)).
Proof.
  assert (Hall : forall w tools_out resources_out prompts_out,
            list_tools w = (add_out (add_sent w [ReqListTools]) tools_out, Ok tt) ->
            resources_report
              (w_server w (w_sent w ++ [ReqListTools; ReqListResources])%list)
            = Some resources_out ->
            prompts_report
              (w_server w
                 (w_sent w ++ [ReqListTools; ReqListResources; ReqListPrompts])%list)
            = Some prompts_out ->
            list_all w
            = (add_out (add_sent w [ReqListTools; ReqListResources; ReqListPrompts])
                 (tools_out ++ [newline] ++ resources_out ++ [newline] ++ prompts_out),
               Ok tt)).
  { clear w. intros w tools_out resources_out prompts_out Ht Hr Hp.
    unfold list_all, mbind, M_bind, bind. rewrite Ht, print_eq.
    rewrite (list_resources_report _ resources_out)
      by (simpl; rewrite <- app_assoc; exact Hr).
    rewrite print_eq.
    rewrite (list_prompts_report _ prompts_out)
      by (simpl; rewrite <- !app_assoc; exact Hp).
    f_equal. unfold add_out, add_sent. simpl. f_equal;
      rewrite <- !app_assoc; reflexivity. }
  assert (Htools : forall w e,
            w_server w (w_sent w ++ [ReqListTools])%list = Raise e ->
            list_tools w
            = (add_out (add_sent w [ReqListTools])
                 ["✗ Error listing tools: " ++ exn_msg e], Ok tt)).
  { clear. intros w e He. apply listing_refused, He. }
  split; [apply list_tools_catches |].
  split; [apply list_resources_catches |].
  split; [apply list_prompts_catches |].
  split; [apply Htools |].
  split; [apply list_tools_report |].
  split; [apply list_resources_report |].
  split; [apply list_prompts_report |].
  split; [apply list_all_catches |].
  split; [apply Hall |].
  split.
  - intros init serverInfo name version protocolVersion Hspawn Hinit Hsi Hn Hv Hp.
    unfold inspect_server, try_catch.
    rewrite (connect_ok _ w init serverInfo name version protocolVersion)
      by assumption.
    match goal with
    | |- context [(list_tools ≫= ?k) ?w1] =>
        change ((list_tools ≫= k) w1) with (list_all w1);
        destruct (list_all_catches w1) as (out & ->)
    end.
    eexists. unfold add_out, add_sent. simpl.
    rewrite <- !app_assoc. simpl. reflexivity.
  - intros init serverInfo name version protocolVersion e resources_out prompts_out
           Hspawn Hinit Hsi Hn Hv Hp He Hr Hpr.
    unfold inspect_server, try_catch.
    rewrite (connect_ok _ w init serverInfo name version protocolVersion)
      by assumption.
    match goal with
    | |- context [(list_tools ≫= ?k) ?w1] =>
        change ((list_tools ≫= k) w1) with (list_all w1);
        rewrite (Hall w1 ["✗ Error listing tools: " ++ exn_msg e]
                   resources_out prompts_out)
    end.
    + f_equal. unfold greeting, add_out, add_sent. simpl. f_equal;
        rewrite <- !app_assoc; reflexivity.
    + apply Htools. simpl. rewrite <- app_assoc. exact He.
    + simpl. rewrite <- app_assoc. exact Hr.
    + simpl. rewrite <- app_assoc. exact Hpr.
Qed.

Lemma listing_failures_isolated_witness :
  @inspect_server plain_runtime (start partly_failing_server [])
  = (World partly_failing_server None []
       ["✓ Connected to server: echo"; "  Version: 1.0";
        "  Protocol Version: 2024-11-05" ++ newline;
        "✗ Error listing tools: tools unavailable"; newline;
        "📁 AVAILABLE RESOURCES:"; rule;
        "1. file:///notes.txt"; "   Name: notes"; "   MIME Type: text/plain"; "";
        newline;
        "💬 AVAILABLE PROMPTS:"; rule;
        "1. greet"; "   Description: Say hello"; "   Arguments:";
        "     - who: addressee"; "       (required)"; ""]
       [ReqInitialize; ReqListTools; ReqListResources; ReqListPrompts],
     Ok tt).
Proof.
  exact (proj2 (proj2 (proj2 (proj2 (proj2 (proj2 (proj2 (proj2 (proj2 (proj2
           (@listing_failures_isolated plain_runtime
              (start partly_failing_server []))))))))))) echo_init
           (PyObj "Implementation"
              [("name", PyStr "echo"); ("version", PyStr "1.0")])
           (PyStr "echo") (PyStr "1.0") (PyStr "2024-11-05")
           (Exn (OtherError "McpError") "tools unavailable") _ _
           eq_refl eq_refl eq_refl eq_refl eq_refl eq_refl eq_refl
           eq_refl eq_refl).
Defined.

(** * Recursion depth of the schema printer *)

Lemma fails_raise {A} (e : exn) : fails (@raise A e).
Proof. intros w. exists e. reflexivity. Qed.

Lemma fails_bind_left {A B} (m : M A) (f : A -> M B) : fails m -> fails (m ≫= f).
Proof.
  intros Hm w. destruct (Hm w) as [e He].
  unfold mbind, M_bind, bind. destruct (m w) as [w' r]. simpl in He. subst r.
  exists e. reflexivity.
Qed.

Lemma fails_bind_right {A B} (m : M A) (f : A -> M B) :
  (forall a, fails (f a)) -> fails (m ≫= f).
Proof.
  intros Hf w. unfold mbind, M_bind, bind.
  destruct (m w) as [w' [a | e]]; [apply Hf | exists e; reflexivity].
Qed.

(** A loop fails when the body fails on one of the items. *)
Lemma fails_for_each {A} (l : list A) (body : A -> M unit) :
  Exists (fun x => fails (body x)) l -> fails (for_each l body).
Proof.
  induction 1 as [x l Hx | x l _ IH]; rewrite for_each_unfold.
  - apply fails_bind_left, Hx.
  - apply fails_bind_right. intros _. exact IH.
Qed.

Lemma list_max_gt (l : list nat) (n : nat) :
  (n < list_max l)%nat -> Exists (fun x => (n < x)%nat) l.
Proof.
  induction l as [| x l IH]; simpl; [lia |].
  intros Hn. destruct (Nat.max_spec x (list_max l)) as [[_ Hmax] | [_ Hmax]];
    rewrite Hmax in Hn.
  - right. apply IH, Hn.
  - left. exact Hn.
Qed.

(** A schema that nests deeper than there is room for is not printed to
    its end: the call that has no room raises, and nothing on the way
    out catches. *)
Lemma print_schema_too_deep `{Runtime} (room : nat) :
  forall schema indent,
    (room < schema_depth schema)%nat ->
    fails (print_schema_from pyval_graph room schema indent).
Proof.
  induction room as [| room IH]; intros schema indent Hdeep.
  - apply fails_raise.
  - rewrite print_schema_from_S.
    destruct schema as [| b | z | lit | s | l | d | cls attrs];
      try (simpl in Hdeep; lia).
    change (node_dict pyval_graph (PyDict d)) with (Some d). cbv iota.
    simpl in Hdeep. rewrite dict_case_assoc in Hdeep.
    apply fails_bind_right. intros _. apply fails_bind_left.
    rewrite dict_case_assoc.
    destruct (assoc "properties" d) as [props |]; [| lia].
    apply fails_bind_right. intros _.
    destruct props as [| b | z | lit | s | l | items | cls attrs]; try lia.
    change (node_dict pyval_graph (PyDict items)) with (Some items). cbv iota.
    apply fails_for_each.
    assert (Hex : Exists (fun x => (room < x)%nat)
                    (map (fun kv => schema_depth (snd kv)) items))
      by (apply list_max_gt; lia).
    apply Exists_exists in Hex. destruct Hex as (x & Hx & Hlt).
    apply list_elem_of_fmap in Hx.
    destruct Hx as ([prop_name prop_schema] & -> & Hin).
    apply Exists_exists. exists (prop_name, prop_schema).
    split; [exact Hin |].
    apply fails_bind_right. intros _. apply IH. exact Hlt.
Qed.

Lemma schema_depth_nested (n : nat) : schema_depth (nested_schema n) = S n.
Proof.
  induction n as [| n IH]; [reflexivity |].
  simpl. rewrite IH. rewrite Nat.max_0_r. reflexivity.
Qed.

(** One level of [nested_schema], with room for the call: three lines,
    then the call one level down. *)
Lemma print_nested_level `{Runtime} (room n indent : nat) (w : world) :
  print_schema_from pyval_graph (S room) (nested_schema (S n)) indent w
  = match print_schema_from pyval_graph room (nested_schema n) (indent + 4)
            (add_out w (cut_schema_lines "p" 1 indent)) with
    | (w', Ok _) => (w', Ok tt)
    | (w', Raise e) => (w', Raise e)
    end.
Proof.
  rewrite print_schema_from_S.
  change (nested_schema (S n))
    with (PyDict [("type", PyStr "object");
                  ("properties", PyDict [("p", nested_schema n)])]).
  change (node_dict pyval_graph
            (PyDict [("type", PyStr "object");
                     ("properties", PyDict [("p", nested_schema n)])]))
    with (Some [("type", PyStr "object");
                ("properties", PyDict [("p", nested_schema n)])]).
  cbv iota. unfold dict_case, for_each. simpl String.eqb. cbv iota.
  change (node_dict pyval_graph (PyDict [("p", nested_schema n)]))
    with (Some [("p", nested_schema n)]).
  cbv iota. unfold mbind, M_bind, bind. rewrite !print_eq, !add_out_app.
  simpl app.
  change (cut_schema_lines "p" 1 indent)
    with [spaces indent ++ "Type: object"; spaces indent ++ "Properties:";
          spaces indent ++ "  " ++ "p" ++ ":"].
  destruct (print_schema_from pyval_graph room (nested_schema n) (indent + 4) _)
    as [w' [[] | e]]; reflexivity.
Qed.

(** With room for every level, the nested schema is printed in full. *)
Lemma print_nested_full `{Runtime} (room : nat) :
  forall n indent w,
    (n < room)%nat ->
    print_schema_from pyval_graph room (nested_schema n) indent w
    = (add_out w (nested_schema_lines n indent), Ok tt).
Proof.
  induction room as [| room IH]; intros n indent w Hn; [lia |].
  destruct n as [| n]; [reflexivity |].
  rewrite print_nested_level, IH by lia.
  rewrite add_out_app. reflexivity.
Qed.

(** Without room for every level, the printing is cut after three lines
    for each call that ran. *)
Lemma print_nested_cut `{Runtime} (room : nat) :
  forall n indent w,
    (room <= n)%nat ->
    print_schema_from pyval_graph room (nested_schema n) indent w
    = (add_out w (cut_schema_lines "p" room indent),
       Raise (Exn RecursionError recursion_message)).
Proof.
  induction room as [| room IH]; intros n indent w Hn.
  - simpl. rewrite add_out_nil. reflexivity.
  - destruct n as [| n]; [lia |].
    rewrite print_nested_level, IH by lia.
    rewrite add_out_app. reflexivity.
Qed.

(** The schema that contains itself: every call prints three lines and
    calls again, until there is no room. *)
Lemma print_cyclic_cut `{Runtime} (room : nat) :
  forall indent w,
    print_schema_from cyclic_graph room CyclicSchema indent w
    = (add_out w (cut_schema_lines "self" room indent),
       Raise (Exn RecursionError recursion_message)).
Proof.
  induction room as [| room IH]; intros indent w.
  - simpl. rewrite add_out_nil. reflexivity.
  - rewrite print_schema_from_S.
    change (node_dict cyclic_graph CyclicSchema)
      with (Some [("type", CyclicType); ("properties", CyclicProperties)]).
    cbv iota. unfold dict_case, for_each. simpl String.eqb. cbv iota.
    change (node_dict cyclic_graph CyclicProperties)
      with (Some [("self", CyclicSchema)]).
    cbv iota. unfold mbind, M_bind, bind. rewrite !print_eq, !add_out_app.
    rewrite IH, add_out_app. reflexivity.
Qed.

(** C7.  The recursion of [_print_schema] is capped, by the interpreter:
    every nested call takes a frame, and the call for which none is left
    raises [RecursionError].  So the method ends on every input, finite
    or cyclic, having only printed lines: on every graph of objects and
    with any room, [print_schema_from] is a total function that appends
    lines to the output and returns or raises (first conjunct).  A schema
    that nests more levels than there is room for is never printed to
    its end (second); one that fits, like [nested_schema n] within the
    room, is printed in full (third); past the room the printing of
    [nested_schema n] stops after three lines for each call that ran
    (fourth), and so does the printing of the schema that contains
    itself, whatever the room (fifth).  In [list_tools] the exception is
    caught like any other: the listing of a tool whose schema is too
    deep ends with the error line, and returns (sixth). *)
Theorem print_schema_recursion_is_capped `{Runtime} :
  (forall (N : Type) (g : object_graph N) (room : nat) (schema : N) (indent : nat),
     prints_only (print_schema_from g room schema indent))
  /\ (forall schema indent w,
        (S schema_depth_room < schema_depth schema)%nat ->
        exists e, snd (_print_schema schema indent w) = Raise e)
  /\ (forall n indent w,
        (n <= schema_depth_room)%nat ->
        _print_schema (nested_schema n) indent w
        = (add_out w (nested_schema_lines n indent), Ok tt))
  /\ (forall n indent w,
        (schema_depth_room < n)%nat ->
        _print_schema (nested_schema n) indent w
        = (add_out w (cut_schema_lines "p" (S schema_depth_room) indent),
           Raise (Exn RecursionError recursion_message)))
  /\ (forall room indent w,
        print_schema_from cyclic_graph room CyclicSchema indent w
        = (add_out w (cut_schema_lines "self" room indent),
           Raise (Exn RecursionError recursion_message)))
  /\ (forall n w,
        (schema_depth_room < n)%nat ->
        w_server w (w_sent w ++ [ReqListTools])%list
        = Ok (PyObj "ListToolsResult" [("tools", PyList [deep_tool n])]) ->
        list_tools w
        = (add_out (add_sent w [ReqListTools])
             (["🔧 AVAILABLE TOOLS:"; rule; "1. deep"; "   Input Schema:"]
              ++ cut_schema_lines "p" (S schema_depth_room) 6
              ++ [("✗ Error listing tools: " ++ recursion_message)%string])%list,
           Ok tt)).
Proof.
  split; [intros N g room schema indent; apply print_schema_from_prints_only |].
  split; [intros schema indent w Hdeep; apply print_schema_too_deep, Hdeep |].
  split; [intros n indent w Hn; apply print_nested_full; lia |].
  split; [intros n indent w Hn; apply print_nested_cut; lia |].
  split; [intros room indent w; apply print_cyclic_cut |].
  intros n w Hn Hres.
  unfold list_tools, try_catch, mbind, M_bind, bind.
  rewrite session_call_eq, Hres.
  change (attr_or_empty (PyObj "ListToolsResult" [("tools", PyList [deep_tool n])])
            "tools") with (PyList [deep_tool n]).
  change (negb (py_truthy (PyList [deep_tool n]))) with false. cbv iota.
  rewrite !print_eq. unfold lift. simpl py_iter. cbv beta iota.
  unfold for_each_indexed, mbind, M_bind, bind.
  rewrite (attr_eq (deep_tool n) "name" (PyStr "deep")) by reflexivity.
  cbv beta iota. rewrite print_eq.
  change (when_truthy_attr (deep_tool n) "description")
    with (fun _ : pyval -> M unit => @ret unit tt).
  cbv beta. unfold ret at 1. cbv beta iota.
  assert (Hschema : has_truthy_attr (deep_tool n) "inputSchema"
                    = Some (nested_schema n)).
  { unfold has_truthy_attr. simpl get_attr.
    destruct n; reflexivity. }
  unfold when_truthy_attr. rewrite Hschema. cbv beta iota.
  unfold mbind, M_bind, bind. rewrite print_eq.
  unfold _print_schema. rewrite print_nested_cut by lia.
  rewrite print_eq, !add_out_app. reflexivity.
Qed.

(** * Local checks of the interactive menu *)

Lemma input_cons (prompt line : string) (rest : list string) (w : world) :
  w_stdin w = line :: rest ->
  input prompt w
  = (World (w_server w) (w_spawn w) rest (w_stdout w ++ [prompt])%list (w_sent w),
     Ok line).
Proof. intros Hin. unfold input. rewrite Hin. reflexivity. Qed.

Lemma input_nil (prompt : string) (w : world) :
  w_stdin w = [] ->
  input prompt w
  = (World (w_server w) (w_spawn w) [] (w_stdout w ++ [prompt])%list (w_sent w),
     Raise (Exn EOFError "EOF when reading a line")).
Proof. intros Hin. unfold input. rewrite Hin. reflexivity. Qed.

(** Showing a result sends nothing. *)
Lemma print_results_prints_only `{Runtime} (result : pyval) :
  prints_only (print_results result).
Proof.
  unfold print_results.
  apply prints_only_bind; [apply prints_only_print | intros _].
  apply prints_only_bind; [apply prints_only_lift | intros text].
  apply prints_only_print.
Qed.

Lemma eqb_empty (s : string) : String.eqb s "" = true <-> s = "".
Proof. apply String.eqb_eq. Qed.

(** C6, as stated, fails: the menu never looks at a tool's input schema.
    With a catalog whose [search_contacts] requires [query] and [limit],
    option 1 sends the call with [query] alone. *)
Lemma call_sent_without_required_field :
  ~ (forall (rt : Runtime) (catalog : list (string * pyval)) (w : world)
            (name : string) (arguments schema : pyval),
       ReqCallTool name arguments ∈ w_sent (fst (@menu_iteration rt w)) ->
       ReqCallTool name arguments ∉ w_sent w ->
       assoc name catalog = Some schema ->
       lacks_required schema arguments = false).
Proof.
  intros Hclaim.
  specialize (Hclaim plain_runtime strict_catalog
                (start answering_server ["1"; "alice"])
                "search_contacts" (PyDict [("query", PyStr "alice")])).
  specialize (Hclaim _ ltac:(vm_compute; left) ltac:(simpl; apply not_elem_of_nil)
                eq_refl).
  vm_compute in Hclaim. discriminate Hclaim.
Qed.

(** C6, amended.  Option 6 checks its two fields itself: with an empty
    recipient, or an empty message, (after stripping) it prints a
    warning and sends nothing; whatever it sends is one [send_message]
    call whose arguments hold a non-empty recipient and a non-empty
    message.  No schema is consulted. *)
Theorem send_message_checked_locally `{Runtime} (w : world) :
  (forall recipient rest,
     w_stdin w = recipient :: rest -> strip recipient = "" ->
     option_send_message w
     = (World (w_server w) (w_spawn w) rest
          (w_stdout w ++ ["📤 SEND MESSAGE"; dash_rule; "Enter recipient JID: ";
                          "⚠️  Recipient JID cannot be empty!"])%list
          (w_sent w),
        Ok LoopNext))
  /\ (forall recipient message rest,
        w_stdin w = recipient :: message :: rest ->
        strip recipient <> "" -> strip message = "" ->
        option_send_message w
        = (World (w_server w) (w_spawn w) rest
             (w_stdout w ++ ["📤 SEND MESSAGE"; dash_rule; "Enter recipient JID: ";
                             "Enter message text: ";
                             "⚠️  Message text cannot be empty!"])%list
             (w_sent w),
           Ok LoopNext))
  /\ (w_sent (fst (option_send_message w)) = w_sent w
      \/ exists recipient message,
           recipient <> "" /\ message <> ""
           /\ w_sent (fst (option_send_message w))
              = (w_sent w ++ [send_message_request recipient message])%list).
Proof.
  destruct w as [srv sp stdin out sent].
  split; [| split].
  - intros recipient rest Hin Hempty. simpl in Hin. subst stdin.
    unfold option_send_message, fmap, M_fmap, mbind, M_bind, bind, input, print, ret.
    simpl. rewrite Hempty. simpl. rewrite <- !app_assoc. reflexivity.
  - intros recipient message rest Hin Hr Hm. simpl in Hin. subst stdin.
    unfold option_send_message, fmap, M_fmap, mbind, M_bind, bind, input, print, ret.
    simpl. apply String.eqb_neq in Hr. rewrite Hr. simpl. rewrite Hm. simpl.
    rewrite <- !app_assoc. reflexivity.
  - unfold option_send_message, fmap, M_fmap, mbind, M_bind, bind, input, print, ret.
    simpl.
    destruct stdin as [| recipient stdin]; [left; reflexivity |].
    simpl. destruct (String.eqb_spec (strip recipient) "") as [_ | Hr];
      [left; reflexivity |].
    simpl. destruct stdin as [| message stdin]; [left; reflexivity |].
    simpl. destruct (String.eqb_spec (strip message) "") as [_ | Hm];
      [left; reflexivity |].
    simpl. destruct stdin as [| confirm stdin]; [left; reflexivity |].
    simpl. destruct (String.eqb (lower (strip confirm)) "y"); [| left; reflexivity].
    right. exists (strip recipient), (strip message).
    split; [exact Hr | split; [exact Hm |]].
    unfold session_call. simpl.
    destruct (srv _) as [result | e]; [| reflexivity].
    match goal with
    | |- context [print_results result ?w1] =>
        destruct (print_results_prints_only result w1) as (o & r & ->)
    end.
    destruct r; reflexivity.
Qed.

Lemma send_message_checked_locally_witness :
  @option_send_message plain_runtime (start answering_server ["   "])
  = (World answering_server None []
       ["📤 SEND MESSAGE"; dash_rule; "Enter recipient JID: ";
        "⚠️  Recipient JID cannot be empty!"] [],
     Ok LoopNext).
Proof.
  exact (proj1 (@send_message_checked_locally plain_runtime
                  (start answering_server ["   "])) "   " [] eq_refl eq_refl).
Defined.

(** * The correlator of the design document *)

Lemma elem_of_deliveries (x y : Correlator.completion)
    (ps : gmap RequestId Correlator.PendingRequest) (h : nat) :
  (h, y) ∈ Correlator.deliveries x ps
  <-> y = x /\ exists id p, ps !! id = Some p /\ Correlator.pr_slot p = h.
Proof.
  unfold Correlator.deliveries. rewrite list_elem_of_fmap. split.
  - intros ([id p] & [= -> ->] & Hin). apply elem_of_map_to_list in Hin.
    split; [reflexivity |]. exists id, p. auto.
  - intros (-> & id & p & Hp & <-). exists (id, p).
    split; [reflexivity |]. apply elem_of_map_to_list, Hp.
Qed.

(** Once closed, always closed. *)
Lemma correlator_closed_step (c : Correlator.t) (o : Correlator.op) :
  is_Some (Correlator.closed c) -> is_Some (Correlator.closed (Correlator.step c o)).
Proof.
  intros [r Hr]. destruct o; simpl.
  - unfold Correlator.register. rewrite Hr. simpl. rewrite Hr. eauto.
  - unfold Correlator.resolve, Correlator.complete.
    destruct (Correlator.pending c !! id); simpl; rewrite Hr; eauto.
  - unfold Correlator.reject, Correlator.complete.
    destruct (Correlator.pending c !! id); simpl; rewrite Hr; eauto.
  - eauto.
  - rewrite Hr. eauto.
Qed.

(** A closed correlator without pending entries gets none. *)
Lemma correlator_closed_empty_step (c : Correlator.t) (o : Correlator.op) :
  is_Some (Correlator.closed c) -> Correlator.pending c = ∅ ->
  Correlator.pending (Correlator.step c o) = ∅.
Proof.
  intros [r Hr] He. destruct o; simpl.
  - unfold Correlator.register. rewrite Hr. exact He.
  - unfold Correlator.resolve, Correlator.complete.
    rewrite He, lookup_empty. reflexivity.
  - unfold Correlator.reject, Correlator.complete.
    rewrite He, lookup_empty. reflexivity.
  - reflexivity.
  - rewrite He. apply map_filter_empty.
Qed.

Lemma correlator_closed_run (ops : list Correlator.op) (c : Correlator.t) :
  is_Some (Correlator.closed c) -> Correlator.pending c = ∅ ->
  is_Some (Correlator.closed (Correlator.run ops c))
  /\ Correlator.pending (Correlator.run ops c) = ∅.
Proof.
  revert c. induction ops as [| o ops IH]; intros c Hc He.
  - split; assumption.
  - apply IH.
    + apply correlator_closed_step, Hc.
    + apply correlator_closed_empty_step; assumption.
Qed.

(** C3. After [failAll reason] every request that was pending has been
    rejected with [TransportClosed reason] and none is pending; a
    [register] right after fails with that error and adds no entry; and
    after whatever happens later a [register] still fails at once with a
    [TransportClosed] error, with no pending entry created. *)
Theorem failAll_rejects_pending_and_closes (c : Correlator.t) (reason : string) :
  (forall id p,
     Correlator.pending c !! id = Some p ->
     (Correlator.pr_slot p, Correlator.Rejected (TransportClosed reason))
     ∈ Correlator.delivered (Correlator.failAll reason c))
  /\ Correlator.pending (Correlator.failAll reason c) = ∅
  /\ (forall id method now deadline,
        Correlator.register id method now deadline (Correlator.failAll reason c)
        = (Correlator.failAll reason c, inl (TransportClosed reason)))
  /\ (forall ops id method now deadline,
        let c' := Correlator.run ops (Correlator.failAll reason c) in
        exists r,
          Correlator.register id method now deadline c'
          = (c', inl (TransportClosed r))
          /\ Correlator.pending c' = ∅).
Proof.
  split; [| split; [| split]].
  - intros id p Hp. simpl. apply elem_of_app. right.
    apply elem_of_deliveries. split; [reflexivity |]. exists id, p. auto.
  - reflexivity.
  - reflexivity.
  - intros ops id method now deadline c'.
    destruct (correlator_closed_run ops (Correlator.failAll reason c))
      as [[r Hr] He]; [simpl; eauto | reflexivity |].
    exists r. split; [| exact He].
    unfold Correlator.register. fold c'. unfold c'. rewrite Hr. reflexivity.
Qed.

Lemma correlator_wf_initial : Correlator.wf Correlator.initial.
Proof.
  split; simpl.
  - intros id p Hp. rewrite lookup_empty in Hp. discriminate.
  - intros id id' p p' Hp. rewrite lookup_empty in Hp. discriminate.
  - intros id p x Hp. rewrite lookup_empty in Hp. discriminate.
  - intros h x Hin. apply elem_of_nil in Hin. contradiction.
Qed.

Lemma correlator_wf_register (id : RequestId) (method : string) (now deadline : Z)
    (c : Correlator.t) :
  Correlator.wf c -> Correlator.wf (fst (Correlator.register id method now deadline c)).
Proof.
  intros [Hb Hi Hu Hd]. unfold Correlator.register.
  destruct (Correlator.closed c); [split; assumption |].
  destruct (Correlator.pending c !! id) eqn:Hid; [split; assumption |].
  split; simpl.
  - intros id1 p1. rewrite lookup_insert. case_decide.
    + intros [= <-]. simpl. lia.
    + intros Hp. apply Hb in Hp. lia.
  - intros id1 id2 p1 p2. rewrite !lookup_insert.
    repeat case_decide; subst; try congruence.
    + intros [= <-] Hp2 Hs. simpl in Hs. apply Hb in Hp2. lia.
    + intros Hp1 [= <-] Hs. simpl in Hs. apply Hb in Hp1. lia.
    + apply Hi.
  - intros id1 p1 x. rewrite lookup_insert. case_decide.
    + intros [= <-] Hin. simpl in Hin. apply Hd in Hin. lia.
    + apply Hu.
  - intros h x Hin. apply Hd in Hin. lia.
Qed.

Lemma correlator_wf_complete (id : RequestId) (x : Correlator.completion)
    (c : Correlator.t) :
  Correlator.wf c -> Correlator.wf (Correlator.complete id x c).
Proof.
  intros [Hb Hi Hu Hd]. unfold Correlator.complete.
  destruct (Correlator.pending c !! id) as [p |] eqn:Hid; [| split; assumption].
  split; simpl.
  - intros id1 p1 Hp. apply lookup_delete_Some in Hp as [_ Hp]. eauto.
  - intros id1 id2 p1 p2 Hp1 Hp2.
    apply lookup_delete_Some in Hp1 as [_ Hp1].
    apply lookup_delete_Some in Hp2 as [_ Hp2]. eauto.
  - intros id1 p1 y Hp Hin. apply lookup_delete_Some in Hp as [Hne Hp].
    apply elem_of_app in Hin as [Hin | Hin].
    + exact (Hu _ _ _ Hp Hin).
    + apply list_elem_of_singleton in Hin. injection Hin as Hs _.
      apply Hne. symmetry. exact (Hi _ _ _ _ Hp Hid Hs).
  - intros h y Hin. apply elem_of_app in Hin as [Hin | Hin]; [eauto |].
    apply list_elem_of_singleton in Hin. injection Hin as -> _. eauto.
Qed.

Lemma correlator_wf_failAll (reason : string) (c : Correlator.t) :
  Correlator.wf c -> Correlator.wf (Correlator.failAll reason c).
Proof.
  intros [Hb Hi Hu Hd]. split; simpl.
  - intros id p Hp. rewrite lookup_empty in Hp. discriminate.
  - intros id id' p p' Hp. rewrite lookup_empty in Hp. discriminate.
  - intros id p x Hp. rewrite lookup_empty in Hp. discriminate.
  - intros h y Hin. apply elem_of_app in Hin as [Hin | Hin]; [eauto |].
    apply elem_of_deliveries in Hin as (_ & id & p & Hp & <-). eauto.
Qed.

Lemma correlator_wf_expire (now : Z) (c : Correlator.t) :
  Correlator.wf c -> Correlator.wf (Correlator.expire now c).
Proof.
  intros [Hb Hi Hu Hd]. split; simpl.
  - intros id p Hp. apply map_lookup_filter_Some in Hp as [Hp _]. eauto.
  - intros id id' p p' Hp Hp'.
    apply map_lookup_filter_Some in Hp as [Hp _].
    apply map_lookup_filter_Some in Hp' as [Hp' _]. eauto.
  - intros id p y Hp Hin. apply map_lookup_filter_Some in Hp as [Hp Hlive].
    apply elem_of_app in Hin as [Hin | Hin]; [exact (Hu _ _ _ Hp Hin) |].
    apply elem_of_deliveries in Hin as (_ & id2 & p2 & Hp2 & Hs).
    apply map_lookup_filter_Some in Hp2 as [Hp2 Hdead].
    assert (id2 = id) as -> by exact (Hi _ _ _ _ Hp2 Hp Hs).
    rewrite Hp in Hp2. injection Hp2 as <-. exact (Hlive Hdead).
  - intros h y Hin. apply elem_of_app in Hin as [Hin | Hin]; [eauto |].
    apply elem_of_deliveries in Hin as (_ & id & p & Hp & <-).
    apply map_lookup_filter_Some in Hp as [Hp _]. eauto.
Qed.

Lemma correlator_wf_step (c : Correlator.t) (o : Correlator.op) :
  Correlator.wf c -> Correlator.wf (Correlator.step c o).
Proof.
  destruct o; simpl.
  - apply correlator_wf_register.
  - apply correlator_wf_complete.
  - apply correlator_wf_complete.
  - apply correlator_wf_failAll.
  - apply correlator_wf_expire.
Qed.

(** Every correlator built from the initial one is well formed. *)
Lemma correlator_wf_run (ops : list Correlator.op) (c : Correlator.t) :
  Correlator.wf c -> Correlator.wf (Correlator.run ops c).
Proof.
  revert c. induction ops as [| o ops IH]; intros c Hwf; [exact Hwf |].
  apply IH, correlator_wf_step, Hwf.
Qed.

(** A retired slot stays retired and receives nothing more. *)
Lemma retired_step (c : Correlator.t) (o : Correlator.op) (h : nat) :
  retired c h ->
  retired (Correlator.step c o) h
  /\ forall x, (h, x) ∈ Correlator.delivered (Correlator.step c o) ->
               (h, x) ∈ Correlator.delivered c.
Proof.
  intros [Hlt Hnot]. destruct o; simpl.
  - unfold Correlator.register.
    destruct (Correlator.closed c); [repeat split; auto |].
    destruct (Correlator.pending c !! id) eqn:Hid; [repeat split; auto |].
    repeat split; simpl; [lia | | auto].
    intros (id1 & p1 & Hp1 & Hs). simpl in Hp1.
    rewrite lookup_insert in Hp1. case_decide.
    + injection Hp1 as <-. simpl in Hs. lia.
    + apply Hnot. exists id1, p1. auto.
  - unfold Correlator.resolve, Correlator.complete.
    destruct (Correlator.pending c !! id) as [p |] eqn:Hid;
      [| repeat split; auto].
    repeat split; simpl; [exact Hlt | |].
    + intros (id1 & p1 & Hp1 & Hs). simpl in Hp1.
      apply lookup_delete_Some in Hp1 as [_ Hp1]. apply Hnot. exists id1, p1. auto.
    + intros x Hin. apply elem_of_app in Hin as [Hin | Hin]; [exact Hin |].
      apply list_elem_of_singleton in Hin. injection Hin as -> _.
      exfalso. apply Hnot. exists id, p. auto.
  - unfold Correlator.reject, Correlator.complete.
    destruct (Correlator.pending c !! id) as [p |] eqn:Hid;
      [| repeat split; auto].
    repeat split; simpl; [exact Hlt | |].
    + intros (id1 & p1 & Hp1 & Hs). simpl in Hp1.
      apply lookup_delete_Some in Hp1 as [_ Hp1]. apply Hnot. exists id1, p1. auto.
    + intros x Hin. apply elem_of_app in Hin as [Hin | Hin]; [exact Hin |].
      apply list_elem_of_singleton in Hin. injection Hin as -> _.
      exfalso. apply Hnot. exists id, p. auto.
  - repeat split; simpl; [exact Hlt | |].
    + intros (id1 & p1 & Hp1 & _). simpl in Hp1.
      rewrite lookup_empty in Hp1. discriminate.
    + intros x Hin. apply elem_of_app in Hin as [Hin | Hin]; [exact Hin |].
      apply elem_of_deliveries in Hin as (_ & id & p & Hp & Hs).
      exfalso. apply Hnot. exists id, p. auto.
  - repeat split; simpl; [exact Hlt | |].
    + intros (id1 & p1 & Hp1 & Hs). simpl in Hp1.
      apply map_lookup_filter_Some in Hp1 as [Hp1 _].
      apply Hnot. exists id1, p1. auto.
    + intros x Hin. apply elem_of_app in Hin as [Hin | Hin]; [exact Hin |].
      apply elem_of_deliveries in Hin as (_ & id & p & Hp & Hs).
      apply map_lookup_filter_Some in Hp as [Hp _].
      exfalso. apply Hnot. exists id, p. auto.
Qed.

Lemma retired_run (ops : list Correlator.op) (c : Correlator.t) (h : nat) :
  retired c h ->
  forall x, (h, x) ∈ Correlator.delivered (Correlator.run ops c) ->
            (h, x) ∈ Correlator.delivered c.
Proof.
  revert c. induction ops as [| o ops IH]; intros c Hret x Hin; [exact Hin |].
  destruct (retired_step c o h Hret) as [Hret' Hsame].
  apply Hsame. exact (IH _ Hret' x Hin).
Qed.

(** C4. Let a request be pending in a correlator built from the initial
    one, its deadline passed at [now].  [expire now] rejects it with
    [RequestTimeout] and retires it; a response that carries its id
    afterwards is logged as unsolicited and dropped; whatever happens
    later, its caller's slot never receives anything but the timeout;
    and a pending request whose deadline has not passed stays pending,
    with nothing delivered to it. *)
Theorem expire_times_out_exactly (ops0 : list Correlator.op) (c : Correlator.t)
    (now : Z) (id : RequestId) (p : Correlator.PendingRequest) :
  c = Correlator.run ops0 Correlator.initial ->
  Correlator.pending c !! id = Some p ->
  Correlator.expired now p ->
  (Correlator.pr_slot p, Correlator.Rejected RequestTimeout)
  ∈ Correlator.delivered (Correlator.expire now c)
  /\ Correlator.pending (Correlator.expire now c) !! id = None
  /\ (forall result,
        Correlator.delivered (Correlator.resolve id result (Correlator.expire now c))
        = Correlator.delivered (Correlator.expire now c)
        /\ Correlator.unsolicited
             (Correlator.resolve id result (Correlator.expire now c))
           = (Correlator.unsolicited (Correlator.expire now c) ++ [id])%list
        /\ Correlator.pending (Correlator.resolve id result (Correlator.expire now c))
           = Correlator.pending (Correlator.expire now c))
  /\ (forall ops x,
        (Correlator.pr_slot p, x)
        ∈ Correlator.delivered (Correlator.run ops (Correlator.expire now c)) ->
        x = Correlator.Rejected RequestTimeout)
  /\ (forall id' p',
        Correlator.pending c !! id' = Some p' ->
        ~ Correlator.expired now p' ->
        Correlator.pending (Correlator.expire now c) !! id' = Some p'
        /\ forall x,
             (Correlator.pr_slot p', x)
             ∉ Correlator.delivered (Correlator.expire now c)).
Proof.
  intros Hc Hp Hdead.
  assert (Hwf : Correlator.wf c).
  { subst c. apply correlator_wf_run, correlator_wf_initial. }
  assert (Hgone : Correlator.pending (Correlator.expire now c) !! id = None).
  { simpl. apply map_lookup_filter_None. right. intros p1 Hp1 Hlive.
    rewrite Hp in Hp1. injection Hp1 as <-. exact (Hlive Hdead). }
  assert (Hret : retired (Correlator.expire now c) (Correlator.pr_slot p)).
  { split; [exact (Correlator.wf_slot_bound c Hwf id p Hp) |].
    intros (id1 & p1 & Hp1 & Hs). simpl in Hp1.
    apply map_lookup_filter_Some in Hp1 as [Hp1 Hlive].
    assert (id1 = id) as -> by exact (Correlator.wf_slot_inj c Hwf _ _ _ _ Hp1 Hp Hs).
    rewrite Hp in Hp1. injection Hp1 as <-. exact (Hlive Hdead). }
  split; [| split; [exact Hgone | split; [| split]]].
  - simpl. apply elem_of_app. right. apply elem_of_deliveries.
    split; [reflexivity |]. exists id, p. split; [| reflexivity].
    apply map_lookup_filter_Some. auto.
  - intros result. unfold Correlator.resolve, Correlator.complete.
    rewrite Hgone. auto.
  - intros ops x Hin. apply (retired_run ops _ _ Hret) in Hin.
    simpl in Hin. apply elem_of_app in Hin as [Hin | Hin].
    + exfalso. exact (Correlator.wf_unfilled c Hwf id p x Hp Hin).
    + apply elem_of_deliveries in Hin as [-> _]. reflexivity.
  - intros id' p' Hp' Hlive. split.
    + simpl. apply map_lookup_filter_Some. auto.
    + intros x Hin.
      apply (Correlator.wf_unfilled _ (correlator_wf_expire now c Hwf) id' p' x);
        [| exact Hin].
      simpl. apply map_lookup_filter_Some. auto.
Qed.

Lemma two_pending_first :
  Correlator.pending two_pending !! IdNum 1 = Some first_pending.
Proof. vm_compute. reflexivity. Qed.

Lemma failAll_rejects_pending_and_closes_witness :
  (0%nat, Correlator.Rejected (TransportClosed "process exited"))
  ∈ Correlator.delivered (Correlator.failAll "process exited" two_pending).
Proof.
  exact (proj1 (failAll_rejects_pending_and_closes two_pending "process exited")
           (IdNum 1) first_pending two_pending_first).
Defined.

Lemma expire_times_out_exactly_witness :
  (0%nat, Correlator.Rejected RequestTimeout)
  ∈ Correlator.delivered (Correlator.expire 50 two_pending)
  /\ Correlator.pending (Correlator.expire 50 two_pending) !! IdNum 1 = None.
Proof.
  destruct (expire_times_out_exactly two_pending_ops two_pending 50 (IdNum 1)
              first_pending eq_refl two_pending_first) as (Hin & Hgone & _).
  - unfold Correlator.expired. simpl. lia.
  - split; [exact Hin | exact Hgone].
Defined.

(** * The codec of the design document: reading back what was printed *)

Lemma string_app_assoc (a b c : string) : (a ++ b) ++ c = a ++ (b ++ c).
Proof.
  induction a as [| x a IH]; [reflexivity |].
  rewrite !string_app_cons, IH. reflexivity.
Qed.

Lemma string_app_nil_r (a : string) : a ++ "" = a.
Proof.
  induction a as [| x a IH]; [reflexivity |].
  rewrite string_app_cons, IH. reflexivity.
Qed.

Lemma is_delimiter_cases (c : ascii) :
  is_delimiter c = true -> c = ","%char \/ c = "]"%char \/ c = "}"%char.
Proof.
  unfold is_delimiter. rewrite !orb_true_iff, !Ascii.eqb_eq. tauto.
Qed.

(** A delimiter is no digit, sign, dot, exponent mark or white space. *)
Lemma delimiter_not_digit (c : ascii) : is_delimiter c = true -> is_digit c = false.
Proof. intros H. destruct (is_delimiter_cases c H) as [-> | [-> | ->]]; reflexivity. Qed.

Lemma delimiter_not_ws (c : ascii) : is_delimiter c = true -> is_ws c = false.
Proof. intros H. destruct (is_delimiter_cases c H) as [-> | [-> | ->]]; reflexivity. Qed.

Lemma scan_digits_app (s rest : string) :
  delimited rest = true ->
  scan_digits (s ++ rest) = (fst (scan_digits s), snd (scan_digits s) ++ rest).
Proof.
  intros Hrest. induction s as [| c s IH].
  - rewrite string_app_nil_l.
    destruct rest as [| d rest]; [reflexivity |]. simpl in *.
    rewrite (delimiter_not_digit d Hrest). reflexivity.
  - rewrite string_app_cons. simpl.
    destruct (is_digit c); [| reflexivity].
    rewrite IH. destruct (scan_digits s). reflexivity.
Qed.

Lemma scan_int_app (s rest : string) :
  delimited rest = true ->
  scan_int (s ++ rest) = with_rest rest (scan_int s).
Proof.
  intros Hrest. destruct s as [| c s].
  - rewrite string_app_nil_l.
    destruct rest as [| d rest]; [reflexivity |]. simpl in *.
    destruct (is_delimiter_cases d Hrest) as [-> | [-> | ->]]; reflexivity.
  - rewrite string_app_cons. simpl.
    destruct (Ascii.eqb c "0"); [reflexivity |].
    destruct (is_digit c); [| reflexivity].
    rewrite (scan_digits_app s rest Hrest). destruct (scan_digits s). reflexivity.
Qed.

Lemma scan_frac_app (s rest : string) :
  delimited rest = true ->
  scan_frac (s ++ rest) = (fst (scan_frac s), snd (scan_frac s) ++ rest).
Proof.
  intros Hrest. destruct s as [| c s].
  - rewrite string_app_nil_l.
    destruct rest as [| d rest]; [reflexivity |]. simpl in Hrest.
    destruct (is_delimiter_cases d Hrest) as [-> | [-> | ->]]; reflexivity.
  - rewrite string_app_cons. unfold scan_frac.
    destruct (Ascii.eqb_spec c "."%char) as [-> | Hc].
    + rewrite (scan_digits_app s rest Hrest).
      destruct (scan_digits s) as [ds r']. simpl.
      destruct ds; reflexivity.
    + destruct c as [[] [] [] [] [] [] [] []]; try reflexivity. congruence.
Qed.

Lemma scan_exp_app (s rest : string) :
  delimited rest = true ->
  scan_exp (s ++ rest) = (fst (scan_exp s), snd (scan_exp s) ++ rest).
Proof.
  intros Hrest. destruct s as [| c s].
  - rewrite string_app_nil_l.
    destruct rest as [| d rest]; [reflexivity |]. simpl in Hrest.
    destruct (is_delimiter_cases d Hrest) as [-> | [-> | ->]]; reflexivity.
  - rewrite string_app_cons. unfold scan_exp.
    destruct (Ascii.eqb c "e" || Ascii.eqb c "E"); [| reflexivity].
    assert (Hsign :
      match s ++ rest with
      | String "+" r1 => ("+", r1)
      | String "-" r1 => ("-", r1)
      | _ => ("", s ++ rest)
      end
      = (fst match s with
             | String "+" r1 => ("+", r1)
             | String "-" r1 => ("-", r1)
             | _ => ("", s)
             end,
         snd match s with
             | String "+" r1 => ("+", r1)
             | String "-" r1 => ("-", r1)
             | _ => ("", s)
             end ++ rest)).
    { destruct s as [| d s].
      - rewrite string_app_nil_l.
        destruct rest as [| d rest]; [reflexivity |]. simpl in Hrest.
        destruct (is_delimiter_cases d Hrest) as [-> | [-> | ->]]; reflexivity.
      - rewrite string_app_cons.
        destruct d as [[] [] [] [] [] [] [] []]; reflexivity. }
    rewrite Hsign.
    destruct (match s with
              | String "+" r1 => ("+", r1)
              | String "-" r1 => ("-", r1)
              | _ => ("", s)
              end) as [sign r1]. simpl.
    rewrite (scan_digits_app r1 rest Hrest).
    destruct (scan_digits r1) as [ds r2]. simpl.
    destruct ds; reflexivity.
Qed.

Lemma parse_number_app (s rest : string) :
  delimited rest = true ->
  parse_number (s ++ rest) = with_rest rest (parse_number s).
Proof.
  intros Hrest. unfold parse_number.
  assert (Hsign :
    match s ++ rest with
    | String "-" r => (true, r)
    | _ => (false, s ++ rest)
    end
    = (fst match s with String "-" r => (true, r) | _ => (false, s) end,
       snd match s with String "-" r => (true, r) | _ => (false, s) end ++ rest)).
  { destruct s as [| d s].
    - rewrite string_app_nil_l.
      destruct rest as [| d rest]; [reflexivity |]. simpl in Hrest.
      destruct (is_delimiter_cases d Hrest) as [-> | [-> | ->]]; reflexivity.
    - rewrite string_app_cons.
      destruct d as [[] [] [] [] [] [] [] []]; reflexivity. }
  rewrite Hsign.
  destruct (match s with String "-" r => (true, r) | _ => (false, s) end)
    as [neg s1]. simpl fst. simpl snd.
  rewrite (scan_int_app s1 rest Hrest).
  destruct (scan_int s1) as [[ip s2] |]; [| reflexivity].
  unfold with_rest at 1. cbv beta iota.
  rewrite (scan_frac_app s2 rest Hrest).
  destruct (scan_frac s2) as [fp s3]. simpl fst. simpl snd.
  rewrite (scan_exp_app s3 rest Hrest).
  destruct (scan_exp s3) as [ep s4]. simpl fst. simpl snd.
  destruct fp, ep; reflexivity.
Qed.

(** A keyword without delimiters is found in [s ++ rest] exactly when it
    is found in [s]. *)
Lemma strip_prefix_app (p s rest : string) :
  delimited rest = true ->
  forallb (fun c => negb (is_delimiter c)) (list_ascii_of_string p) = true ->
  strip_prefix p (s ++ rest)
  = match strip_prefix p s with
    | Some r => Some (r ++ rest)
    | None => None
    end.
Proof.
  intros Hrest. revert s. induction p as [| c p IH]; intros s Hp.
  - reflexivity.
  - simpl in Hp. apply andb_true_iff in Hp as [Hc Hp].
    destruct s as [| d s].
    + rewrite string_app_nil_l. simpl.
      destruct rest as [| d rest]; [reflexivity |]. simpl in Hrest.
      destruct (Ascii.eqb_spec c d) as [-> | _]; [| reflexivity].
      rewrite Hrest in Hc. discriminate.
    + rewrite string_app_cons. simpl.
      destruct (Ascii.eqb c d); [apply IH, Hp | reflexivity].
Qed.

Lemma parse_constant_app (s rest : string) :
  delimited rest = true ->
  parse_constant (s ++ rest) = with_rest rest (parse_constant s).
Proof.
  intros Hrest. unfold parse_constant.
  rewrite !(strip_prefix_app _ s rest Hrest) by reflexivity.
  rewrite (parse_number_app s rest Hrest).
  destruct (strip_prefix "null" s); [reflexivity |].
  destruct (strip_prefix "true" s); [reflexivity |].
  destruct (strip_prefix "false" s); [reflexivity |].
  destruct (parse_number s) as [[v r] |]; [reflexivity |].
  unfold with_rest at 1. cbv beta iota.
  destruct (strip_prefix "NaN" s); [reflexivity |].
  destruct (strip_prefix "Infinity" s); [reflexivity |].
  destruct (strip_prefix "-Infinity" s); reflexivity.
Qed.

Lemma parse_constant_head (s : string) (x : pyval * string) :
  parse_constant s = Some x ->
  exists c r, s = String c r /\ starts_value c = true.
Proof.
  destruct s as [| c r]; [discriminate |]. intros Hx. exists c, r.
  split; [reflexivity |].
  destruct c as [[] [] [] [] [] [] [] []]; try reflexivity;
    vm_compute in Hx; discriminate Hx.
Qed.

Lemma starts_value_not_ws (c : ascii) : starts_value c = true -> is_ws c = false.
Proof.
  unfold starts_value. rewrite negb_true_iff, !orb_false_iff. tauto.
Qed.

Lemma starts_value_not_delimiter (c : ascii) :
  starts_value c = true -> is_delimiter c = false.
Proof.
  unfold starts_value. rewrite negb_true_iff, !orb_false_iff. tauto.
Qed.

Lemma parse_value_constant (fuel : nat) (s : string) (x : pyval * string) :
  parse_constant s = Some x -> parse_value (S fuel) s = Some x.
Proof.
  intros Hx. destruct (parse_constant_head s x Hx) as (c & r & -> & Hc).
  rewrite <- Hx.
  destruct c as [[] [] [] [] [] [] [] []]; try reflexivity; discriminate Hc.
Qed.

(** *** Integers *)

Lemma to_uint_nonzero_head (p : positive) : nonzero_head (Pos.to_uint p).
Proof.
  pose proof (DecimalN.Unsigned.to_of (Pos.to_uint p)) as Hnorm.
  change (N.of_uint (Pos.to_uint p)) with (Pos.of_uint (Pos.to_uint p)) in Hnorm.
  rewrite DecimalPos.Unsigned.of_to in Hnorm.
  change (N.to_uint (N.pos p)) with (Pos.to_uint p) in Hnorm.
  pose proof (DecimalPos.Unsigned.to_uint_nonnil p) as Hnil.
  pose proof (DecimalPos.Unsigned.to_uint_nonzero p) as Hzero.
  pose proof (DecimalFacts.nzhead_nonzero (Pos.to_uint p)) as Hnz.
  unfold Decimal.unorm in Hnorm.
  destruct (Pos.to_uint p) as [| d | d | d | d | d | d | d | d | d | d];
    try exact I; try congruence.
  simpl in Hnorm, Hnz.
  destruct (Decimal.nzhead d) as [| u | u | u | u | u | u | u | u | u | u] eqn:Hd;
    try discriminate Hnorm.
  - congruence.
  - exact (Hnz u eq_refl).
Qed.

Lemma scan_digits_uint (d : Decimal.uint) :
  scan_digits (NilEmpty.string_of_uint d) = (NilEmpty.string_of_uint d, "").
Proof.
  induction d; simpl; try reflexivity;
    change (is_digit _) with true; cbv iota; rewrite IHd; reflexivity.
Qed.

Lemma scan_int_uint (d : Decimal.uint) :
  nonzero_head d ->
  scan_int (NilEmpty.string_of_uint d) = Some (NilEmpty.string_of_uint d, "").
Proof.
  destruct d; simpl; try contradiction; intros _;
    change (Ascii.eqb _ "0") with false; change (is_digit _) with true;
    cbv iota; rewrite scan_digits_uint; reflexivity.
Qed.

Lemma digits_value_uint (d : Decimal.uint) :
  digits_value (NilEmpty.string_of_uint d) = Z.of_N (N.of_uint d).
Proof. unfold digits_value. rewrite NilEmpty.usu. reflexivity. Qed.

Lemma strip_prefix_uint (c : ascii) (p : string) (d : Decimal.uint) :
  is_digit c = false -> nonzero_head d ->
  strip_prefix (String c p) (NilEmpty.string_of_uint d) = None.
Proof.
  intros Hc Hd. destruct d; simpl in *; try contradiction;
    match goal with
    | |- context [Ascii.eqb c ?x] =>
        destruct (Ascii.eqb_spec c x) as [-> | _];
        [discriminate Hc | reflexivity]
    end.
Qed.

Lemma parse_constant_uint (d : Decimal.uint) :
  nonzero_head d ->
  parse_constant (NilEmpty.string_of_uint d)
  = Some (PyInt (Z.of_N (N.of_uint d)), "")
  /\ parse_constant (String "-" (NilEmpty.string_of_uint d))
     = Some (PyInt (- Z.of_N (N.of_uint d)), "").
Proof.
  intros Hd. split.
  - unfold parse_constant.
    rewrite !strip_prefix_uint by (reflexivity || exact Hd).
    unfold parse_number.
    assert (Hsign : match NilEmpty.string_of_uint d with
                    | String "-" r => (true, r)
                    | _ => (false, NilEmpty.string_of_uint d)
                    end = (false, NilEmpty.string_of_uint d)).
    { destruct d; simpl in *; try contradiction; reflexivity. }
    rewrite Hsign, (scan_int_uint d Hd). simpl.
    rewrite digits_value_uint. reflexivity.
  - unfold parse_constant. simpl strip_prefix. unfold parse_number.
    rewrite (scan_int_uint d Hd). simpl.
    rewrite digits_value_uint. reflexivity.
Qed.

Lemma parse_constant_int (z : Z) :
  parse_constant (str_of_Z z) = Some (PyInt z, "").
Proof.
  destruct z as [| p | p].
  - reflexivity.
  - unfold str_of_Z. simpl.
    pose proof (to_uint_nonzero_head p) as Hd.
    destruct (parse_constant_uint _ Hd) as [Hpos _].
    assert (Hs : NilZero.string_of_uint (Pos.to_uint p)
                 = NilEmpty.string_of_uint (Pos.to_uint p)).
    { destruct (Pos.to_uint p); simpl in *; try contradiction; reflexivity. }
    rewrite Hs, Hpos.
    change (N.of_uint (Pos.to_uint p)) with (Pos.of_uint (Pos.to_uint p)).
    rewrite DecimalPos.Unsigned.of_to. reflexivity.
  - unfold str_of_Z. simpl.
    pose proof (to_uint_nonzero_head p) as Hd.
    destruct (parse_constant_uint _ Hd) as [_ Hneg].
    assert (Hs : NilZero.string_of_uint (Pos.to_uint p)
                 = NilEmpty.string_of_uint (Pos.to_uint p)).
    { destruct (Pos.to_uint p); simpl in *; try contradiction; reflexivity. }
    rewrite Hs, Hneg.
    change (N.of_uint (Pos.to_uint p)) with (Pos.of_uint (Pos.to_uint p)).
    rewrite DecimalPos.Unsigned.of_to. reflexivity.
Qed.

(** *** Strings *)

Lemma scan_string_escape_char (c : ascii) (t : string) :
  scan_string (escape_char c ++ t)
  = match scan_string t with
    | Some (u, r) => Some (String c u, r)
    | None => None
    end.
Proof. destruct c as [[] [] [] [] [] [] [] []]; reflexivity. Qed.

Lemma scan_string_escape (s rest : string) :
  scan_string (escape s ++ String "034" rest) = Some (s, rest).
Proof.
  induction s as [| c s IH].
  - reflexivity.
  - simpl escape. rewrite string_app_assoc, scan_string_escape_char, IH.
    reflexivity.
Qed.

Lemma quote_app (s rest : string) :
  quote s ++ rest = String "034" (escape s ++ String "034" rest).
Proof.
  unfold quote, dquote. rewrite string_app_cons, string_app_assoc. reflexivity.
Qed.

(** *** Values *)

Lemma skip_ws_head (c : ascii) (r : string) :
  is_ws c = false -> skip_ws (String c r) = String c r.
Proof. intros Hc. simpl. rewrite Hc. reflexivity. Qed.

(** A printed value starts with a character that is neither white space
    nor a delimiter. *)
Lemma print_json_head (v : pyval) :
  structured_value v = true ->
  exists c r, print_json v = String c r /\ is_ws c = false /\ is_delimiter c = false.
Proof.
  destruct v as [| b | z | lit | s | l | d | cls attrs]; simpl; intros Hv.
  - exists "n"%char, "ull". auto.
  - destruct b; [exists "t"%char, "rue" | exists "f"%char, "alse"]; auto.
  - destruct (parse_constant_head _ _ (parse_constant_int z)) as (c & r & -> & Hc).
    exists c, r. split; [reflexivity |].
    split; [apply starts_value_not_ws | apply starts_value_not_delimiter]; exact Hc.
  - unfold is_float_literal in Hv.
    destruct (parse_constant lit) as [x |] eqn:Hlit; [| discriminate Hv].
    destruct (parse_constant_head _ _ Hlit) as (c & r & -> & Hc).
    exists c, r. split; [reflexivity |].
    split; [apply starts_value_not_ws | apply starts_value_not_delimiter]; exact Hc.
  - eexists _, _. split; [reflexivity | auto].
  - eexists _, _. split; [reflexivity | auto].
  - eexists _, _. split; [reflexivity | auto].
  - discriminate Hv.
Qed.

Lemma skip_ws_print_json (v : pyval) (t : string) :
  structured_value v = true -> skip_ws (print_json v ++ t) = print_json v ++ t.
Proof.
  intros Hv. destruct (print_json_head v Hv) as (c & r & -> & Hc & _).
  rewrite string_app_cons. apply skip_ws_head, Hc.
Qed.

Lemma join_cons2 (sep x y : string) (l : list string) :
  join sep (x :: y :: l) = x ++ sep ++ join sep (y :: l).
Proof. reflexivity. Qed.

Lemma parse_elements_S (fuel : nat) (s : string) (acc : list pyval) :
  parse_elements (S fuel) s acc
  = match parse_value fuel s with
    | Some (v, r1) =>
        match skip_ws r1 with
        | String "]" r2 => Some (PyList (acc ++ [v]), r2)
        | String "," r2 => parse_elements fuel (skip_ws r2) (acc ++ [v])
        | _ => None
        end
    | None => None
    end.
Proof. reflexivity. Qed.

(** The elements of a printed array are read back in order. *)
Lemma parse_elements_print (l : list pyval) :
  l <> [] ->
  Forall reads_back l ->
  forallb structured_value l = true ->
  forall fuel rest acc,
    delimited rest = true ->
    (String.length (join "," (map print_json l)) + 1 < fuel)%nat ->
    parse_elements fuel (join "," (map print_json l) ++ String "]" rest) acc
    = Some (PyList (acc ++ l), rest).
Proof.
  induction l as [| x l IH]; [congruence |].
  intros _ Hall Hs fuel rest acc Hrest Hfuel.
  apply Forall_cons in Hall as [Hx Hall].
  simpl in Hs. apply andb_true_iff in Hs as [Hsx Hs].
  destruct fuel as [| fuel]; [lia |]. rewrite parse_elements_S.
  destruct l as [| y l].
  - change (join "," (map print_json [x])) with (print_json x) in *.
    rewrite (Hx Hsx fuel (String "]" rest)) by (reflexivity || lia).
    reflexivity.
  - change (map print_json (x :: y :: l))
      with (print_json x :: print_json y :: map print_json l) in *.
    rewrite join_cons2 in *.
    rewrite !string_length_app in Hfuel.
    rewrite !string_app_assoc. rewrite string_app_cons, string_app_nil_l.
    rewrite (Hx Hsx fuel) by (reflexivity || lia).
    change (skip_ws (String "," ?r)) with (String "," r).
    cbv beta iota.
    change (print_json y :: map print_json l) with (map print_json (y :: l)) in *.
    assert (Hskip : forall t,
              skip_ws (join "," (map print_json (y :: l)) ++ t)
              = join "," (map print_json (y :: l)) ++ t).
    { intros t. simpl in Hs. apply andb_true_iff in Hs as [Hsy _].
      destruct l as [| z l].
      - apply skip_ws_print_json, Hsy.
      - change (map print_json (y :: z :: l))
          with (print_json y :: print_json z :: map print_json l).
        rewrite join_cons2, string_app_assoc.
        apply skip_ws_print_json, Hsy. }
    rewrite Hskip.
    change (String.length ",") with 1%nat in Hfuel.
    rewrite (IH ltac:(discriminate) Hall Hs fuel rest (acc ++ [x])%list Hrest)
      by lia.
    rewrite <- app_assoc. reflexivity.
Qed.

Lemma assoc_app_mid {A} (k : string) (v : A) (a b : list (string * A)) :
  assoc k (a ++ (k, v) :: b) <> None.
Proof.
  induction a as [| [k0 v0] a IH]; simpl.
  - rewrite String.eqb_refl. discriminate.
  - destruct (String.eqb k k0); [discriminate | exact IH].
Qed.

Lemma distinct_keys_fresh {A} (k : string) (v : A) (acc d : list (string * A)) :
  distinct_keys (acc ++ (k, v) :: d) = true -> assoc k acc = None.
Proof.
  induction acc as [| [k0 v0] acc IH]; simpl; [reflexivity |].
  destruct (assoc k0 (acc ++ (k, v) :: d)) eqn:Hk0; [discriminate |].
  intros Hd. destruct (String.eqb_spec k k0) as [-> | _]; [| exact (IH Hd)].
  exfalso. exact (assoc_app_mid k0 v acc d Hk0).
Qed.

Lemma dict_set_fresh {A} (k : string) (v : A) (acc : list (string * A)) :
  assoc k acc = None -> dict_set acc k v = (acc ++ [(k, v)])%list.
Proof.
  induction acc as [| [k0 v0] acc IH]; simpl; [reflexivity |].
  destruct (String.eqb k k0); [discriminate |].
  intros Hk. rewrite (IH Hk). reflexivity.
Qed.

Lemma parse_members_S (fuel : nat) (r : string) (acc : list (string * pyval)) :
  parse_members (S fuel) (String "034" r) acc
  = match scan_string r with
    | Some (k, r1) =>
        match skip_ws r1 with
        | String ":" r2 =>
            match parse_value fuel (skip_ws r2) with
            | Some (v, r3) =>
                match skip_ws r3 with
                | String "}" r4 => Some (PyDict (dict_set acc k v), r4)
                | String "," r4 =>
                    parse_members fuel (skip_ws r4) (dict_set acc k v)
                | _ => None
                end
            | None => None
            end
        | _ => None
        end
    | None => None
    end.
Proof. reflexivity. Qed.

Lemma print_member_app (k : string) (v : pyval) (t : string) :
  print_member (k, v) ++ t
  = String "034" (escape k ++ String "034" (String ":" (print_json v ++ t))).
Proof.
  unfold print_member. simpl fst. simpl snd.
  rewrite string_app_assoc, quote_app, string_app_assoc. reflexivity.
Qed.

(** The members of a printed object are read back in order. *)
Lemma parse_members_print (d : list (string * pyval)) :
  d <> [] ->
  Forall (fun kv => reads_back (snd kv)) d ->
  forallb (fun kv => structured_value (snd kv)) d = true ->
  forall fuel rest acc,
    distinct_keys (acc ++ d) = true ->
    delimited rest = true ->
    (String.length (join "," (map print_member d)) + 1 < fuel)%nat ->
    parse_members fuel (join "," (map print_member d) ++ String "}" rest) acc
    = Some (PyDict (acc ++ d), rest).
Proof.
  induction d as [| [k v] d IH]; [congruence |].
  intros _ Hall Hs fuel rest acc Hkeys Hrest Hfuel.
  apply Forall_cons in Hall as [Hv Hall]. simpl in Hv.
  simpl in Hs. apply andb_true_iff in Hs as [Hsv Hs].
  pose proof (dict_set_fresh k v acc (distinct_keys_fresh k v acc d Hkeys)) as Hset.
  destruct fuel as [| fuel]; [lia |].
  destruct d as [| [k' v'] d].
  - change (join "," (map print_member [(k, v)])) with (print_member (k, v)) in *.
    rewrite print_member_app, parse_members_S, scan_string_escape.
    change (skip_ws (String ":" ?r)) with (String ":" r). cbv beta iota.
    rewrite (skip_ws_print_json v _ Hsv).
    unfold print_member in Hfuel. simpl fst in Hfuel. simpl snd in Hfuel.
    rewrite !string_length_app in Hfuel.
    rewrite (Hv Hsv fuel (String "}" rest)) by (reflexivity || lia).
    change (skip_ws (String "}" ?r)) with (String "}" r). cbv beta iota.
    rewrite Hset. reflexivity.
  - change (map print_member ((k, v) :: (k', v') :: d))
      with (print_member (k, v) :: print_member (k', v') :: map print_member d) in *.
    rewrite join_cons2 in *.
    rewrite !string_length_app in Hfuel.
    unfold print_member at 1 in Hfuel. simpl fst in Hfuel. simpl snd in Hfuel.
    rewrite !string_length_app in Hfuel.
    change (String.length ",") with 1%nat in Hfuel.
    rewrite string_app_assoc, print_member_app, parse_members_S, scan_string_escape.
    change (skip_ws (String ":" ?r)) with (String ":" r). cbv beta iota.
    rewrite (skip_ws_print_json v _ Hsv).
    rewrite string_app_assoc, string_app_cons, string_app_nil_l.
    rewrite (Hv Hsv fuel) by (reflexivity || lia).
    change (skip_ws (String "," ?r)) with (String "," r). cbv beta iota.
    change (print_member (k', v') :: map print_member d)
      with (map print_member ((k', v') :: d)) in *.
    assert (Hskip : forall t,
              skip_ws (join "," (map print_member ((k', v') :: d)) ++ t)
              = join "," (map print_member ((k', v') :: d)) ++ t).
    { intros t. destruct d as [| kv d].
      - change (join "," (map print_member [(k', v')]))
          with (print_member (k', v')).
        rewrite print_member_app. reflexivity.
      - change (map print_member ((k', v') :: kv :: d))
          with (print_member (k', v') :: print_member kv :: map print_member d).
        rewrite join_cons2, string_app_assoc, print_member_app. reflexivity. }
    rewrite Hskip, Hset.
    rewrite (IH ltac:(discriminate) Hall Hs fuel rest (acc ++ [(k, v)])%list)
      by (try exact Hrest; try lia; rewrite <- app_assoc; exact Hkeys).
    rewrite <- app_assoc. reflexivity.
Qed.

Lemma reads_back_constant (v : pyval) :
  parse_constant (print_json v) = Some (v, "") -> reads_back v.
Proof.
  intros Hc _ fuel rest Hrest Hfuel.
  destruct fuel as [| fuel]; [lia |].
  apply parse_value_constant.
  rewrite (parse_constant_app _ rest Hrest), Hc. reflexivity.
Qed.

(** Every structured value is read back from its printed text. *)
Lemma print_json_reads_back (v : pyval) : reads_back v.
Proof.
  induction v as [| b | z | lit | s | l IH | d IH | cls attrs IH]
    using pyval_induction.
  - apply reads_back_constant. reflexivity.
  - apply reads_back_constant. destruct b; reflexivity.
  - apply reads_back_constant. apply parse_constant_int.
  - intros Hv. revert Hv. simpl. unfold is_float_literal.
    destruct (parse_constant lit) as [[[] r] |] eqn:Hlit; try discriminate.
    destruct r; try discriminate.
    intros Heq. apply String.eqb_eq in Heq. subst lit0.
    apply (reads_back_constant (PyFloat lit)); [exact Hlit |].
    simpl. unfold is_float_literal. rewrite Hlit. apply String.eqb_refl.
  - intros _ fuel rest _ Hfuel. destruct fuel as [| fuel]; [lia |].
    change (print_json (PyStr s)) with (quote s).
    rewrite quote_app.
    change (parse_value (S fuel) (String "034" ?r))
      with (match scan_string r with
            | Some (t, r') => Some (PyStr t, r')
            | None => None
            end).
    rewrite scan_string_escape. reflexivity.
  - intros Hv fuel rest Hrest Hfuel. simpl in Hv.
    change (print_json (PyList l))
      with ("[" ++ join "," (map print_json l) ++ "]") in *.
    rewrite !string_length_app in Hfuel.
    change (String.length "[") with 1%nat in Hfuel.
    change (String.length "]") with 1%nat in Hfuel.
    destruct fuel as [| fuel]; [lia |].
    rewrite !string_app_assoc.
    rewrite string_app_cons, !string_app_nil_l, string_app_cons, string_app_nil_l.
    destruct l as [| x l]; [reflexivity |].
    destruct (print_json_head x) as (c & r & Hx & Hws & Hdelim).
    { simpl in Hv. apply andb_true_iff in Hv as [Hx _]. exact Hx. }
    pose proof (parse_elements_print (x :: l) ltac:(discriminate) IH Hv
                  fuel rest [] Hrest ltac:(lia)) as Hel.
    change ([] ++ x :: l)%list with (x :: l) in Hel. rewrite <- Hel.
    assert (Hhead : exists t,
              join "," (map print_json (x :: l)) ++ String "]" rest = String c t).
    { destruct l as [| y l].
      - change (join "," (map print_json [x])) with (print_json x).
        rewrite Hx, string_app_cons. eauto.
      - change (map print_json (x :: y :: l))
          with (print_json x :: print_json y :: map print_json l).
        rewrite join_cons2, Hx, !string_app_cons. eauto. }
    destruct Hhead as [t ->].
    change (parse_value (S fuel) (String "[" ?r0))
      with (match skip_ws r0 with
            | String "]" r' => Some (PyList [], r')
            | r1 => parse_elements fuel r1 []
            end).
    rewrite (skip_ws_head c t Hws).
    destruct c as [[] [] [] [] [] [] [] []]; try reflexivity; discriminate Hdelim.
  - intros Hv fuel rest Hrest Hfuel. simpl in Hv.
    apply andb_true_iff in Hv as [Hv Hkeys].
    change (print_json (PyDict d))
      with ("{" ++ join "," (map print_member d) ++ "}") in *.
    rewrite !string_length_app in Hfuel.
    change (String.length "{") with 1%nat in Hfuel.
    change (String.length "}") with 1%nat in Hfuel.
    destruct fuel as [| fuel]; [lia |].
    rewrite !string_app_assoc.
    rewrite string_app_cons, !string_app_nil_l, string_app_cons, string_app_nil_l.
    destruct d as [| [k v] d]; [reflexivity |].
    pose proof (parse_members_print ((k, v) :: d) ltac:(discriminate) IH Hv
                  fuel rest [] Hkeys Hrest ltac:(lia)) as Hmem.
    change ([] ++ (k, v) :: d)%list with ((k, v) :: d) in Hmem. rewrite <- Hmem.
    assert (Hhead : exists t,
              join "," (map print_member ((k, v) :: d)) ++ String "}" rest
              = String "034" t).
    { destruct d as [| kv d].
      - change (join "," (map print_member [(k, v)])) with (print_member (k, v)).
        rewrite print_member_app. eauto.
      - change (map print_member ((k, v) :: kv :: d))
          with (print_member (k, v) :: print_member kv :: map print_member d).
        rewrite join_cons2, string_app_assoc, print_member_app. eauto. }
    destruct Hhead as [t ->]. reflexivity.
  - intros Hv. discriminate Hv.
Qed.

(** Reading a printed structured value gives the value back. *)
Lemma parse_json_print_json (v : pyval) :
  structured_value v = true -> parse_json (print_json v) = Some v.
Proof.
  intros Hv. unfold parse_json.
  rewrite <- (string_app_nil_r (print_json v)) at 2.
  rewrite (skip_ws_print_json v "" Hv).
  rewrite (print_json_reads_back v Hv _ "" eq_refl) by lia.
  reflexivity.
Qed.

Lemma structured_id_json (id : RequestId) :
  structured_value (Codec.id_json id) = true.
Proof. destruct id; reflexivity. Qed.

Lemma json_id_id_json (id : RequestId) : Codec.json_id (Codec.id_json id) = Some id.
Proof. destruct id; reflexivity. Qed.

Lemma structured_to_json (e : Codec.envelope) :
  Codec.valid e -> structured_value (Codec.to_json e) = true.
Proof.
  destruct e as [id method params | id [result |] [err |] | method params];
    simpl; try contradiction; intros Hv;
    rewrite ?structured_id_json, ?Hv; reflexivity.
Qed.

Lemma of_json_to_json (e : Codec.envelope) :
  Codec.valid e -> Codec.of_json (Codec.to_json e) = inr e.
Proof.
  destruct e as [id method params | id [result |] [err |] | method params];
    simpl; try contradiction; intros _;
    rewrite ?json_id_id_json; try reflexivity.
  destruct err; reflexivity.
Qed.

(** C2. Decoding the line that encodes a valid envelope (a request, a
    response with exactly one of result and error, or a notification,
    with structured payloads) gives the envelope back. *)
Theorem decode_encode_round_trip (e : Codec.envelope) :
  Codec.valid e -> Codec.decode (Codec.encode e) = inr e.
Proof.
  intros Hv. unfold Codec.decode, Codec.encode.
  rewrite (parse_json_print_json _ (structured_to_json e Hv)).
  apply of_json_to_json, Hv.
Qed.

Lemma decode_encode_round_trip_witness :
  Codec.valid search_contacts_request
  /\ Codec.decode (Codec.encode search_contacts_request)
     = inr search_contacts_request.
Proof.
  assert (Hv : Codec.valid search_contacts_request) by reflexivity.
  split; [exact Hv | exact (decode_encode_round_trip search_contacts_request Hv)].
Defined.

(** * The session state machine of the design document *)

Lemma session_send_phase (method : string) (params : pyval) (now deadline : Z)
    (s : Session.t) :
  Session.phase (fst (Session.send method params now deadline s)) = Session.phase s.
Proof.
  unfold Session.send.
  destruct (Correlator.register _ _ _ _ _) as [c [e | h]]; reflexivity.
Qed.

Lemma session_request_phase (method : string) (params : pyval) (now deadline : Z)
    (s : Session.t) :
  Session.phase (fst (Session.request method params now deadline s))
  = Session.phase s.
Proof.
  unfold Session.request.
  destruct (Session.phase s) eqn:Hp; try exact Hp.
  rewrite session_send_phase. exact Hp.
Qed.

(** No transition goes back. *)
Lemma session_step_forward (s : Session.t) (e : Session.event) :
  (Session.rank (Session.phase s)
   <= Session.rank (Session.phase (Session.step s e)))%nat.
Proof.
  destruct e; unfold Session.step; cbv beta iota;
    try (rewrite session_request_phase; lia);
    destruct (Session.phase s) eqn:Hp; simpl; rewrite ?Hp; simpl; lia.
Qed.

Lemma session_run_forward (evs : list Session.event) (s : Session.t) :
  (Session.rank (Session.phase s)
   <= Session.rank (Session.phase (Session.run evs s)))%nat.
Proof.
  revert s. induction evs as [| e evs IH]; intros s; simpl; [lia |].
  pose proof (session_step_forward s e). pose proof (IH (Session.step s e)).
  unfold Session.run in *. lia.
Qed.

Lemma session_send_wire (method : string) (params : pyval) (now deadline : Z)
    (s : Session.t) :
  Session.wire (fst (Session.send method params now deadline s)) = Session.wire s
  \/ exists id,
       Session.wire (fst (Session.send method params now deadline s))
       = (Session.wire s ++ [Codec.Request id method params])%list.
Proof.
  unfold Session.send.
  destruct (Correlator.register _ _ _ _ _) as [c [e | h]]; simpl; eauto.
Qed.

(** Before [Ready] nothing but [initialize] is on the wire. *)
Lemma session_wire_step (s : Session.t) (e : Session.event) :
  ((Session.rank (Session.phase s) < Session.rank Session.Ready)%nat ->
   Forall Session.is_initialize (Session.wire s)) ->
  (Session.rank (Session.phase (Session.step s e))
   < Session.rank Session.Ready)%nat ->
  Forall Session.is_initialize (Session.wire (Session.step s e)).
Proof.
  intros Hinv Hlt.
  pose proof (session_step_forward s e) as Hfwd.
  specialize (Hinv ltac:(lia)). clear Hfwd.
  destruct e; unfold Session.step in *; cbv beta iota in *.
  - destruct (Session.phase s) eqn:Hp; try exact Hinv. simpl.
    destruct (session_send_wire "initialize" client now deadline s)
      as [Hw | [id Hw]]; rewrite Hw; [exact Hinv |].
    apply Forall_app. split; [exact Hinv |].
    constructor; [reflexivity | constructor].
  - destruct (Session.phase s) eqn:Hp; exact Hinv.
  - destruct (Session.phase s) eqn:Hp; exact Hinv.
  - unfold Session.request in *.
    destruct (Session.phase s) eqn:Hp; try exact Hinv.
    rewrite session_send_phase, Hp in Hlt. simpl in Hlt. lia.
  - destruct (Session.phase s) eqn:Hp; exact Hinv.
  - destruct (Session.phase s) eqn:Hp; exact Hinv.
  - exact Hinv.
Qed.

Lemma session_wire_run (evs : list Session.event) (s : Session.t) :
  ((Session.rank (Session.phase s) < Session.rank Session.Ready)%nat ->
   Forall Session.is_initialize (Session.wire s)) ->
  (Session.rank (Session.phase (Session.run evs s))
   < Session.rank Session.Ready)%nat ->
  Forall Session.is_initialize (Session.wire (Session.run evs s)).
Proof.
  revert s. induction evs as [| e evs IH]; intros s Hinv; [exact Hinv |].
  apply (IH (Session.step s e)). apply session_wire_step, Hinv.
Qed.

Lemma session_wire_before_ready (evs : list Session.event) :
  (Session.rank (Session.phase (Session.run evs Session.initial))
   < Session.rank Session.Ready)%nat ->
  Forall Session.is_initialize (Session.wire (Session.run evs Session.initial)).
Proof. apply session_wire_run. intros _. constructor. Qed.

(** C5. The session only moves forward through Uninitialized,
    Handshaking, Ready, Closing, Closed, with Faulted reachable from
    every state and terminal: no transition, and no execution, returns
    to an earlier state.  A request submitted while the session is not
    Ready fails with SessionNotReady and leaves the session, its wire
    included, untouched; until Ready is reached nothing but the
    session's own [initialize] has been written. *)
Theorem session_moves_forward :
  (forall s e,
     (Session.rank (Session.phase s)
      <= Session.rank (Session.phase (Session.step s e)))%nat)
  /\ (forall evs s,
        (Session.rank (Session.phase s)
         <= Session.rank (Session.phase (Session.run evs s)))%nat)
  /\ (forall s e,
        Session.phase s = Session.Faulted ->
        Session.phase (Session.step s e) = Session.Faulted)
  /\ (forall s reason,
        Session.phase (Session.step s (Session.TransportTerminated reason))
        = Session.Faulted)
  /\ (forall s method params now deadline,
        Session.phase s <> Session.Ready ->
        Session.request method params now deadline s = (s, inl SessionNotReady))
  /\ (forall evs,
        (Session.rank (Session.phase (Session.run evs Session.initial))
         < Session.rank Session.Ready)%nat ->
        Forall Session.is_initialize
          (Session.wire (Session.run evs Session.initial))).
Proof.
  split; [exact session_step_forward |].
  split; [exact session_run_forward |].
  split.
  { intros s e Hf. pose proof (session_step_forward s e) as Hfwd.
    rewrite Hf in Hfwd. simpl in Hfwd.
    destruct (Session.phase (Session.step s e)); simpl in Hfwd; try lia.
    reflexivity. }
  split.
  { intros s reason. unfold Session.step.
    destruct (Session.phase s); reflexivity. }
  split.
  { intros s method params now deadline Hp. unfold Session.request.
    destruct (Session.phase s); try reflexivity. congruence. }
  exact session_wire_before_ready.
Qed.

Lemma session_moves_forward_witness :
  Session.request "tools/list" PyNone 1 31 handshaking_session
  = (handshaking_session, inl SessionNotReady)
  /\ Session.phase
       (Session.run [Session.InitializeResult echo_info] handshaking_session)
     = Session.Ready.
Proof.
  split; [| reflexivity].
  apply (proj1 (proj2 (proj2 (proj2 (proj2 session_moves_forward))))).
  discriminate.
Defined.

(** * The model on examples *)

(** When the handshake fails the inspector reports it twice and asks for
    no catalog. *)
Example inspect_server_handshake_refused :
  @inspect_server plain_runtime (start refusing_server [])
  = (World refusing_server None []
       ["✗ Failed to initialize session: Connection closed";
        "✗ Error connecting to server: Connection closed"]
       [ReqInitialize],
     Ok tt).
Proof. reflexivity. Qed.

(** Choosing 9 at the first menu leaves the loop; only the handshake
    went out. *)
Example interactive_session_exit :
  snd (@interactive_session plain_runtime 3 (start empty_server ["9"])) = Ok true
  /\ w_sent (fst (@interactive_session plain_runtime 3 (start empty_server ["9"])))
     = [ReqInitialize].
Proof. vm_compute. split; reflexivity. Qed.

(** A response with both a result and an error, and a text that is not
    JSON, are malformed; an unknown field is ignored. *)
Example decode_malformed :
  Codec.decode both_text = inl MalformedMessage
  /\ Codec.decode "not json" = inl MalformedMessage
  /\ Codec.decode extra_field_text = inr (Codec.Notification "ping" PyNone).
Proof. vm_compute. repeat split. Qed.

(** * Further properties of the inspector *)

Lemma try_catch_ok {A} (body : M A) (handler : exn -> M A) (w w' : world) (a : A) :
  body w = (w', Ok a) -> try_catch body handler w = (w', Ok a).
Proof. intros Hb. unfold try_catch. rewrite Hb. reflexivity. Qed.

Lemma try_catch_raise {A} (body : M A) (handler : exn -> M A) (w w' : world) (e : exn) :
  body w = (w', Raise e) -> try_catch body handler w = handler e w'.
Proof. intros Hb. unfold try_catch. rewrite Hb. reflexivity. Qed.

Lemma bind_ok {A B} (m : M A) (f : A -> M B) (w w' : world) (a : A) :
  m w = (w', Ok a) -> (m ≫= f) w = f a w'.
Proof. intros Hm. unfold mbind, M_bind, bind. rewrite Hm. reflexivity. Qed.

Lemma bind_raise {A B} (m : M A) (f : A -> M B) (w w' : world) (e : exn) :
  m w = (w', Raise e) -> (m ≫= f) w = (w', Raise e).
Proof. intros Hm. unfold mbind, M_bind, bind. rewrite Hm. reflexivity. Qed.

Lemma attr_missing (v : pyval) (name : string) (w : world) :
  get_attr name v = None ->
  attr v name w
  = (w, Raise (Exn AttributeError ("object has no attribute '" ++ name ++ "'"))).
Proof. intros Hx. unfold attr. rewrite Hx. reflexivity. Qed.

(** The three ways [connect] can go: the subprocess does not open; the
    handshake fails, after at most two lines of the greeting; the
    greeting is printed and the body runs. *)
Lemma connect_cases `{Runtime} {A} (body : M A) (w : world) :
  (exists e, w_spawn w = Some e /\ connect body w = (w, Raise e))
  \/ (exists out e,
        connect body w
        = (add_out (add_sent w [ReqInitialize])
             (out ++ ["✗ Failed to initialize session: " ++ exn_msg e]), Raise e))
  \/ (exists greeting,
        connect body w
        = match body (add_out (add_sent w [ReqInitialize]) greeting) with
          | (w', Ok a) => (w', Ok a)
          | (w', Raise e) =>
              (add_out w' ["✗ Failed to initialize session: " ++ exn_msg e], Raise e)
          end).
Proof.
  destruct (w_spawn w) as [e |] eqn:Hspawn.
  { left. exists e. split; [reflexivity |]. unfold connect.
    apply bind_raise. unfold spawn. rewrite Hspawn. reflexivity. }
  right.
  assert (Hstart : forall k : pyval -> M A,
            (spawn ≫= fun _ =>
               try_catch (session_call ReqInitialize ≫= k)
                 (fun e => print ("✗ Failed to initialize session: " ++ exn_msg e)
                           ≫= fun _ => raise e)) w
            = match w_server w (w_sent w ++ [ReqInitialize])%list with
              | Ok init =>
                  match k init (add_sent w [ReqInitialize]) with
                  | (w', Ok a) => (w', Ok a)
                  | (w', Raise e) =>
                      (add_out w' ["✗ Failed to initialize session: " ++ exn_msg e],
                       Raise e)
                  end
              | Raise e =>
                  (add_out (add_sent w [ReqInitialize])
                     ["✗ Failed to initialize session: " ++ exn_msg e], Raise e)
              end).
  { intros k.
    rewrite (bind_ok spawn _ w w tt) by (unfold spawn; rewrite Hspawn; reflexivity).
    unfold try_catch, mbind at 1, M_bind at 1, bind at 1.
    rewrite session_call_eq.
    destruct (w_server w (w_sent w ++ [ReqInitialize])%list) as [init | e].
    - destruct (k init _) as [w' [a | e]]; reflexivity.
    - reflexivity. }
  unfold connect. rewrite Hstart. clear Hstart.
  destruct (w_server w (w_sent w ++ [ReqInitialize])%list) as [init | e].
  2:{ left. exists [], e. reflexivity. }
  set (w1 := add_sent w [ReqInitialize]).
  destruct (get_attr "serverInfo" init) as [serverInfo |] eqn:Hsi.
  2:{ left. eexists [], _.
      rewrite (bind_raise _ _ _ _ _ (attr_missing _ _ _ Hsi)). reflexivity. }
  rewrite (bind_ok _ _ _ _ _ (attr_eq _ _ _ _ Hsi)).
  destruct (get_attr "name" serverInfo) as [name |] eqn:Hn.
  2:{ left. eexists [], _.
      rewrite (bind_raise _ _ _ _ _ (attr_missing _ _ _ Hn)). reflexivity. }
  rewrite (bind_ok _ _ _ _ _ (attr_eq _ _ _ _ Hn)).
  rewrite (bind_ok _ _ _ _ _ (print_eq _ _)).
  rewrite (bind_ok _ _ _ _ _ (attr_eq _ _ _ _ Hsi)).
  destruct (get_attr "version" serverInfo) as [version |] eqn:Hv.
  2:{ left. eexists [_], _.
      rewrite (bind_raise _ _ _ _ _ (attr_missing _ _ _ Hv)).
      rewrite add_out_app. reflexivity. }
  rewrite (bind_ok _ _ _ _ _ (attr_eq _ _ _ _ Hv)).
  rewrite (bind_ok _ _ _ _ _ (print_eq _ _)).
  destruct (get_attr "protocolVersion" init) as [protocolVersion |] eqn:Hp.
  2:{ left. eexists [_; _], _.
      rewrite (bind_raise _ _ _ _ _ (attr_missing _ _ _ Hp)).
      rewrite !add_out_app. reflexivity. }
  rewrite (bind_ok _ _ _ _ _ (attr_eq _ _ _ _ Hp)).
  rewrite (bind_ok _ _ _ _ _ (print_eq _ _)).
  right. eexists [_; _; _]. rewrite !add_out_app. simpl app. reflexivity.
Qed.

Lemma connect_handshake `{Runtime} {A} (body : M A) (w : world) (e : exn) :
  w_spawn w = None ->
  w_server w (w_sent w ++ [ReqInitialize])%list = Raise e ->
  connect body w
  = (add_out (add_sent w [ReqInitialize])
       ["✗ Failed to initialize session: " ++ exn_msg e], Raise e).
Proof.
  intros Hspawn Hinit. unfold connect.
  rewrite (bind_ok spawn _ w w tt) by (unfold spawn; rewrite Hspawn; reflexivity).
  unfold try_catch, mbind at 1, M_bind at 1, bind at 1.
  rewrite session_call_eq, Hinit. reflexivity.
Qed.

(** X1. When [connect] cannot reach the server the body of the [async
    with] block never runs, whatever it is.  If opening the subprocess
    or the session raises, nothing is sent and nothing is printed; if
    [initialize] raises, or its result lacks [serverInfo], only the
    [initialize] request went out and one line reports the failure.  In
    each case the exception goes on to the caller. *)
Theorem connect_failure_skips_body `{Runtime} {A} (body : M A) (w : world) :
  (forall e, w_spawn w = Some e -> connect body w = (w, Raise e))
  /\ (forall e,
        w_spawn w = None ->
        w_server w (w_sent w ++ [ReqInitialize])%list = Raise e ->
        connect body w
        = (add_out (add_sent w [ReqInitialize])
             ["✗ Failed to initialize session: " ++ exn_msg e], Raise e))
  /\ (forall init,
        w_spawn w = None ->
        w_server w (w_sent w ++ [ReqInitialize])%list = Ok init ->
        get_attr "serverInfo" init = None ->
        exists e,
          exn_cls e = AttributeError
          /\ connect body w
             = (add_out (add_sent w [ReqInitialize])
                  ["✗ Failed to initialize session: " ++ exn_msg e], Raise e)).
Proof.
  split; [| split].
  - intros e Hspawn. unfold connect. apply bind_raise.
    unfold spawn. rewrite Hspawn. reflexivity.
  - intros e. apply connect_handshake.
  - intros init Hspawn Hinit Hsi. eexists. split; [| unfold connect].
    2:{ rewrite (bind_ok spawn _ w w tt)
          by (unfold spawn; rewrite Hspawn; reflexivity).
        unfold try_catch, mbind at 1, M_bind at 1, bind at 1.
        rewrite session_call_eq, Hinit.
        rewrite (bind_raise _ _ _ _ _ (attr_missing _ _ _ Hsi)).
        reflexivity. }
    reflexivity.
Qed.

Lemma connect_failure_skips_body_witness :
  @connect plain_runtime _ (session_call ReqListTools) (start refusing_server [])
  = (World refusing_server None []
       ["✗ Failed to initialize session: Connection closed"] [ReqInitialize],
     Raise (Exn (OtherError "McpError") "Connection closed")).
Proof.
  exact (proj1 (proj2 (@connect_failure_skips_body plain_runtime _
                         (session_call ReqListTools) (start refusing_server [])))
           _ eq_refl eq_refl).
Defined.

(** X2. An exception raised by the body of the [async with] block, after
    a handshake that succeeded, is caught by the handler inside
    [connect]: it is reported as "Failed to initialize session" and
    raised again.  What the body printed and sent before stays. *)
Theorem connect_reports_body_failure `{Runtime} {A} (body : M A) (w w' : world)
    (init serverInfo name version protocolVersion : pyval) (e : exn) :
  w_spawn w = None ->
  w_server w (w_sent w ++ [ReqInitialize])%list = Ok init ->
  get_attr "serverInfo" init = Some serverInfo ->
  get_attr "name" serverInfo = Some name ->
  get_attr "version" serverInfo = Some version ->
  get_attr "protocolVersion" init = Some protocolVersion ->
  body (add_out (add_sent w [ReqInitialize])
          ["✓ Connected to server: " ++ py_str name;
           "  Version: " ++ py_str version;
           "  Protocol Version: " ++ py_str protocolVersion ++ newline])
  = (w', Raise e) ->
  connect body w
  = (add_out w' ["✗ Failed to initialize session: " ++ exn_msg e], Raise e).
Proof.
  intros Hspawn Hinit Hsi Hn Hv Hp Hbody.
  rewrite (connect_ok body w init serverInfo name version protocolVersion)
    by assumption.
  rewrite Hbody. reflexivity.
Qed.

Lemma connect_reports_body_failure_witness :
  @connect plain_runtime _
    (print "working" ;; @raise unit (Exn KeyError "'missing'"))
    (start empty_server [])
  = (World empty_server None []
       ["✓ Connected to server: echo"; "  Version: 1.0";
        "  Protocol Version: 2024-11-05" ++ newline; "working";
        "✗ Failed to initialize session: 'missing'"]
       [ReqInitialize],
     Raise (Exn KeyError "'missing'")).
Proof.
  exact (@connect_reports_body_failure plain_runtime _
           (print "working" ;; @raise unit (Exn KeyError "'missing'"))
           (start empty_server []) _ echo_init
           (PyObj "Implementation"
              [("name", PyStr "echo"); ("version", PyStr "1.0")])
           (PyStr "echo") (PyStr "1.0") (PyStr "2024-11-05")
           (Exn KeyError "'missing'")
           eq_refl eq_refl eq_refl eq_refl eq_refl eq_refl eq_refl).
Defined.

(** [inspect_server] returns, having sent one of three request
    sequences. *)
Lemma inspect_server_returns `{Runtime} (w : world) :
  exists out reqs,
    inspect_server w = (add_out (add_sent w reqs) out, Ok tt)
    /\ (reqs = []
        \/ reqs = [ReqInitialize]
        \/ reqs = [ReqInitialize; ReqListTools; ReqListResources; ReqListPrompts]).
Proof.
  unfold inspect_server.
  match goal with
  | |- context [connect ?b] => change b with list_all
  end.
  destruct (connect_cases list_all w)
    as [(e & Hspawn & Hc) | [(out & e & Hc) | (greeting & Hc)]].
  - exists ["✗ Error connecting to server: " ++ exn_msg e], [].
    split; [| left; reflexivity].
    rewrite (try_catch_raise _ _ _ _ _ Hc), print_eq.
    destruct w. unfold add_out, add_sent. simpl. rewrite app_nil_r. reflexivity.
  - eexists _, [ReqInitialize]. split; [| right; left; reflexivity].
    rewrite (try_catch_raise _ _ _ _ _ Hc), print_eq, add_out_app. reflexivity.
  - destruct (list_all_catches (add_out (add_sent w [ReqInitialize]) greeting))
      as (out & Hl).
    rewrite Hl in Hc.
    eexists _, _. split; [| right; right; reflexivity].
    rewrite (try_catch_ok _ _ _ _ _ Hc).
    unfold add_out, add_sent. simpl. rewrite <- !app_assoc. reflexivity.
Qed.

(** X3. [inspect_server] never raises: whatever the subprocess and the
    server do, it returns, having only printed and sent requests.  The
    requests it sent are none (the subprocess did not open), or
    [initialize] alone (the handshake failed: no catalog is asked for),
    or [initialize] followed by the three listings in the order tools,
    resources, prompts. *)
Theorem inspect_server_always_returns `{Runtime} (w : world) :
  exists out reqs,
    inspect_server w = (add_out (add_sent w reqs) out, Ok tt)
    /\ (reqs = []
        \/ reqs = [ReqInitialize]
        \/ reqs = [ReqInitialize; ReqListTools; ReqListResources; ReqListPrompts]).
Proof. apply inspect_server_returns. Qed.

(** X4. A listing result is read as an empty catalog whenever its
    catalog is falsy: the attribute is missing ([hasattr] fails and the
    default [[]] is taken), or it is [None], or an empty sequence.  The
    heading and the notice are printed, no error line, and the function
    returns.  The same holds for tools, resources and prompts. *)
Theorem falsy_catalog_reads_as_empty `{Runtime} (w : world) (res : pyval) :
  (forall name,
     get_attr name res = None \/ get_attr name res = Some PyNone
     \/ get_attr name res = Some (PyList []) ->
     py_truthy (attr_or_empty res name) = false)
  /\ (w_server w (w_sent w ++ [ReqListTools])%list = Ok res ->
      py_truthy (attr_or_empty res "tools") = false ->
      list_tools w
      = (add_out (add_sent w [ReqListTools])
           ["🔧 AVAILABLE TOOLS:"; rule; "  No tools available"], Ok tt))
  /\ (w_server w (w_sent w ++ [ReqListResources])%list = Ok res ->
      py_truthy (attr_or_empty res "resources") = false ->
      list_resources w
      = (add_out (add_sent w [ReqListResources])
           ["📁 AVAILABLE RESOURCES:"; rule; "  No resources available"], Ok tt))
  /\ (w_server w (w_sent w ++ [ReqListPrompts])%list = Ok res ->
      py_truthy (attr_or_empty res "prompts") = false ->
      list_prompts w
      = (add_out (add_sent w [ReqListPrompts])
           ["💬 AVAILABLE PROMPTS:"; rule; "  No prompts available"], Ok tt)).
Proof.
  split.
  { intros name [Hn | [Hn | Hn]]; unfold attr_or_empty; rewrite Hn; reflexivity. }
  split; [| split]; intros Hres Hfalsy;
    (eapply listing_empty; [exact Hres |]);
    intros w'; cbv beta zeta; rewrite Hfalsy; simpl negb; cbv iota;
    unfold mbind, M_bind, bind; rewrite !print_eq, !add_out_app; reflexivity.
Qed.

Lemma falsy_catalog_reads_as_empty_witness :
  @list_resources plain_runtime
    (World (fun _ => Ok (PyObj "ListResourcesResult" [("resources", PyNone)]))
       None [] [] [])
  = (World (fun _ => Ok (PyObj "ListResourcesResult" [("resources", PyNone)]))
       None [] ["📁 AVAILABLE RESOURCES:"; rule; "  No resources available"]
       [ReqListResources],
     Ok tt).
Proof.
  exact (proj1 (proj2 (proj2 (@falsy_catalog_reads_as_empty plain_runtime
           (World (fun _ => Ok (PyObj "ListResourcesResult" [("resources", PyNone)]))
              None [] [] [])
           (PyObj "ListResourcesResult" [("resources", PyNone)]))))
           eq_refl eq_refl).
Defined.

Lemma for_each_indexed_cons {A} (i0 : Z) (x : A) (l : list A) (body : Z -> A -> M unit) :
  for_each_indexed i0 (x :: l) body
  = (body i0 x ≫= fun _ => for_each_indexed (i0 + 1) l body).
Proof. reflexivity. Qed.

(** The loop stops at the first item whose body raises. *)
Lemma for_each_indexed_stops {A} (l1 l2 : list A) (x : A) (body : Z -> A -> M unit)
    (i0 : Z) (w w1 w2 : world) (e : exn) :
  for_each_indexed i0 l1 body w = (w1, Ok tt) ->
  body (i0 + Z.of_nat (List.length l1)) x w1 = (w2, Raise e) ->
  for_each_indexed i0 (l1 ++ x :: l2) body w = (w2, Raise e).
Proof.
  revert i0 w. induction l1 as [| y l1 IH]; intros i0 w Hl1 Hx.
  - simpl in Hx. rewrite Z.add_0_r in Hx.
    injection Hl1 as ->. simpl app. rewrite for_each_indexed_cons.
    apply bind_raise, Hx.
  - rewrite for_each_indexed_cons in Hl1. simpl app. rewrite for_each_indexed_cons.
    unfold mbind, M_bind, bind in *.
    destruct (body i0 y w) as [w' [[] | e']]; [| discriminate Hl1].
    apply IH; [exact Hl1 |].
    replace (i0 + 1 + Z.of_nat (List.length l1)) with (i0 + Z.of_nat (List.length (y :: l1)))
      by (simpl List.length; lia).
    exact Hx.
Qed.

Lemma list_tools_loop `{Runtime} (w : world) (res : pyval) (items : list pyval) :
  w_server w (w_sent w ++ [ReqListTools])%list = Ok res ->
  get_attr "tools" res = Some (PyList items) ->
  items <> [] ->
  list_tools w
  = try_catch (for_each_indexed 1 items print_tool)
      (fun e => print ("✗ Error listing tools: " ++ exn_msg e))
      (add_out (add_sent w [ReqListTools]) ["🔧 AVAILABLE TOOLS:"; rule]).
Proof.
  intros Hres Htools Hne. unfold list_tools, try_catch.
  unfold mbind at 1, M_bind at 1, bind at 1. rewrite session_call_eq, Hres.
  unfold attr_or_empty. rewrite Htools.
  rewrite (bind_ok _ _ _ _ _ (print_eq _ _)).
  rewrite (bind_ok _ _ _ _ _ (print_eq _ _)).
  rewrite add_out_app. simpl app.
  destruct items as [| x items]; [contradiction |].
  reflexivity.
Qed.

(** X5. [list_tools] stops at the first tool whose printing raises: the
    tools before it stay printed, one error line follows, and nothing is
    printed for the tools after it, whatever they are.  A tool entry
    without a [name] is such a tool. *)
Theorem list_tools_stops_at_failing_tool `{Runtime} (w w1 w2 : world) (res : pyval)
    (before after : list pyval) (tool : pyval) (e : exn) :
  w_server w (w_sent w ++ [ReqListTools])%list = Ok res ->
  get_attr "tools" res = Some (PyList (before ++ tool :: after)) ->
  for_each_indexed 1 before print_tool
    (add_out (add_sent w [ReqListTools]) ["🔧 AVAILABLE TOOLS:"; rule])
  = (w1, Ok tt) ->
  print_tool (1 + Z.of_nat (List.length before)) tool w1 = (w2, Raise e) ->
  list_tools w = (add_out w2 ["✗ Error listing tools: " ++ exn_msg e], Ok tt).
Proof.
  intros Hres Htools Hbefore Htool.
  rewrite (list_tools_loop w res _ Hres Htools)
    by (destruct before; discriminate).
  erewrite try_catch_raise;
    [| exact (for_each_indexed_stops before after tool print_tool 1 _ w1 w2 e
                Hbefore Htool)].
  apply print_eq.
Qed.

Lemma list_tools_stops_at_failing_tool_witness :
  @list_tools plain_runtime
    (start (catalog_server [named_tool "first"; nameless_tool; named_tool "third"]) [])
  = (World (catalog_server [named_tool "first"; nameless_tool; named_tool "third"])
       None []
       ["🔧 AVAILABLE TOOLS:"; rule; "1. first"; "";
        "✗ Error listing tools: object has no attribute 'name'"]
       [ReqListTools],
     Ok tt).
Proof.
  exact (@list_tools_stops_at_failing_tool plain_runtime
           (start (catalog_server
                     [named_tool "first"; nameless_tool; named_tool "third"]) [])
           _ _ _ [named_tool "first"] [named_tool "third"] nameless_tool _
           eq_refl eq_refl eq_refl eq_refl).
Defined.

(** * Further properties of the schema printer *)

Lemma completes_ret {A} (C : exn -> Prop) (a : A) : completes_iff true C (mret a).
Proof. intros w. exists [], (Ok a). rewrite add_out_nil. split; reflexivity. Qed.

Lemma completes_print (C : exn -> Prop) (line : string) :
  completes_iff true C (print line).
Proof. intros w. exists [line], (Ok tt). split; reflexivity. Qed.

Lemma completes_raise {A} (C : exn -> Prop) (e : exn) :
  C e -> completes_iff false C (@raise A e).
Proof.
  intros He w. exists [], (Raise e). rewrite add_out_nil.
  split; [reflexivity | split; [reflexivity | exact He]].
Qed.

Lemma completes_bind {A B} (C : exn -> Prop) (b1 b2 : bool) (m : M A) (f : A -> M B) :
  completes_iff b1 C m -> (forall a, completes_iff b2 C (f a)) ->
  completes_iff (b1 && b2) C (m ≫= f).
Proof.
  intros Hm Hf w. unfold mbind, M_bind, bind.
  destruct (Hm w) as (out & r & -> & Hr). destruct r as [a | e].
  - destruct (Hf a (add_out w out)) as (out' & r' & -> & Hr').
    exists (out ++ out')%list, r'. rewrite add_out_app. split; [reflexivity |].
    rewrite Hr. exact Hr'.
  - exists out, (Raise e). split; [reflexivity |].
    destruct Hr as [-> He]. split; [reflexivity | exact He].
Qed.

Lemma completes_ext {A} (C : exn -> Prop) (b b' : bool) (m : M A) :
  b = b' -> completes_iff b C m -> completes_iff b' C m.
Proof. intros ->. exact id. Qed.

Lemma for_each_cons {A} (x : A) (l : list A) (body : A -> M unit) :
  for_each (x :: l) body = (body x ≫= fun _ => for_each l body).
Proof. reflexivity. Qed.

Lemma completes_for_each {A} (C : exn -> Prop) (ok : A -> bool) (l : list A)
    (body : A -> M unit) :
  Forall (fun x => completes_iff (ok x) C (body x)) l ->
  completes_iff (forallb ok l) C (for_each l body).
Proof.
  induction 1 as [| x l Hx _ IH].
  - apply (completes_ret C tt).
  - rewrite for_each_cons. simpl forallb.
    apply completes_bind; [exact Hx | intros _; exact IH].
Qed.

Lemma rmap_str_items (l : list pyval) :
  match rmap (fun x => match x with
                       | PyStr s => Ok s
                       | _ => Raise (Exn TypeError "sequence item: expected str instance")
                       end) l with
  | Ok _ => forallb (fun x => match x with PyStr _ => true | _ => false end) l = true
  | Raise e =>
      forallb (fun x => match x with PyStr _ => true | _ => false end) l = false
      /\ exn_cls e = TypeError
  end.
Proof.
  induction l as [| x l IH]; [reflexivity |].
  simpl rmap. simpl forallb.
  destruct x; simpl; try (split; reflexivity).
  destruct (rmap _ l) as [strs | e]; simpl; exact IH.
Qed.

Lemma forallb_str_map {A} (f : A -> string) (l : list A) :
  forallb (fun x => match x with PyStr _ => true | _ => false end)
    (map (fun a => PyStr (f a)) l) = true.
Proof. induction l as [| a l IH]; [reflexivity | exact IH]. Qed.

(** [', '.join(v)] succeeds exactly on [str_items], and fails with
    [TypeError]. *)
Lemma join_required_outcome (v : pyval) :
  match join_required v with
  | Ok _ => str_items v = true
  | Raise e => str_items v = false /\ exn_cls e = TypeError
  end.
Proof.
  unfold join_required.
  destruct v as [| b | z | lit | s | l | d | cls attrs]; simpl;
    try (split; reflexivity).
  - unfold chars.
    pose proof (rmap_str_items
                  (map (fun c => PyStr (String c EmptyString)) (list_ascii_of_string s)))
      as Hr.
    rewrite (forallb_str_map (fun c => String c EmptyString)) in Hr.
    destruct (rmap _ _) as [strs | e]; simpl; [reflexivity |].
    destruct Hr as [Hr _]. discriminate Hr.
  - pose proof (rmap_str_items l) as Hr.
    destruct (rmap _ l) as [strs | e]; simpl; exact Hr.
  - pose proof (rmap_str_items (map (fun kv : string * pyval => PyStr (fst kv)) d))
      as Hr.
    rewrite (forallb_str_map (fun kv : string * pyval => fst kv)) in Hr.
    destruct (rmap _ _) as [strs | e]; simpl; [reflexivity |].
    destruct Hr as [Hr _]. discriminate Hr.
Qed.

Lemma schema_depth_pos (schema : pyval) : (1 <= schema_depth schema)%nat.
Proof. destruct schema; simpl; lia. Qed.

Lemma forallb_schema_fits (room : nat) (items : list (string * pyval)) :
  forallb (fun kv => schema_well_formed (snd kv)) items
  && (list_max (map (fun kv => schema_depth (snd kv)) items) <=? room)%nat
  = forallb (fun kv => schema_fits room (snd kv)) items.
Proof.
  induction items as [| kv items IH]; [reflexivity |].
  simpl forallb. rewrite <- IH. unfold schema_fits.
  change (list_max (map (fun kv => schema_depth (snd kv)) (kv :: items)))
    with (Nat.max (schema_depth (snd kv))
            (list_max (map (fun kv => schema_depth (snd kv)) items))).
  destruct (schema_well_formed (snd kv)), (forallb _ items); simpl;
    try reflexivity;
    try (rewrite andb_false_r; reflexivity).
  - destruct (Nat.leb_spec (Nat.max (schema_depth (snd kv))
                              (list_max (map (fun kv => schema_depth (snd kv)) items)))
                room),
             (Nat.leb_spec (schema_depth (snd kv)) room),
             (Nat.leb_spec (list_max (map (fun kv => schema_depth (snd kv)) items))
                room); simpl; try reflexivity; lia.
Qed.

(** With [room] calls left, the printing returns exactly on the schemas
    that are well formed and fit; otherwise it raises one of the three
    exceptions. *)
Lemma print_schema_completes `{Runtime} (room : nat) :
  forall schema indent,
    completes_iff (schema_fits room schema) schema_error
      (print_schema_from pyval_graph room schema indent).
Proof.
  induction room as [| room IH]; intros schema indent.
  - apply (completes_ext _ false).
    + unfold schema_fits. pose proof (schema_depth_pos schema) as Hpos.
      destruct (Nat.leb_spec (schema_depth schema) 0); [lia |].
      rewrite andb_false_r. reflexivity.
    + apply (@completes_raise unit schema_error). right. right. reflexivity.
  - rewrite print_schema_from_S.
    destruct schema as [| b | z | lit | s | l | d | cls attrs];
      try apply completes_print.
    change (node_dict pyval_graph (PyDict d)) with (Some d). cbv iota.
    rewrite !dict_case_assoc.
    apply (completes_ext _
             (true
              && (match assoc "properties" d with
                  | Some props =>
                      true && match props with
                              | PyDict items =>
                                  forallb (fun kv => schema_fits room (snd kv)) items
                              | _ => false
                              end
                  | None => true
                  end
                  && (match assoc "required" d with
                      | Some req => str_items req
                      | None => true
                      end
                      && true)))).
    { change (schema_fits (S room) (PyDict d))
        with (schema_well_formed (PyDict d)
              && (schema_depth (PyDict d) <=? S room)%nat).
      simpl schema_well_formed. simpl schema_depth.
      rewrite !dict_case_assoc.
      change (S ?n <=? S room)%nat with (n <=? room)%nat.
      destruct (assoc "properties" d) as [props |].
      - destruct props as [| b | z | lit | s | l | items | cls attrs];
          try reflexivity.
        rewrite <- forallb_schema_fits.
        destruct (forallb _ items), (assoc "required" d) as [req |];
          simpl; try reflexivity;
          try (destruct (str_items req); simpl; try reflexivity);
          rewrite ?andb_true_r, ?andb_false_r; reflexivity.
      - simpl. rewrite andb_true_r.
        destruct (assoc "required" d) as [req |]; reflexivity. }
    apply completes_bind; [apply completes_print | intros _].
    apply completes_bind; [| intros _; apply completes_bind; [| intros _]].
    + destruct (assoc "properties" d) as [props |];
        [| apply (completes_ret schema_error tt)].
      apply completes_bind; [apply completes_print | intros _].
      destruct props as [| b | z | lit | s | l | items | cls attrs];
        try (apply (@completes_raise unit schema_error); left; reflexivity).
      change (node_dict pyval_graph (PyDict items)) with (Some items). cbv iota.
      apply (completes_for_each schema_error
               (fun kv : string * pyval => schema_fits room (snd kv))).
      apply Forall_forall. intros [prop_name prop_schema] _.
      match goal with
      | |- completes_iff ?b _ _ =>
          apply (completes_ext _ (true && b)); [reflexivity |]
      end.
      apply completes_bind; [apply completes_print | intros _; apply IH].
    + destruct (assoc "required" d) as [req |];
        [| apply (completes_ret schema_error tt)].
      intros w. unfold mbind, M_bind, bind, lift.
      change (node_join pyval_graph req) with (join_required req).
      pose proof (join_required_outcome req) as Hreq.
      destruct (join_required req) as [r | e].
      * exists [spaces indent ++ "Required: " ++ r], (Ok tt).
        split; [reflexivity | exact Hreq].
      * exists [], (Raise e). rewrite add_out_nil.
        split; [reflexivity |]. destruct Hreq as [Hreq Hcls].
        split; [exact Hreq | right; left; exact Hcls].
    + destruct (assoc "description" d);
        [apply completes_print | apply (completes_ret schema_error tt)].
Qed.

(** X6. [_print_schema] returns only on the schemas that are well formed
    (every [properties], at any depth, is a dict and every [required] a
    sequence of strings) and that nest no deeper than the interpreter
    has room for.  On a schema that is not well formed it raises; and
    whatever it raises is an [AttributeError] (a [properties] without
    [items]), a [TypeError] (a [required] that cannot be joined) or a
    [RecursionError] (a schema nested too deep). *)
Theorem print_schema_returns_only_well_formed `{Runtime} (schema : pyval)
    (indent : nat) (w : world) :
  (snd (_print_schema schema indent w) = Ok tt ->
   schema_well_formed schema = true
   /\ (schema_depth schema <= S schema_depth_room)%nat)
  /\ (schema_well_formed schema = false ->
      exists e, snd (_print_schema schema indent w) = Raise e)
  /\ (forall e,
        snd (_print_schema schema indent w) = Raise e -> schema_error e).
Proof.
  unfold _print_schema.
  destruct (print_schema_completes (S schema_depth_room) schema indent w)
    as (out & r & -> & Hr).
  simpl snd. unfold schema_fits in Hr. destruct r as [[] | e].
  - apply andb_true_iff in Hr. destruct Hr as [Hwf Hdepth].
    apply Nat.leb_le in Hdepth.
    split; [intros _; split; assumption |].
    split; [intros Hnot; rewrite Hwf in Hnot; discriminate Hnot | discriminate].
  - destruct Hr as [_ He].
    split; [discriminate |].
    split; [intros _; exists e; reflexivity | intros e' [= <-]; exact He].
Qed.












(** X8. A schema whose [properties] is not a dict is printed up to the
    "Properties:" line, then [_print_schema] raises [AttributeError]:
    the [Required] and [Description] lines of that schema are never
    printed. *)
Theorem print_schema_properties_not_dict `{Runtime} (d : list (string * pyval))
    (props : pyval) (indent : nat) (w : world) :
  assoc "properties" d = Some props ->
  (forall items, props <> PyDict items) ->
  exists e,
    exn_cls e = AttributeError
    /\ _print_schema (PyDict d) indent w
       = (add_out w
            [spaces indent ++ "Type: "
               ++ py_str (match assoc "type" d with
                          | Some t => t
                          | None => PyStr "unknown"
                          end);
             spaces indent ++ "Properties:"],
          Raise e).
Proof.
  intros Hprops Hnot. eexists. split.
  2:{ unfold _print_schema. rewrite print_schema_from_S.
      change (node_dict pyval_graph (PyDict d)) with (Some d). cbv iota.
      rewrite !dict_case_assoc, Hprops.
      change (node_str pyval_graph) with py_str.
      replace (match assoc "type" d with
               | Some v => py_str v
               | None => "unknown"
               end)
        with (py_str (match assoc "type" d with
                      | Some t => t
                      | None => PyStr "unknown"
                      end))
        by (destruct (assoc "type" d); reflexivity).
      rewrite (bind_ok _ _ _ _ _ (print_eq _ _)).
      apply bind_raise.
      rewrite (bind_ok _ _ _ _ _ (print_eq _ _)).
      rewrite add_out_app. simpl app.
      destruct props; try reflexivity.
      exfalso. exact (Hnot _ eq_refl). }
  reflexivity.
Qed.

Lemma print_schema_properties_not_dict_witness :
  exists e,
    exn_cls e = AttributeError
    /\ @_print_schema plain_runtime
         (PyDict [("type", PyStr "object");
                  ("properties", PyList [PyStr "query"]);
                  ("description", PyStr "never shown")])
         6 (start empty_server [])
       = (World empty_server None []
            ["      Type: object"; "      Properties:"] [],
          Raise e).
Proof.
  exact (@print_schema_properties_not_dict plain_runtime
           [("type", PyStr "object");
            ("properties", PyList [PyStr "query"]);
            ("description", PyStr "never shown")]
           (PyList [PyStr "query"]) 6 (start empty_server []) eq_refl
           ltac:(discriminate)).
Defined.

(** * Further properties of [format_mcp_result] *)

(** What [json.loads] raises. *)
Lemma json_loads_raises `{Runtime} (v : pyval) (e : exn) :
  json_loads v = Raise e ->
  exn_cls e = JSONDecodeError
  \/ (format_error e /\ (exn_cls e = TypeError <-> forall s, v <> PyStr s)).
Proof.
  unfold json_loads, format_error.
  destruct v as [| b | z | lit | s | l | d | cls attrs];
    try (intros [= <-]; right; split; [left; reflexivity |];
         split; [intros _ s' Hs; discriminate Hs | reflexivity]).
  destruct (scan_value _ _ _) as [j r | | n | container].
  - destruct (skip_ws r); [discriminate | intros [= <-]; left; reflexivity].
  - intros [= <-]. left. reflexivity.
  - intros [= <-]. right. split; [right; left; reflexivity |].
    split; [discriminate | intros Hs; exfalso; exact (Hs s eq_refl)].
  - intros [= <-]. right. split; [right; right; reflexivity |].
    split; [discriminate | intros Hs; exfalso; exact (Hs s eq_refl)].
Qed.

(** The loop body returns only on an item of the known shape, and what
    it raises is never a [JSONDecodeError] or an [AttributeError]. *)
Lemma format_content_item_outcome `{Runtime} (item : pyval) :
  match format_content_item item with
  | Ok _ => content_item_shape item
  | Raise e => format_error e
  end.
Proof.
  unfold format_content_item, content_item_shape.
  destruct (get_attr "text" item) as [text |]; [| exact I].
  unfold try_except.
  destruct (json_loads text) as [j | e] eqn:Hloads.
  - simpl. destruct text; try discriminate Hloads. exact I.
  - simpl rbind. cbv iota.
    destruct (json_loads_raises text e Hloads) as [Hcls | [Hfmt Htype]].
    + unfold catches. rewrite Hcls. simpl.
      destruct text; try exact I;
        exfalso; unfold json_loads in Hloads;
        injection Hloads as <-; discriminate Hcls.
    + assert (Hnot : catches [JSONDecodeError; AttributeError] e = false).
      { unfold catches. destruct Hfmt as [-> | [-> | ->]]; reflexivity. }
      rewrite Hnot. exact Hfmt.
Qed.

Lemma rmap_format_content_item `{Runtime} (items : list pyval) :
  match rmap format_content_item items with
  | Ok _ => Forall content_item_shape items
  | Raise e => format_error e
  end.
Proof.
  induction items as [| item items IH]; simpl rmap.
  - constructor.
  - pose proof (format_content_item_outcome item) as Hitem.
    destruct (format_content_item item) as [s | e]; simpl rbind.
    + destruct (rmap format_content_item items) as [ss | e]; simpl rbind.
      * constructor; assumption.
      * exact IH.
    + exact Hitem.
Qed.

(** X9. [format_mcp_result] returns a string only on the results of the
    known shape: no [content], or a [content] that can be iterated and
    whose items each have a [str] as [text] or no [text] at all.  What
    it raises is a [TypeError], a [ValueError] or a [RecursionError]: a
    [JSONDecodeError] or an [AttributeError] never leaves the function.
    A result without [content] is never refused. *)
Theorem format_mcp_result_returns_on_known_shape `{Runtime} (result : pyval) :
  ((exists s, format_mcp_result result = Ok s) -> result_shape result)
  /\ (forall e,
        format_mcp_result result = Raise e ->
        format_error e
        /\ exn_cls e <> JSONDecodeError /\ exn_cls e <> AttributeError)
  /\ (get_attr "content" result = None ->
      format_mcp_result result = Ok (py_str result)).
Proof.
  assert (Hcls : forall e, format_error e ->
            format_error e
            /\ exn_cls e <> JSONDecodeError /\ exn_cls e <> AttributeError).
  { intros e He. split; [exact He |].
    destruct He as [-> | [-> | ->]]; split; discriminate. }
  unfold format_mcp_result, result_shape.
  destruct (get_attr "content" result) as [content |].
  2:{ split; [intros _; exact I |]. split; [discriminate | reflexivity]. }
  split; [| split; [| discriminate]].
  - intros [s Hs].
    destruct (py_iter content) as [items | e0]; [| discriminate Hs].
    simpl rbind in Hs. pose proof (rmap_format_content_item items) as Hitems.
    destruct (rmap format_content_item items) as [output | e0];
      [| discriminate Hs].
    exists items. split; [reflexivity | exact Hitems].
  - intros e He. apply Hcls.
    destruct (py_iter content) as [items | e0] eqn:Hiter.
    + simpl rbind in He. pose proof (rmap_format_content_item items) as Hitems.
      destruct (rmap format_content_item items) as [output | e0];
        [discriminate He |].
      injection He as <-. exact Hitems.
    + injection He as <-. left.
      destruct content; try discriminate Hiter; injection Hiter as <-; reflexivity.
Qed.

(** * Further properties of the interactive menu *)

Lemma sends_nothing_prints_only {A} (m : M A) : prints_only m -> sends_nothing m.
Proof. intros Hm w. destruct (Hm w) as (out & r & ->). reflexivity. Qed.

Lemma sends_nothing_ret {A} (a : A) : sends_nothing (mret a).
Proof. intros w. reflexivity. Qed.

Lemma sends_nothing_print (line : string) : sends_nothing (print line).
Proof. intros w. reflexivity. Qed.

Lemma sends_nothing_lift {A} (r : outcome A) : sends_nothing (lift r).
Proof. intros w. reflexivity. Qed.

Lemma sends_nothing_input (prompt : string) : sends_nothing (input prompt).
Proof. intros w. unfold input. destruct (w_stdin w); reflexivity. Qed.

Lemma sends_nothing_bind {A B} (m : M A) (f : A -> M B) :
  sends_nothing m -> (forall a, sends_nothing (f a)) -> sends_nothing (m ≫= f).
Proof.
  intros Hm Hf w. unfold mbind, M_bind, bind.
  specialize (Hm w). destruct (m w) as [w' [a | e]]; simpl in *.
  - rewrite <- Hm. apply Hf.
  - exact Hm.
Qed.

Lemma sends_nothing_try_catch {A} (body : M A) (handler : exn -> M A) :
  sends_nothing body -> (forall e, sends_nothing (handler e)) ->
  sends_nothing (try_catch body handler).
Proof.
  intros Hb Hh w. unfold try_catch.
  specialize (Hb w). destruct (body w) as [w' [a | e]]; simpl in *.
  - exact Hb.
  - rewrite <- Hb. apply Hh.
Qed.

Lemma sends_at_most_nothing {A} (P : request -> Prop) (m : M A) :
  sends_nothing m -> sends_at_most P m.
Proof. intros Hm w. left. apply Hm. Qed.

Lemma sends_at_most_bind {A B} (P : request -> Prop) (m : M A) (f : A -> M B) :
  sends_nothing m -> (forall a, sends_at_most P (f a)) -> sends_at_most P (m ≫= f).
Proof.
  intros Hm Hf w. unfold mbind, M_bind, bind.
  specialize (Hm w). destruct (m w) as [w' [a | e]]; simpl in *.
  - rewrite <- Hm. apply Hf.
  - left. exact Hm.
Qed.

Lemma sends_at_most_print {B} (P : request -> Prop) (line : string) (f : unit -> M B) :
  sends_at_most P (f tt) -> sends_at_most P (print line ≫= f).
Proof.
  intros Hf. apply sends_at_most_bind; [apply sends_nothing_print |].
  intros []. exact Hf.
Qed.

(** [x = g(input(prompt))]: what follows runs on [g] of a line. *)
Lemma sends_at_most_input {B} (P : request -> Prop) (g : string -> string)
    (prompt : string) (f : string -> M B) :
  (forall line, sends_at_most P (f (g line))) ->
  sends_at_most P ((g <$> input prompt) ≫= f).
Proof.
  intros Hf w. unfold mbind, M_bind, fmap, M_fmap, bind, input, ret.
  destruct (w_stdin w) as [| line rest]; [left; reflexivity |].
  apply (Hf line (World (w_server w) (w_spawn w) rest
                    (w_stdout w ++ [prompt])%list (w_sent w))).
Qed.

Lemma sends_at_most_lift {A B} (P : request -> Prop) (r : outcome A) (f : A -> M B) :
  (forall a, r = Ok a -> sends_at_most P (f a)) ->
  sends_at_most P (lift r ≫= f).
Proof.
  intros Hf w. unfold mbind, M_bind, bind, lift.
  destruct r as [a | e]; [apply (Hf a eq_refl) | left; reflexivity].
Qed.

(** The request goes out; showing the result sends nothing more. *)
Lemma call_then_show_sent `{Runtime} (req : request) (w : world) :
  w_sent (fst ((session_call req ≫= fun result =>
                print_results result ≫= fun _ => mret LoopNext) w))
  = (w_sent w ++ [req])%list.
Proof.
  unfold mbind at 1, M_bind at 1, bind at 1. rewrite session_call_eq.
  destruct (w_server w _) as [result | e]; [| reflexivity].
  assert (Hs : sends_nothing (print_results result ≫= fun _ => mret LoopNext)).
  { apply sends_nothing_bind;
      [apply sends_nothing_prints_only, print_results_prints_only |].
    intros _. apply (sends_nothing_ret LoopNext). }
  rewrite Hs. reflexivity.
Qed.

Lemma sends_at_most_call `{Runtime} (P : request -> Prop) (req : request) :
  P req ->
  sends_at_most P
    (session_call req ≫= fun result => print_results result ≫= fun _ => mret LoopNext).
Proof.
  intros HP w. right. exists req. split; [exact HP | apply call_then_show_sent].
Qed.

Lemma sends_at_most_impl {A} (P Q : request -> Prop) (m : M A) :
  (forall req, P req -> Q req) -> sends_at_most P m -> sends_at_most Q m.
Proof.
  intros HPQ Hm w. destruct (Hm w) as [Hn | (req & HP & Hs)].
  - left. exact Hn.
  - right. exists req. split; [apply HPQ, HP | exact Hs].
Qed.

Lemma sends_nothing_warning (line : string) :
  sends_nothing (print line ≫= fun _ => mret LoopNext).
Proof.
  apply sends_nothing_bind; [apply sends_nothing_print |].
  intros _. apply (sends_nothing_ret LoopNext).
Qed.

Lemma guarded_call_strip (name key line : string) (args : list (string * pyval)) :
  strip line <> "" ->
  assoc key args = Some (PyStr (strip line)) ->
  guarded_call name key (ReqCallTool name (PyDict args)).
Proof.
  intros Hne Hkey. exists (strip line), args.
  split; [exact Hne |]. split; [reflexivity | exact Hkey].
Qed.

(** What each option that asks for a query, a chat JID or a message ID
    can send. *)
Lemma menu_options_send_guarded `{Runtime} :
  sends_at_most (guarded_call "search_contacts" "query") option_search_contacts
  /\ sends_at_most (guarded_call "get_chat" "chat_jid") option_get_chat
  /\ sends_at_most (guarded_call "list_messages" "chat_jid") option_list_messages
  /\ sends_at_most (guarded_call "search_messages" "query") option_search_messages
  /\ sends_at_most (guarded_call "get_message_context" "message_id")
       option_message_context.
Proof.
  split; [| split; [| split; [| split]]].
  - unfold option_search_contacts.
    do 2 apply sends_at_most_print.
    apply sends_at_most_input. intros line.
    destruct (String.eqb_spec (strip line) "") as [He | Hne].
    + apply sends_at_most_nothing, sends_nothing_warning.
    + apply sends_at_most_print. apply sends_at_most_call.
      apply (guarded_call_strip _ _ line); [exact Hne | reflexivity].
  - unfold option_get_chat.
    do 2 apply sends_at_most_print.
    apply sends_at_most_input. intros line.
    destruct (String.eqb_spec (strip line) "") as [He | Hne].
    + apply sends_at_most_nothing, sends_nothing_warning.
    + apply sends_at_most_input. intros include_last.
      apply sends_at_most_print. apply sends_at_most_call.
      apply (guarded_call_strip _ _ line); [exact Hne | reflexivity].
  - unfold option_list_messages.
    do 2 apply sends_at_most_print.
    apply sends_at_most_input. intros line.
    destruct (String.eqb_spec (strip line) "") as [He | Hne].
    + apply sends_at_most_nothing, sends_nothing_warning.
    + apply sends_at_most_input. intros limit.
      apply sends_at_most_input. intros page.
      apply sends_at_most_print.
      apply sends_at_most_lift. intros limit_n _.
      apply sends_at_most_lift. intros page_n _.
      apply sends_at_most_call.
      apply (guarded_call_strip _ _ line); [exact Hne | reflexivity].
  - unfold option_search_messages.
    do 2 apply sends_at_most_print.
    apply sends_at_most_input. intros line.
    destruct (String.eqb_spec (strip line) "") as [He | Hne].
    + apply sends_at_most_nothing, sends_nothing_warning.
    + apply sends_at_most_input. intros chat_jid.
      apply sends_at_most_input. intros limit.
      apply sends_at_most_input. intros page.
      apply sends_at_most_lift. intros limit_n _.
      apply sends_at_most_lift. intros page_n _.
      cbv zeta.
      apply sends_at_most_print. apply sends_at_most_call.
      apply (guarded_call_strip _ _ line); [exact Hne |].
      destruct (String.eqb (strip chat_jid) ""); reflexivity.
  - unfold option_message_context.
    do 2 apply sends_at_most_print.
    apply sends_at_most_input. intros line.
    destruct (String.eqb_spec (strip line) "") as [He | Hne].
    + apply sends_at_most_nothing, sends_nothing_warning.
    + apply sends_at_most_input. intros before.
      apply sends_at_most_input. intros after.
      apply sends_at_most_print.
      apply sends_at_most_lift. intros before_n _.
      apply sends_at_most_lift. intros after_n _.
      apply sends_at_most_call.
      apply (guarded_call_strip _ _ line); [exact Hne | reflexivity].
Qed.

Lemma bind_input {B} (g : string -> string) (prompt : string) (f : string -> M B)
    (w : world) (line : string) (rest : list string) :
  w_stdin w = line :: rest ->
  ((g <$> input prompt) ≫= f) w
  = f (g line)
      (World (w_server w) (w_spawn w) rest (w_stdout w ++ [prompt])%list (w_sent w)).
Proof.
  intros Hin. unfold mbind, M_bind, fmap, M_fmap, bind, input, ret.
  rewrite Hin. reflexivity.
Qed.

Lemma bind_input_eof {B} (g : string -> string) (prompt : string) (f : string -> M B)
    (w : world) :
  w_stdin w = [] ->
  ((g <$> input prompt) ≫= f) w
  = (World (w_server w) (w_spawn w) [] (w_stdout w ++ [prompt])%list (w_sent w),
     Raise (Exn EOFError "EOF when reading a line")).
Proof.
  intros Hin. unfold mbind, M_bind, fmap, M_fmap, bind, input, ret.
  rewrite Hin. reflexivity.
Qed.

Lemma bind_lift_ok {A B} (a : A) (f : A -> M B) (w : world) :
  (lift (Ok a) ≫= f) w = f a w.
Proof. reflexivity. Qed.

Lemma bind_lift_raise {A B} (e : exn) (f : A -> M B) (w : world) :
  (lift (@Raise A e) ≫= f) w = (w, Raise e).
Proof. reflexivity. Qed.

(** An option that asks for its first field and checks it: a blank
    answer is refused. *)
Lemma guarded_option_blank (heading question warning : string)
    (k : string -> M loop_control) :
  refuses_blank
    (print heading ;;
     print dash_rule ;;
     x ← strip <$> input question;
     if String.eqb x "" then print warning ;; mret LoopNext else k x)
    heading question warning.
Proof.
  intros w line rest Hin Hblank.
  do 2 rewrite (bind_ok _ _ _ _ _ (print_eq _ _)).
  rewrite (bind_input _ _ _ _ line rest) by exact Hin.
  rewrite Hblank. change (String.eqb "" "") with true. cbv iota.
  rewrite (bind_ok _ _ _ _ _ (print_eq _ _)).
  unfold add_out, mret, M_ret, ret. cbn [w_server w_spawn w_stdin w_stdout w_sent].
  rewrite <- !app_assoc. reflexivity.
Qed.

(** The same option sends nothing, or the call with the line typed. *)
Lemma guarded_option_sends (heading question warning name key : string)
    (k : string -> M loop_control) :
  (forall x,
     sends_at_most
       (fun req => exists args,
          req = ReqCallTool name (PyDict args)
          /\ assoc key args = Some (PyStr x))
       (k x)) ->
  sends_typed
    (print heading ;;
     print dash_rule ;;
     x ← strip <$> input question;
     if String.eqb x "" then print warning ;; mret LoopNext else k x)
    name key.
Proof.
  intros Hk w.
  do 2 rewrite (bind_ok _ _ _ _ _ (print_eq _ _)).
  destruct (w_stdin w) as [| line rest] eqn:Hin.
  { left. rewrite bind_input_eof by exact Hin. reflexivity. }
  rewrite (bind_input _ _ _ _ line rest) by exact Hin.
  destruct (String.eqb_spec (strip line) "") as [Hblank | Hne].
  { left. rewrite (bind_ok _ _ _ _ _ (print_eq _ _)). reflexivity. }
  match goal with
  | |- context [k (strip line) ?w1] =>
      destruct (Hk (strip line) w1) as [Hs | (req & (args & -> & Hkey) & Hs)]
  end.
  - left. exact Hs.
  - right. exists line, rest, args.
    split; [reflexivity |]. split; [exact Hne |]. split; [exact Hkey | exact Hs].
Qed.

Lemma sends_at_most_keyed `{Runtime} (name key x : string)
    (args : list (string * pyval)) :
  assoc key args = Some (PyStr x) ->
  sends_at_most
    (fun req => exists args,
       req = ReqCallTool name (PyDict args) /\ assoc key args = Some (PyStr x))
    (session_call (ReqCallTool name (PyDict args)) ≫= fun result =>
     print_results result ≫= fun _ => mret LoopNext).
Proof. intros Hkey. apply sends_at_most_call. exists args. split; [reflexivity | exact Hkey]. Qed.

(** X10. The options that ask for a query, a chat JID or a message ID
    (1, 3, 4, 5 and 7) check it themselves.  An answer that is empty or
    blank is refused: the option prints its warning, reads nothing more
    and sends nothing.  And whatever the option sends is one call of its
    own tool in which that field is the line that was typed, stripped of
    surrounding white space and not empty. *)
Theorem menu_calls_are_guarded `{Runtime} :
  (refuses_blank option_search_contacts "🔍 SEARCH CONTACTS"
     "Enter search query (name/phone): " "⚠️  Query cannot be empty!"
   /\ sends_typed option_search_contacts "search_contacts" "query")
  /\ (refuses_blank option_get_chat "📄 GET CHAT DETAILS"
        "Enter chat JID (e.g., '123456@s.whatsapp.net'): "
        "⚠️  Chat JID cannot be empty!"
      /\ sends_typed option_get_chat "get_chat" "chat_jid")
  /\ (refuses_blank option_list_messages "📋 LIST MESSAGES FROM CHAT"
        "Enter chat JID: " "⚠️  Chat JID cannot be empty!"
      /\ sends_typed option_list_messages "list_messages" "chat_jid")
  /\ (refuses_blank option_search_messages "🔎 SEARCH MESSAGES"
        "Enter search query: " "⚠️  Search query cannot be empty!"
      /\ sends_typed option_search_messages "search_messages" "query")
  /\ (refuses_blank option_message_context "🧵 GET MESSAGE CONTEXT"
        "Enter message ID: " "⚠️  Message ID cannot be empty!"
      /\ sends_typed option_message_context "get_message_context" "message_id").
Proof.
  split; [| split; [| split; [| split]]]; split;
    try apply guarded_option_blank;
    apply guarded_option_sends; intros x.
  - apply sends_at_most_print. apply sends_at_most_keyed. reflexivity.
  - apply sends_at_most_input. intros include_last.
    apply sends_at_most_print. apply sends_at_most_keyed. reflexivity.
  - apply sends_at_most_input. intros limit.
    apply sends_at_most_input. intros page.
    apply sends_at_most_print.
    apply sends_at_most_lift. intros limit_n _.
    apply sends_at_most_lift. intros page_n _.
    apply sends_at_most_keyed. reflexivity.
  - apply sends_at_most_input. intros chat_jid.
    apply sends_at_most_input. intros limit.
    apply sends_at_most_input. intros page.
    apply sends_at_most_lift. intros limit_n _.
    apply sends_at_most_lift. intros page_n _.
    cbv zeta.
    apply sends_at_most_print. apply sends_at_most_keyed.
    destruct (String.eqb (strip chat_jid) ""); reflexivity.
  - apply sends_at_most_input. intros before.
    apply sends_at_most_input. intros after.
    apply sends_at_most_print.
    apply sends_at_most_lift. intros before_n _.
    apply sends_at_most_lift. intros after_n _.
    apply sends_at_most_keyed. reflexivity.
Qed.

Lemma or_default_nonempty (s default : string) :
  default <> "" -> or_default s default <> "".
Proof.
  intros Hd. unfold or_default.
  destruct (String.eqb_spec s ""); [exact Hd | assumption].
Qed.

(** What option 2 can send. *)
Lemma option_list_chats_sends `{Runtime} :
  sends_at_most list_chats_call option_list_chats.
Proof.
  unfold option_list_chats.
  do 2 apply sends_at_most_print.
  apply sends_at_most_input. intros limit.
  apply sends_at_most_input. intros page.
  apply sends_at_most_input. intros sort_by.
  apply sends_at_most_input. intros query_filter.
  apply sends_at_most_lift. intros limit_n _.
  apply sends_at_most_lift. intros page_n _.
  cbv zeta.
  apply sends_at_most_print. apply sends_at_most_call.
  exists limit_n, page_n, (or_default (strip sort_by) "last_active").
  destruct (String.eqb_spec (strip query_filter) "") as [He | Hne];
    eexists; (split; [reflexivity |]); repeat (split; [reflexivity |]);
    (split; [apply or_default_nonempty; discriminate |]);
    (split; [reflexivity |]).
  - left. reflexivity.
  - right. exists (strip query_filter). split; [exact Hne | reflexivity].
Qed.

(** X11. The request of option 2 is made of the four answers: when
    they are read and the first two, with their defaults "10" and "0",
    are integers for [int], the option sends one [list_chats] call with
    those numbers as [limit] and [page], the third answer, or
    "last_active" for a blank one, as [sort_by], [include_last_message]
    [True], and [query] exactly when the fourth answer is not blank,
    with that answer stripped.  In every case the option sends at most
    one request, and it is a [list_chats] call of that shape. *)
Theorem list_chats_request_shape `{Runtime} (w : world)
    (limit page sort_by filter : string) (rest : list string) (n p : Z) :
  w_stdin w = limit :: page :: sort_by :: filter :: rest ->
  py_int (or_default (strip limit) "10") = Ok n ->
  py_int (or_default (strip page) "0") = Ok p ->
  w_sent (fst (option_list_chats w))
  = (w_sent w ++ [list_chats_request n p (strip sort_by) (strip filter)])%list
  /\ sends_at_most list_chats_call option_list_chats.
Proof.
  intros Hin Hn Hp. split; [| apply option_list_chats_sends].
  unfold option_list_chats.
  do 2 rewrite (bind_ok _ _ _ _ _ (print_eq _ _)).
  rewrite (bind_input _ _ _ _ limit (page :: sort_by :: filter :: rest)) by exact Hin.
  rewrite (bind_input _ _ _ _ page (sort_by :: filter :: rest)) by reflexivity.
  rewrite (bind_input _ _ _ _ sort_by (filter :: rest)) by reflexivity.
  rewrite (bind_input _ _ _ _ filter rest) by reflexivity.
  rewrite Hn, Hp, !bind_lift_ok. cbv zeta.
  rewrite (bind_ok _ _ _ _ _ (print_eq _ _)).
  rewrite call_then_show_sent. unfold list_chats_request.
  destruct (String.eqb (strip filter) ""); reflexivity.
Qed.

Lemma list_chats_request_shape_witness :
  w_sent (fst (@option_list_chats plain_runtime
                 (start answering_server ["25"; ""; " name "; " alice "])))
  = [ReqCallTool "list_chats"
       (PyDict [("limit", PyInt 25); ("page", PyInt 0);
                ("sort_by", PyStr "name");
                ("include_last_message", PyBool true);
                ("query", PyStr "alice")])].
Proof.
  exact (proj1 (@list_chats_request_shape plain_runtime
                  (start answering_server ["25"; ""; " name "; " alice "])
                  "25" "" " name " " alice " [] 25 0 eq_refl eq_refl eq_refl)).
Defined.

(** X12. The defaults of option 2: when the four questions are answered
    by blank lines, the request sent is [list_chats] with [limit] 10,
    [page] 0, [sort_by] "last_active", [include_last_message] [True] and
    no [query]. *)
Theorem list_chats_defaults `{Runtime} (w : world) (limit page sort_by filter : string)
    (rest : list string) :
  w_stdin w = limit :: page :: sort_by :: filter :: rest ->
  strip limit = "" -> strip page = "" -> strip sort_by = "" -> strip filter = "" ->
  w_sent (fst (option_list_chats w))
  = (w_sent w ++ [default_list_chats_request])%list.
Proof.
  intros Hin Hl Hp Hs Hf.
  unfold option_list_chats.
  do 2 rewrite (bind_ok _ _ _ _ _ (print_eq _ _)).
  rewrite (bind_input _ _ _ _ limit (page :: sort_by :: filter :: rest)) by exact Hin.
  rewrite (bind_input _ _ _ _ page (sort_by :: filter :: rest)) by reflexivity.
  rewrite (bind_input _ _ _ _ sort_by (filter :: rest)) by reflexivity.
  rewrite (bind_input _ _ _ _ filter rest) by reflexivity.
  rewrite Hl, Hp, Hs, Hf.
  change (or_default "" "10") with "10".
  change (or_default "" "0") with "0".
  change (or_default "" "last_active") with "last_active".
  change (py_int "10") with (@Ok Z 10). change (py_int "0") with (@Ok Z 0).
  rewrite !bind_lift_ok. cbv zeta.
  change (String.eqb "" "") with true. cbv iota.
  rewrite (bind_ok _ _ _ _ _ (print_eq _ _)).
  rewrite call_then_show_sent. reflexivity.
Qed.

Lemma list_chats_defaults_witness :
  w_sent (fst (@option_list_chats plain_runtime
                 (start answering_server [""; "  "; ""; " "])))
  = [default_list_chats_request].
Proof.
  exact (@list_chats_defaults plain_runtime
           (start answering_server [""; "  "; ""; " "]) "" "  " "" " " []
           eq_refl eq_refl eq_refl eq_refl eq_refl).
Defined.

Lemma print_menu_eq (w : world) : print_menu w = (add_out w menu_lines, Ok tt).
Proof.
  unfold print_menu.
  repeat rewrite (bind_ok _ _ _ _ _ (print_eq _ _)).
  rewrite print_eq, !add_out_app. reflexivity.
Qed.

(** The handlers of the inner [try]: the report is printed and the loop
    goes on. *)
Lemma menu_handler_eq `{Runtime} (e : exn) (w : world) :
  (if is_value_error e then
     print ("❌ Invalid input: " ++ exn_msg e) ;; mret LoopNext
   else
     print ("❌ Error: " ++ exn_msg e) ;;
     print ("Error type: " ++ exn_class_name (exn_cls e)) ;;
     print ("Error details: " ++ exn_msg e) ;;
     print ("Error attributes: " ++ exn_dict_repr e) ;;
     print "Traceback:" ;;
     print "Please try again or contact support if the issue persists." ;;
     mret LoopNext) w
  = (add_out w (error_report e), Ok LoopNext).
Proof.
  unfold error_report. destruct (is_value_error e).
  - rewrite (bind_ok _ _ _ _ _ (print_eq _ _)). reflexivity.
  - repeat rewrite (bind_ok _ _ _ _ _ (print_eq _ _)).
    rewrite !add_out_app. reflexivity.
Qed.

Lemma menu_iteration_eq `{Runtime} (w : world) :
  menu_iteration w
  = match ((strip <$> input choice_prompt) ≫= fun choice =>
             print "" ≫= fun _ => menu_choice choice) (add_out w menu_lines) with
    | (w', Ok c) => (w', Ok c)
    | (w', Raise e) => (add_out w' (error_report e), Ok LoopNext)
    end.
Proof.
  unfold menu_iteration.
  rewrite (bind_ok _ _ _ _ _ (print_menu_eq w)).
  unfold try_catch.
  match goal with
  | |- match ?b ?w1 with _ => _ end = match ?b' ?w1' with _ => _ end =>
      change b' with b; destruct (b w1) as [w' [c | e]]
  end.
  - reflexivity.
  - apply menu_handler_eq.
Qed.

(** One pass of the loop on a line of input. *)
Lemma menu_iteration_cons `{Runtime} (w : world) (line : string) (rest : list string) :
  w_stdin w = line :: rest ->
  menu_iteration w
  = match menu_choice (strip line)
            (World (w_server w) (w_spawn w) rest
               (w_stdout w ++ menu_lines ++ [choice_prompt; ""])%list (w_sent w)) with
    | (w', Ok c) => (w', Ok c)
    | (w', Raise e) => (add_out w' (error_report e), Ok LoopNext)
    end.
Proof.
  intros Hin. rewrite menu_iteration_eq.
  rewrite (bind_input _ _ _ _ line rest) by exact Hin.
  rewrite (bind_ok _ _ _ _ _ (print_eq _ _)).
  unfold add_out. cbn [w_server w_spawn w_stdin w_stdout w_sent].
  rewrite <- !app_assoc. reflexivity.
Qed.

(** One pass of the loop at the end of the input. *)
Lemma menu_iteration_eof `{Runtime} (w : world) :
  w_stdin w = [] ->
  menu_iteration w
  = (World (w_server w) (w_spawn w) []
       (w_stdout w ++ menu_lines ++ [choice_prompt]
        ++ error_report (Exn EOFError "EOF when reading a line"))%list
       (w_sent w),
     Ok LoopNext).
Proof.
  intros Hin. rewrite menu_iteration_eq.
  rewrite bind_input_eof by exact Hin.
  unfold add_out. cbn [w_server w_spawn w_stdin w_stdout w_sent].
  rewrite <- !app_assoc. reflexivity.
Qed.

Lemma sends_at_most_try_catch {A} (P : request -> Prop) (body : M A)
    (handler : exn -> M A) :
  sends_at_most P body -> (forall e, sends_nothing (handler e)) ->
  sends_at_most P (try_catch body handler).
Proof.
  intros Hb Hh w. unfold try_catch.
  specialize (Hb w). destruct (body w) as [w' [a | e]]; simpl in *.
  - exact Hb.
  - rewrite (Hh e w'). exact Hb.
Qed.

(** What option 6 can send. *)
Lemma option_send_message_sends `{Runtime} :
  sends_at_most
    (fun req => exists recipient message,
       req = send_message_request recipient message)
    option_send_message.
Proof.
  unfold option_send_message.
  do 2 apply sends_at_most_print.
  apply sends_at_most_input. intros recipient.
  destruct (String.eqb (strip recipient) "");
    [apply sends_at_most_nothing, sends_nothing_warning |].
  apply sends_at_most_input. intros message.
  destruct (String.eqb (strip message) "");
    [apply sends_at_most_nothing, sends_nothing_warning |].
  apply sends_at_most_input. intros confirm.
  destruct (String.eqb (lower (strip confirm)) "y");
    [| apply sends_at_most_nothing, sends_nothing_warning].
  apply sends_at_most_print. apply sends_at_most_call. eauto.
Qed.

Lemma option_database_schema_sends `{Runtime} :
  sends_at_most (fun req => req = ReqReadResource "schema://whatsapp/main")
    option_database_schema.
Proof.
  unfold option_database_schema.
  do 3 apply sends_at_most_print. apply sends_at_most_call. reflexivity.
Qed.

Lemma guarded_call_operation (name key : string) (req : request) :
  guarded_call name key req -> is_operation req.
Proof. intros (v & args & _ & -> & _). exact I. Qed.

(** Whatever a choice sends is one tool call or one resource read. *)
Lemma menu_choice_sends `{Runtime} (choice : string) :
  sends_at_most is_operation (menu_choice choice).
Proof.
  destruct menu_options_send_guarded as (H1 & H3 & H4 & H5 & H7).
  unfold menu_choice.
  repeat match goal with
         | |- sends_at_most _ (if ?b then _ else _) => destruct b
         end.
  - eapply sends_at_most_impl; [apply guarded_call_operation | exact H1].
  - eapply sends_at_most_impl; [| exact option_list_chats_sends].
    intros req (l & p & s & args & -> & _). exact I.
  - eapply sends_at_most_impl; [apply guarded_call_operation | exact H3].
  - eapply sends_at_most_impl; [apply guarded_call_operation | exact H4].
  - eapply sends_at_most_impl; [apply guarded_call_operation | exact H5].
  - eapply sends_at_most_impl; [| exact option_send_message_sends].
    intros req (r & m & ->). exact I.
  - eapply sends_at_most_impl; [apply guarded_call_operation | exact H7].
  - eapply sends_at_most_impl; [| exact option_database_schema_sends].
    intros req ->. exact I.
  - apply sends_at_most_nothing.
    apply sends_nothing_bind; [apply sends_nothing_print |].
    intros _. apply (sends_nothing_ret LoopBreak).
  - apply sends_at_most_nothing, sends_nothing_warning.
Qed.

Lemma menu_iteration_sends `{Runtime} : sends_at_most is_operation menu_iteration.
Proof.
  unfold menu_iteration.
  apply sends_at_most_bind;
    [apply sends_nothing_prints_only; intros w; rewrite print_menu_eq; eauto |].
  intros _. apply sends_at_most_try_catch.
  - apply sends_at_most_input. intros line.
    apply sends_at_most_print. apply menu_choice_sends.
  - intros e w. rewrite menu_handler_eq. reflexivity.
Qed.

Lemma menu_iteration_returns `{Runtime} (w : world) :
  exists c, snd (menu_iteration w) = Ok c.
Proof.
  rewrite menu_iteration_eq.
  match goal with
  | |- context [match ?b with _ => _ end] => destruct b as [w' [c | e]]
  end; eauto.
Qed.


(** X14. A choice that is not one of "1" to "9" after stripping (an
    empty line, a word, "10") only prints the "Invalid choice" line: the
    pass reads nothing more, sends nothing, and the loop goes on. *)
Theorem invalid_choice_is_ignored `{Runtime} (w : world) (line : string)
    (rest : list string) :
  w_stdin w = line :: rest ->
  strip line ∉ menu_choices ->
  menu_iteration w
  = (World (w_server w) (w_spawn w) rest
       (w_stdout w ++ menu_lines
        ++ [choice_prompt; "";
            "❌ Invalid choice. Please enter a number between 1-9."])%list
       (w_sent w),
     Ok LoopNext).
Proof.
  intros Hin Hnot. rewrite (menu_iteration_cons w line rest Hin).
  unfold menu_choices in Hnot. rewrite !not_elem_of_cons in Hnot.
  destruct Hnot as (H1 & H2 & H3 & H4 & H5 & H6 & H7 & H8 & H9 & _).
  unfold menu_choice.
  rewrite (proj2 (String.eqb_neq _ _) H1), (proj2 (String.eqb_neq _ _) H2),
    (proj2 (String.eqb_neq _ _) H3), (proj2 (String.eqb_neq _ _) H4),
    (proj2 (String.eqb_neq _ _) H5), (proj2 (String.eqb_neq _ _) H6),
    (proj2 (String.eqb_neq _ _) H7), (proj2 (String.eqb_neq _ _) H8),
    (proj2 (String.eqb_neq _ _) H9).
  rewrite (bind_ok _ _ _ _ _ (print_eq _ _)).
  unfold add_out, mret, M_ret, ret. cbn [w_server w_spawn w_stdin w_stdout w_sent].
  rewrite <- !app_assoc. reflexivity.
Qed.

Lemma invalid_choice_is_ignored_witness :
  w_sent (fst (@menu_iteration plain_runtime (start answering_server ["10"; "9"]))) = []
  /\ w_stdin (fst (@menu_iteration plain_runtime (start answering_server ["10"; "9"])))
     = ["9"]
  /\ snd (@menu_iteration plain_runtime (start answering_server ["10"; "9"]))
     = Ok LoopNext.
Proof.
  rewrite (@invalid_choice_is_ignored plain_runtime
             (start answering_server ["10"; "9"]) "10" ["9"] eq_refl).
  - repeat split.
  - unfold menu_choices. rewrite !not_elem_of_cons.
    repeat (split; [discriminate |]). apply not_elem_of_nil.
Defined.

Lemma menu_loop_S `{Runtime} (fuel : nat) :
  menu_loop (S fuel)
  = (menu_iteration ≫= fun c =>
       match c with
       | LoopBreak => mret true
       | LoopNext => menu_loop fuel
       end).
Proof. reflexivity. Qed.

(** X15. At the end of the input the menu loop does not stop: [input]
    raises [EOFError], the handler for [Exception] reports it, and the
    next pass starts.  However many passes run, the loop has not left,
    nothing was sent, and each pass printed the menu, the prompt and the
    six lines of the report again. *)
Theorem menu_loop_spins_at_end_of_input `{Runtime} (fuel : nat) (w : world) :
  w_stdin w = [] ->
  snd (menu_loop fuel w) = Ok false
  /\ w_sent (fst (menu_loop fuel w)) = w_sent w
  /\ w_stdin (fst (menu_loop fuel w)) = []
  /\ List.length (w_stdout (fst (menu_loop fuel w)))
     = (List.length (w_stdout w) + fuel * 20)%nat.
Proof.
  revert w. induction fuel as [| fuel IH]; intros w Hin.
  - simpl. repeat split; [exact Hin | lia].
  - rewrite menu_loop_S.
    rewrite (bind_ok _ _ _ _ _ (menu_iteration_eof w Hin)).
    match goal with
    | |- context [menu_loop fuel ?w1] =>
        destruct (IH w1 eq_refl) as (Hr & Hs & Hi & Hl)
    end.
    rewrite Hr, Hs, Hi, Hl.
    repeat split.
    cbn [w_stdout]. rewrite !length_app.
    change (List.length menu_lines) with 13%nat.
    change (List.length [choice_prompt]) with 1%nat.
    change (List.length (error_report (Exn EOFError "EOF when reading a line")))
      with 6%nat.
    lia.
Qed.

Lemma menu_loop_spins_at_end_of_input_witness :
  snd (@menu_loop plain_runtime 3 (start answering_server [])) = Ok false
  /\ w_sent (fst (@menu_loop plain_runtime 3 (start answering_server []))) = [].
Proof.
  destruct (@menu_loop_spins_at_end_of_input plain_runtime 3
              (start answering_server []) eq_refl) as (Hr & Hs & _).
  split; [exact Hr | exact Hs].
Defined.

Lemma py_int_raises `{Runtime} (s : string) (e : exn) :
  py_int s = Raise e -> is_value_error e = true.
Proof.
  unfold py_int. destruct (is_ascii s).
  - match goal with
    | |- context [let '(_, _) := ?p in _] => destruct p as [neg body]
    end.
    destruct (int_digits body false) as [ds |].
    + destruct (int_max_str_digits <? N.of_nat (String.length ds))%N;
        [intros [= <-]; reflexivity | discriminate].
    + intros [= <-]. reflexivity.
  - destruct (unicode_int s); [discriminate | intros [= <-]; reflexivity].
Qed.

(** X16. Option 4 with a limit that is not an integer: the three answers
    are read and the "Fetching" line is printed, then [int] raises
    [ValueError]; the menu reports "Invalid input", nothing is sent, and
    the loop goes on.  The same happens when the limit is an integer and
    the page is not. *)
Theorem non_numeric_limit_sends_nothing `{Runtime} (w : world)
    (choice chat_jid limit page : string) (rest : list string) (e : exn) :
  w_stdin w = choice :: chat_jid :: limit :: page :: rest ->
  strip choice = "4" ->
  strip chat_jid <> "" ->
  (py_int (or_default (strip limit) "20") = Raise e
   \/ (exists n, py_int (or_default (strip limit) "20") = Ok n)
      /\ py_int (or_default (strip page) "0") = Raise e) ->
  menu_iteration w
  = (World (w_server w) (w_spawn w) rest
       (w_stdout w ++ menu_lines
        ++ [choice_prompt; ""; "📋 LIST MESSAGES FROM CHAT"; dash_rule;
            "Enter chat JID: "; "Enter limit (default 20): ";
            "Enter page number (default 0): ";
            ("Fetching messages from '" ++ strip chat_jid ++ "'...")%string;
            ("❌ Invalid input: " ++ exn_msg e)%string])%list
       (w_sent w),
     Ok LoopNext).
Proof.
  intros Hin Hchoice Hjid Hbad.
  rewrite (menu_iteration_cons w choice _ Hin), Hchoice.
  change (menu_choice "4") with option_list_messages.
  unfold option_list_messages.
  do 2 rewrite (bind_ok _ _ _ _ _ (print_eq _ _)).
  rewrite (bind_input _ _ _ _ chat_jid (limit :: page :: rest)) by reflexivity.
  rewrite (proj2 (String.eqb_neq _ _) Hjid).
  rewrite (bind_input _ _ _ _ limit (page :: rest)) by reflexivity.
  rewrite (bind_input _ _ _ _ page rest) by reflexivity.
  rewrite (bind_ok _ _ _ _ _ (print_eq _ _)).
  assert (Hve : is_value_error e = true).
  { destruct Hbad as [Hl | [_ Hp]]; eapply py_int_raises; eassumption. }
  assert (Hrun : forall w1,
            (lift (py_int (or_default (strip limit) "20")) ≫= fun limit_n =>
             lift (py_int (or_default (strip page) "0")) ≫= fun page_n =>
             session_call
               (ReqCallTool "list_messages"
                  (PyDict [("chat_jid", PyStr (strip chat_jid));
                           ("limit", PyInt limit_n); ("page", PyInt page_n)]))
             ≫= fun result => print_results result ≫= fun _ => mret LoopNext) w1
            = (w1, Raise e)).
  { intros w1. destruct Hbad as [Hl | [[n Hl] Hp]]; rewrite Hl.
    - apply bind_lift_raise.
    - rewrite bind_lift_ok, Hp. apply bind_lift_raise. }
  rewrite Hrun. unfold error_report. rewrite Hve.
  unfold add_out. cbn [w_server w_spawn w_stdin w_stdout w_sent].
  rewrite <- !app_assoc. reflexivity.
Qed.

Lemma non_numeric_limit_sends_nothing_witness :
  w_sent (fst (@menu_iteration plain_runtime
                 (start answering_server ["4"; "123@s.whatsapp.net"; "ten"; ""])))
  = []
  /\ snd (@menu_iteration plain_runtime
            (start answering_server ["4"; "123@s.whatsapp.net"; "ten"; ""]))
     = Ok LoopNext.
Proof.
  rewrite (@non_numeric_limit_sends_nothing plain_runtime
             (start answering_server ["4"; "123@s.whatsapp.net"; "ten"; ""])
             "4" "123@s.whatsapp.net" "ten" "" []
             (Exn ValueError "invalid literal for int() with base 10: 'ten'")
             eq_refl eq_refl ltac:(discriminate) (or_introl eq_refl)).
  split; reflexivity.
Defined.

(** X17. A tool call that the server fails does not end the session:
    with option 1 and a non-empty query the request goes out, the
    exception of the call is caught by the menu's handlers and reported,
    and the loop goes on.  An exception that is a [ValueError] (so also
    a [JSONDecodeError]) is reported as "Invalid input", any other with
    the six lines of the general report. *)
Theorem failed_call_is_reported `{Runtime} (w : world) (choice query : string)
    (rest : list string) (e : exn) :
  w_stdin w = choice :: query :: rest ->
  strip choice = "1" ->
  strip query <> "" ->
  w_server w
    (w_sent w ++ [ReqCallTool "search_contacts"
                    (PyDict [("query", PyStr (strip query))])])%list
  = Raise e ->
  menu_iteration w
  = (World (w_server w) (w_spawn w) rest
       (w_stdout w ++ menu_lines
        ++ [choice_prompt; ""; "🔍 SEARCH CONTACTS"; dash_rule;
            "Enter search query (name/phone): ";
            ("Searching for contacts matching '" ++ strip query ++ "'...")%string]
        ++ error_report e)%list
       (w_sent w ++ [ReqCallTool "search_contacts"
                       (PyDict [("query", PyStr (strip query))])])%list,
     Ok LoopNext).
Proof.
  intros Hin Hchoice Hquery Hfail.
  rewrite (menu_iteration_cons w choice _ Hin), Hchoice.
  change (menu_choice "1") with option_search_contacts.
  unfold option_search_contacts.
  do 2 rewrite (bind_ok _ _ _ _ _ (print_eq _ _)).
  rewrite (bind_input _ _ _ _ query rest) by reflexivity.
  rewrite (proj2 (String.eqb_neq _ _) Hquery).
  rewrite (bind_ok _ _ _ _ _ (print_eq _ _)).
  unfold mbind at 1, M_bind at 1, bind at 1. rewrite session_call_eq.
  cbn [add_out w_server w_sent w_stdout w_spawn w_stdin]. rewrite Hfail.
  unfold add_out, add_sent. cbn [w_server w_spawn w_stdin w_stdout w_sent].
  rewrite <- !app_assoc. reflexivity.
Qed.

Lemma failed_call_is_reported_witness :
  w_sent (fst (@menu_iteration plain_runtime (start refusing_server ["1"; " alice "])))
  = [ReqCallTool "search_contacts" (PyDict [("query", PyStr "alice")])]
  /\ snd (@menu_iteration plain_runtime (start refusing_server ["1"; " alice "]))
     = Ok LoopNext.
Proof.
  rewrite (@failed_call_is_reported plain_runtime
             (start refusing_server ["1"; " alice "]) "1" " alice " []
             (Exn (OtherError "McpError") "Connection closed")
             eq_refl eq_refl ltac:(discriminate) eq_refl).
  split; reflexivity.
Defined.

(** X18. Option 6 sends a message only after the confirmation: with a
    recipient and a message, any answer to "Send ... ? (y/n)" that does
    not strip and lower-case to "y" cancels, and nothing is sent.
    Conversely, whenever option 6 sent something, three lines were read
    and the third one does strip and lower-case to "y". *)
Theorem send_requires_confirmation `{Runtime} (w : world) :
  (forall recipient message confirm rest,
     w_stdin w = recipient :: message :: confirm :: rest ->
     strip recipient <> "" -> strip message <> "" ->
     lower (strip confirm) <> "y" ->
     option_send_message w
     = (World (w_server w) (w_spawn w) rest
          (w_stdout w
           ++ ["📤 SEND MESSAGE"; dash_rule; "Enter recipient JID: ";
               "Enter message text: ";
               ("Send '" ++ strip message ++ "' to '" ++ strip recipient
                ++ "'? (y/n): ")%string;
               "❌ Message sending cancelled."])%list
          (w_sent w),
        Ok LoopNext))
  /\ (w_sent (fst (option_send_message w)) <> w_sent w ->
      exists recipient message confirm rest,
        w_stdin w = recipient :: message :: confirm :: rest
        /\ lower (strip confirm) = "y").
Proof.
  split.
  - intros recipient message confirm rest Hin Hr Hm Hc.
    unfold option_send_message.
    do 2 rewrite (bind_ok _ _ _ _ _ (print_eq _ _)).
    rewrite (bind_input _ _ _ _ recipient (message :: confirm :: rest)) by exact Hin.
    rewrite (proj2 (String.eqb_neq _ _) Hr).
    rewrite (bind_input _ _ _ _ message (confirm :: rest)) by reflexivity.
    rewrite (proj2 (String.eqb_neq _ _) Hm).
    rewrite (bind_input _ _ _ _ confirm rest) by reflexivity.
    rewrite (proj2 (String.eqb_neq _ _) Hc).
    rewrite (bind_ok _ _ _ _ _ (print_eq _ _)).
    unfold add_out, mret, M_ret, ret.
    cbn [w_server w_spawn w_stdin w_stdout w_sent].
    rewrite <- !app_assoc. reflexivity.
  - intros Hsent.
    unfold option_send_message in Hsent.
    do 2 rewrite (bind_ok _ _ _ _ _ (print_eq _ _)) in Hsent.
    destruct (w_stdin w) as [| recipient stdin] eqn:Hin.
    { rewrite bind_input_eof in Hsent by exact Hin. contradiction Hsent. reflexivity. }
    rewrite (bind_input _ _ _ _ recipient stdin) in Hsent by exact Hin.
    destruct (String.eqb (strip recipient) "").
    { rewrite (bind_ok _ _ _ _ _ (print_eq _ _)) in Hsent.
      contradiction Hsent. reflexivity. }
    destruct stdin as [| message stdin].
    { rewrite bind_input_eof in Hsent by reflexivity.
      contradiction Hsent. reflexivity. }
    rewrite (bind_input _ _ _ _ message stdin) in Hsent by reflexivity.
    destruct (String.eqb (strip message) "").
    { rewrite (bind_ok _ _ _ _ _ (print_eq _ _)) in Hsent.
      contradiction Hsent. reflexivity. }
    destruct stdin as [| confirm stdin].
    { rewrite bind_input_eof in Hsent by reflexivity.
      contradiction Hsent. reflexivity. }
    rewrite (bind_input _ _ _ _ confirm stdin) in Hsent by reflexivity.
    destruct (String.eqb_spec (lower (strip confirm)) "y") as [Hy | Hn].
    + exists recipient, message, confirm, stdin. split; [reflexivity | exact Hy].
    + rewrite (bind_ok _ _ _ _ _ (print_eq _ _)) in Hsent.
      contradiction Hsent. reflexivity.
Qed.

Lemma send_requires_confirmation_witness :
  w_sent (fst (@option_send_message plain_runtime
                 (start answering_server ["123@s.whatsapp.net"; "hello"; "yes"])))
  = [].
Proof.
  rewrite (proj1 (@send_requires_confirmation plain_runtime
                    (start answering_server ["123@s.whatsapp.net"; "hello"; "yes"]))
             "123@s.whatsapp.net" "hello" "yes" [] eq_refl
             ltac:(discriminate) ltac:(discriminate) ltac:(discriminate)).
  reflexivity.
Defined.

Lemma menu_loop_contained `{Runtime} (fuel : nat) (w : world) :
  exists b ops,
    snd (menu_loop fuel w) = Ok b
    /\ w_sent (fst (menu_loop fuel w)) = (w_sent w ++ ops)%list
    /\ Forall is_operation ops
    /\ (List.length ops <= fuel)%nat.
Proof.
  revert w. induction fuel as [| fuel IH]; intros w.
  - exists false, []. simpl. rewrite app_nil_r. repeat split; [constructor | lia].
  - rewrite menu_loop_S. unfold mbind, M_bind, bind.
    destruct (menu_iteration_returns w) as [c Hc].
    pose proof (menu_iteration_sends w) as Hs.
    destruct (menu_iteration w) as [w1 r]. simpl in Hc, Hs. subst r.
    assert (Hops : exists ops1, w_sent w1 = (w_sent w ++ ops1)%list
                                /\ Forall is_operation ops1
                                /\ (List.length ops1 <= 1)%nat).
    { destruct Hs as [Hs | (req & Hreq & Hs)].
      - exists []. rewrite app_nil_r. repeat split; [exact Hs | constructor | simpl; lia].
      - exists [req]. repeat split; [exact Hs | | simpl; lia].
        constructor; [exact Hreq | constructor]. }
    destruct Hops as (ops1 & Hs1 & Hall1 & Hlen1).
    destruct c.
    + destruct (IH w1) as (b & ops & Hr & Hsent & Hall & Hlen).
      exists b, (ops1 ++ ops)%list.
      split; [exact Hr |]. split; [rewrite Hsent, Hs1, app_assoc; reflexivity |].
      split; [apply Forall_app; split; assumption |].
      rewrite length_app. lia.
    + exists true, ops1. simpl.
      split; [reflexivity |]. split; [exact Hs1 |]. split; [exact Hall1 | lia].
Qed.

Lemma interactive_session_returns `{Runtime} (fuel : nat) (w : world) :
  exists b reqs,
    snd (interactive_session fuel w) = Ok b
    /\ w_sent (fst (interactive_session fuel w)) = (w_sent w ++ reqs)%list
    /\ (reqs = []
        \/ exists ops,
             reqs = ReqInitialize :: ops
             /\ Forall is_operation ops
             /\ (List.length ops <= fuel)%nat).
Proof.
  unfold interactive_session.
  do 2 rewrite (bind_ok _ _ _ _ _ (print_eq _ _)).
  set (w1 := add_out (add_out w _) _).
  assert (Hw1 : w_sent w1 = w_sent w) by reflexivity.
  destruct (connect_cases (menu_loop fuel) w1)
    as [(e & Hspawn & Hc) | [(out & e & Hc) | (greeting & Hc)]].
  - rewrite (try_catch_raise _ _ _ _ _ Hc).
    rewrite (bind_ok _ _ _ _ _ (print_eq _ _)).
    exists true, []. rewrite app_nil_r.
    split; [reflexivity |]. split; [reflexivity | left; reflexivity].
  - rewrite (try_catch_raise _ _ _ _ _ Hc).
    rewrite (bind_ok _ _ _ _ _ (print_eq _ _)).
    exists true, [ReqInitialize].
    split; [reflexivity |]. split; [reflexivity |].
    right. exists []. repeat split; [constructor | simpl; lia].
  - destruct (menu_loop_contained fuel (add_out (add_sent w1 [ReqInitialize]) greeting))
      as (b & ops & Hr & Hsent & Hall & Hlen).
    destruct (menu_loop fuel _) as [w' [b' | e]]; [| discriminate Hr].
    rewrite (try_catch_ok _ _ _ _ _ Hc).
    exists b', (ReqInitialize :: ops).
    split; [reflexivity |]. simpl in Hsent. simpl fst.
    split; [rewrite Hsent, <- app_assoc; reflexivity |].
    right. exists ops. repeat split; assumption.
Qed.

(** X19. [interactive_session] never raises, and it sends nothing before
    the handshake: the requests it sent are none (the subprocess did not
    open), or [initialize] followed by tool calls and resource reads
    only, at most one for each pass of the menu.  When [initialize]
    fails no tool call follows. *)
Theorem interactive_session_contained `{Runtime} (fuel : nat) (w : world) :
  (exists b reqs,
     snd (interactive_session fuel w) = Ok b
     /\ w_sent (fst (interactive_session fuel w)) = (w_sent w ++ reqs)%list
     /\ (reqs = []
         \/ exists ops,
              reqs = ReqInitialize :: ops
              /\ Forall is_operation ops
              /\ (List.length ops <= fuel)%nat))
  /\ (forall e,
        w_spawn w = None ->
        w_server w (w_sent w ++ [ReqInitialize])%list = Raise e ->
        interactive_session fuel w
        = (add_out (add_sent w [ReqInitialize])
             ["🔗 WhatsApp MCP Interactive Session"; rule;
              "✗ Failed to initialize session: " ++ exn_msg e;
              "✗ Failed to establish session: " ++ exn_msg e],
           Ok true)).
Proof.
  split; [apply interactive_session_returns |].
  intros e Hspawn Hinit. unfold interactive_session.
  do 2 rewrite (bind_ok _ _ _ _ _ (print_eq _ _)).
  erewrite try_catch_raise; [| apply connect_handshake; [exact Hspawn | exact Hinit]].
  rewrite (bind_ok _ _ _ _ _ (print_eq _ _)).
  unfold add_out, add_sent, mret, M_ret, ret.
  cbn [w_server w_spawn w_stdin w_stdout w_sent].
  rewrite <- !app_assoc. reflexivity.
Qed.

(** X20. The exit status of the inspector script.  When the [mcp]
    package can be imported the script ends with status 0, whatever the
    server does: [main] prints its banner and runs [inspect_server],
    which catches every failure, so the handler with [sys.exit(1)] is
    never reached, not even when the server cannot be started.  When the
    package cannot be imported the script prints one line and ends with
    status 1, before anything else. *)
Theorem inspect_script_exit_status `{Runtime} (w : world) :
  (exists out reqs,
     inspect_script true w = (add_out (add_sent w reqs) out, Ok 0)
     /\ exists rest,
          out = ("MCP Server API Inspector" :: rule
                 :: ("Connecting to server: node " ++ join " " SERVER_ARGS)%string
                 :: "" :: rest))
  /\ inspect_script false w
     = (add_out w ["Error: MCP library not found. Install with: pip install mcp"],
        Ok 1).
Proof.
  split; [| reflexivity].
  pose (banner := ["MCP Server API Inspector"; rule;
                   ("Connecting to server: " ++ SERVER_COMMAND ++ " "
                    ++ join " " SERVER_ARGS)%string; ""]).
  destruct (inspect_server_returns (add_out w banner))
    as (out & reqs & Hrun & _).
  exists (banner ++ out)%list, reqs.
  split; [| exists out; reflexivity].
  assert (Hmain : main w = (add_out (add_sent w reqs) (banner ++ out)%list, Ok tt)).
  { unfold main.
    do 4 rewrite (bind_ok _ _ _ _ _ (print_eq _ _)).
    match goal with
    | |- inspect_server ?w1 = _ =>
        replace w1 with (add_out w banner) by (rewrite !add_out_app; reflexivity)
    end.
    rewrite Hrun.
    unfold add_out, add_sent. cbn [w_server w_spawn w_stdin w_stdout w_sent].
    rewrite <- !app_assoc. reflexivity. }
  unfold inspect_script. apply try_catch_ok.
  rewrite (bind_ok _ _ _ _ _ Hmain). reflexivity.
Qed.

(** X21. Option 3 asks for the last message unless the answer to
    "Include last message?" strips and lower-cases to exactly "n": with
    "n" or " N " the call carries [include_last_message] [False]; with
    any other answer, "no" and the empty line included, it carries
    [True].  In both cases the call goes out with the stripped JID. *)
Theorem get_chat_include_flag `{Runtime} (w : world) (chat_jid answer : string)
    (rest : list string) :
  w_stdin w = chat_jid :: answer :: rest ->
  strip chat_jid <> "" ->
  (lower (strip answer) = "n" ->
   w_sent (fst (option_get_chat w))
   = (w_sent w ++ [get_chat_request (strip chat_jid) false])%list)
  /\ (lower (strip answer) <> "n" ->
      w_sent (fst (option_get_chat w))
      = (w_sent w ++ [get_chat_request (strip chat_jid) true])%list).
Proof.
  intros Hin Hjid.
  assert (Hrun : w_sent (fst (option_get_chat w))
                 = (w_sent w
                    ++ [get_chat_request (strip chat_jid)
                          (negb (String.eqb (lower (strip answer)) "n"))])%list).
  { unfold option_get_chat.
    do 2 rewrite (bind_ok _ _ _ _ _ (print_eq _ _)).
    rewrite (bind_input _ _ _ _ chat_jid (answer :: rest)) by exact Hin.
    rewrite (proj2 (String.eqb_neq _ _) Hjid).
    rewrite (bind_input _ _ _ _ answer rest) by reflexivity.
    cbv zeta.
    rewrite (bind_ok _ _ _ _ _ (print_eq _ _)).
    rewrite call_then_show_sent. reflexivity. }
  split; intros Hn; rewrite Hrun.
  - rewrite Hn. reflexivity.
  - rewrite (proj2 (String.eqb_neq _ _) Hn). reflexivity.
Qed.

Lemma get_chat_include_flag_witness :
  w_sent (fst (@option_get_chat plain_runtime
                 (start answering_server ["123@s.whatsapp.net"; "no"])))
  = [get_chat_request "123@s.whatsapp.net" true]
  /\ w_sent (fst (@option_get_chat plain_runtime
                    (start answering_server ["123@s.whatsapp.net"; " N "])))
     = [get_chat_request "123@s.whatsapp.net" false].
Proof.
  split.
  - exact (proj2 (@get_chat_include_flag plain_runtime
                    (start answering_server ["123@s.whatsapp.net"; "no"])
                    "123@s.whatsapp.net" "no" [] eq_refl ltac:(discriminate))
             ltac:(discriminate)).
  - exact (proj1 (@get_chat_include_flag plain_runtime
                    (start answering_server ["123@s.whatsapp.net"; " N "])
                    "123@s.whatsapp.net" " N " [] eq_refl ltac:(discriminate))
             eq_refl).
Defined.
